(** * parcel-delivery-server: the request handlers of [index.js] over a model
      of the document store.

    The server is one Express application whose handlers read and write four
    MongoDB collections ([users], [parcels], [payments], [riders]).  Each
    handler is embedded as a function in a small state-and-exception monad
    [M]; the calls it makes into the runtime and the driver ([findOne],
    [find], [insertOne], [updateOne], [deleteOne], [new ObjectId],
    [new Date], [split], [includes], [toISOString]) are modelled in the
    modules [Js], [Bson] and [Mongo] below.

    Scope of the model.  Field values are scalars: JSON bodies carry [null],
    booleans, integers and strings, and query-string and route parameters are
    strings; nested objects and arrays are left out.  The store answers every
    call (no network failure); the only errors are the ones the data decides:
    [new ObjectId] on a malformed argument, a field name with a NUL byte or
    a duplicate [_id] on insertion, and the lookup of an identifier that is
    not bound.  A handler runs to completion; where the order of two
    overlapping handlers matters, their steps are interleaved explicitly. *)

From Stdlib Require Import ZArith Ascii String List Permutation Sorted Lia.
From stdpp Require Import base option list strings gmap fin_maps.

Local Open Scope string_scope.
Local Open Scope list_scope.
Local Open Scope Z_scope.

(** ** JSON request data and BSON stored data *)

(** Scalars a JSON body can carry (numbers are integers).  A field that is
    not there is JavaScript's [undefined], written [None] throughout. *)
Inductive json :=
  | JNull
  | JBool (b : bool)
  | JNum (n : Z)
  | JStr (s : string).

(** Scalars a stored document can carry: the JSON ones, the driver's
    [ObjectId] (twelve bytes, kept as the number they spell) and [Date]
    (milliseconds since the epoch). *)
Inductive value :=
  | VNull
  | VBool (b : bool)
  | VNum (n : Z)
  | VStr (s : string)
  | VOid (o : N)
  | VDate (t : Z).

#[global] Instance json_eq_dec : EqDecision json.
Proof. solve_decision. Defined.
#[global] Instance value_eq_dec : EqDecision value.
Proof. solve_decision. Defined.

Definition of_json (j : json) : value :=
  match j with
  | JNull => VNull
  | JBool b => VBool b
  | JNum n => VNum n
  | JStr s => VStr s
  end.

Abbreviation doc := (gmap string value).
Abbreviation collection := (list (gmap string value)).


(** ** The JavaScript runtime: truthiness, [includes], [split], [toISOString] *)

Module Js.

(** [!v] is false exactly on the truthy values. *)
Definition truthy (v : option json) : bool :=
  match v with
  | None | Some JNull => false
  | Some (JBool b) => b
  | Some (JNum n) => negb (n =? 0)
  | Some (JStr s) => negb (String.eqb s "")
  end.

(** Truthiness of a value read back from a stored document; an [ObjectId]
    and a [Date] are objects, hence truthy. *)
Definition truthy_value (v : option value) : bool :=
  match v with
  | None | Some VNull => false
  | Some (VBool b) => b
  | Some (VNum n) => negb (n =? 0)
  | Some (VStr s) => negb (String.eqb s "")
  | Some (VOid _) | Some (VDate _) => true
  end.

(** Truthiness of a route or query-string parameter. *)
Definition truthy_string (v : option string) : bool :=
  match v with
  | None => false
  | Some s => negb (String.eqb s "")
  end.

(** [[s1, ..., sn].includes(v)] for an array of string literals. *)
Definition includes (l : list string) (v : option json) : bool :=
  match v with
  | Some (JStr s) => existsb (String.eqb s) l
  | _ => false
  end.

(** [s.split(c)] for a one-character separator. *)
Fixpoint split_aux (c : ascii) (acc : string) (s : string) : list string :=
  match s with
  | EmptyString => [String.rev acc]
  | String a s' =>
      if Ascii.eqb a c then String.rev acc :: split_aux c EmptyString s'
      else split_aux c (String a acc) s'
  end.

Definition split (c : ascii) (s : string) : list string :=
  split_aux c EmptyString s.

(** [Date.prototype.toISOString] on milliseconds since the epoch. *)
Definition digit (n : Z) : ascii := ascii_of_N (48 + Z.to_N (n mod 10)).

Fixpoint digits (width : nat) (n : Z) : string :=
  match width with
  | O => EmptyString
  | S w => digits w (n / 10) +:+ String (digit n) EmptyString
  end.

Definition civil_from_days (z : Z) : Z * Z * Z :=
  let z := z + 719468 in
  let era := z / 146097 in
  let doe := z - era * 146097 in
  let yoe := (doe - doe / 1460 + doe / 36524 - doe / 146096) / 365 in
  let doy := doe - (365 * yoe + yoe / 4 - yoe / 100) in
  let mp := (5 * doy + 2) / 153 in
  let d := doy - (153 * mp + 2) / 5 + 1 in
  let m := if mp <? 10 then mp + 3 else mp - 9 in
  let y := yoe + era * 400 in
  (if m <=? 2 then y + 1 else y, m, d).

Definition year_string (y : Z) : string :=
  if (0 <=? y) && (y <=? 9999) then digits 4 y
  else (if y <? 0 then "-" else "+") +:+ digits 6 (Z.abs y).

Definition toISOString (t : Z) : string :=
  let '(y, m, d) := civil_from_days (t / 86400000) in
  let ms := t mod 86400000 in
  year_string y +:+ "-" +:+ digits 2 m +:+ "-" +:+ digits 2 d +:+ "T"
    +:+ digits 2 (ms / 3600000) +:+ ":" +:+ digits 2 (ms / 60000 mod 60) +:+ ":"
    +:+ digits 2 (ms / 1000 mod 60) +:+ "." +:+ digits 3 (ms mod 1000) +:+ "Z".

End Js.

(** ** BSON: [ObjectId] construction and the comparison order of the store *)

Module Bson.

Definition hex_val (c : ascii) : option N :=
  let n := N_of_ascii c in
  if (48 <=? n)%N && (n <=? 57)%N then Some (n - 48)%N
  else if (97 <=? n)%N && (n <=? 102)%N then Some (n - 87)%N
  else if (65 <=? n)%N && (n <=? 70)%N then Some (n - 55)%N
  else None.

Fixpoint hex_acc (acc : N) (s : string) : option N :=
  match s with
  | EmptyString => Some acc
  | String c s' =>
      match hex_val c with
      | Some d => hex_acc (16 * acc + d)%N s'
      | None => None
      end
  end.

(** [ObjectId.isValid]-style test of the string form: exactly 24 hexadecimal
    characters ([/^[0-9a-fA-F]{24}$/]); the result is the number they spell. *)
Definition of_hex (s : string) : option N :=
  if (String.length s =? 24)%nat then hex_acc 0%N s else None.

(** Canonical type order of BSON values under a sort:
    null < numbers < strings < ObjectId < booleans < dates. *)
Definition rank (v : value) : Z :=
  match v with
  | VNull => 1
  | VNum _ => 2
  | VStr _ => 3
  | VOid _ => 7
  | VBool _ => 8
  | VDate _ => 9
  end.

Definition compare (a b : value) : comparison :=
  match a, b with
  | VNull, VNull => Eq
  | VNum x, VNum y => Z.compare x y
  | VStr x, VStr y => String.compare x y
  | VOid x, VOid y => N.compare x y
  | VBool x, VBool y => Bool.compare x y
  | VDate x, VDate y => Z.compare x y
  | _, _ => Z.compare (rank a) (rank b)
  end.

(** [a] sorts no later than [b] in ascending order. *)
Definition leb (a b : value) : bool :=
  match compare a b with Gt => false | _ => true end.

(** The serializer writes a field name as a NUL-terminated string and throws
    on a name that holds a NUL byte itself; [has_nul] finds such a byte. *)
Fixpoint has_nul (s : string) : bool :=
  match s with
  | EmptyString => false
  | String a s' => Ascii.eqb a Ascii.zero || has_nul s'
  end.

(** [serialize] goes through without throwing: no field name of the document
    holds a NUL byte.  (Field values are scalars here and always go
    through.) *)
Definition serializable (d : doc) : bool :=
  bool_decide (map_Forall (fun (k : string) (_ : value) => has_nul k = false) d).

End Bson.

(** ** The document store: collections as lists of documents in insertion
       order, with the driver's operations on them *)

Module Mongo.

(** An equality condition [{k: q}].  A condition on [null] also matches a
    document that lacks the field; the driver sends an [undefined] filter
    value as [null]. *)
Definition field_matches (stored : option value) (q : value) : bool :=
  match q with
  | VNull => match stored with None | Some VNull => true | Some _ => false end
  | _ => bool_decide (stored = Some q)
  end.

(** A filter document is a list of equality conditions, all of which must
    hold; [[]] is the empty filter [{}]. *)
Definition matches (q : list (string * value)) (d : doc) : bool :=
  forallb (fun kv => field_matches (d !! kv.1) kv.2) q.

Definition findOne (q : list (string * value)) (c : collection) : option doc :=
  List.find (matches q) c.

Definition find (q : list (string * value)) (c : collection) : collection :=
  List.filter (matches q) c.

(** [sort: {k: -1}]: descending on field [k] in the BSON order, a missing
    field sorting as [null].  Documents with equal keys keep their stored
    order here; the store promises no order among them, and nothing below
    depends on it. *)
Definition sort_key (k : string) (d : doc) : value := default VNull (d !! k).

Fixpoint insert_desc (k : string) (d : doc) (l : collection) : collection :=
  match l with
  | [] => [d]
  | x :: l' =>
      if Bson.leb (sort_key k x) (sort_key k d) then d :: x :: l'
      else x :: insert_desc k d l'
  end.

Definition sort_desc (k : string) (l : collection) : collection :=
  foldr (insert_desc k) [] l.

Record UpdateResult := { matchedCount : Z; modifiedCount : Z }.

(** [{$set: {k1: v1, ..., kn: vn}}] *)
Definition apply_set (sets : list (string * value)) (d : doc) : doc :=
  foldl (fun d kv => <[kv.1 := kv.2]> d) d sets.

(** [updateOne] rewrites the first matching document; [modifiedCount] counts
    it only when the rewrite changed it. *)
Fixpoint updateOne (q sets : list (string * value)) (c : collection)
  : UpdateResult * collection :=
  match c with
  | [] => ({| matchedCount := 0; modifiedCount := 0 |}, [])
  | d :: c' =>
      if matches q d then
        let d' := apply_set sets d in
        ({| matchedCount := 1;
            modifiedCount := if bool_decide (d' = d) then 0 else 1 |}, d' :: c')
      else
        let '(r, c'') := updateOne q sets c' in (r, d :: c'')
  end.

(** [deleteOne] removes the first matching document and reports
    [deletedCount]. *)
Fixpoint deleteOne (q : list (string * value)) (c : collection) : Z * collection :=
  match c with
  | [] => (0, [])
  | d :: c' =>
      if matches q d then (1, c')
      else let '(n, c'') := deleteOne q c' in (n, d :: c'')
  end.

Definition has_id (v : value) (c : collection) : bool :=
  existsb (fun d => bool_decide (d !! "_id" = Some v)) c.

(** Why an insertion is refused: by the driver, whose serializer throws on
    the document before anything is sent, or by the server, whose unique index
    on [_id] already holds the document's [_id]. *)
Inductive InsertError := InvalidKey | DuplicateKey.

(** [insertOne], in the driver's order.  First a document whose [_id] is
    absent or [null] receives a newly generated [ObjectId], drawn from the
    supply [next]; the supply is returned beside the outcome, since a
    generated identifier is used up whether or not the insertion goes
    through.  Then the document is serialized, which throws on a field name
    with a NUL byte.  Last the server appends the document, unless its [_id]
    is already stored. *)
Definition insertOne (d : doc) (c : collection) (next : N)
  : (InsertError + value * collection) * N :=
  let '(d', next') :=
    match d !! "_id" with
    | None | Some VNull => (<["_id" := VOid next]> d, N.succ next)
    | Some _ => (d, next)
    end in
  if negb (Bson.serializable d') then (inl InvalidKey, next')
  else
    let id := default VNull (d' !! "_id") in
    if has_id id c then (inl DuplicateKey, next') else (inr (id, c ++ [d']), next').

End Mongo.

(** ** The handler monad: the four collections, the [ObjectId] supply and
       the clock, with JavaScript exceptions *)

Inductive exn :=
  | BSONError
  | ReferenceError (name : string)
  | MongoServerError (code : Z).

Inductive coll := Users | Parcels | Payments | Riders.

Record world := World {
  users : collection;
  parcels : collection;
  payments : collection;
  riders : collection;
  next_oid : N;   (* the next ObjectId the driver generates *)
  ticks : nat     (* how many times the clock has been read *)
}.

(** What a verified identity token carries, as far as the handlers look. *)
Record DecodedIdToken := { email : option string }.

(** The collaborators outside the process: the clock behind [new Date()] and
    the identity provider behind [admin.auth().verifyIdToken]. *)
Record env := Env {
  clock : nat -> Z;
  verifyIdToken : string -> option DecodedIdToken
}.

(** A run ends in [inr a], or in [inl x] when [x] was thrown and not caught;
    writes made before the throw stay.  For a handler, [inr r] is the
    response sent, and [inl x] is a rejected promise: nothing is sent. *)
Definition M (A : Type) : Type := env -> world -> (exn + A) * world.

Definition ret {A} (a : A) : M A := fun _ w => (inr a, w).

Definition bind {A B} (m : M A) (k : A -> M B) : M B :=
  fun e w =>
    match m e w with
    | (inr a, w') => k a e w'
    | (inl x, w') => (inl x, w')
    end.

Definition throw {A} (x : exn) : M A := fun _ w => (inl x, w).

(** [try { m } catch (error) { h }] *)
Definition try_catch {A} (m : M A) (h : exn -> M A) : M A :=
  fun e w =>
    match m e w with
    | (inr a, w') => (inr a, w')
    | (inl x, w') => h x e w'
    end.

Notation "'let*' x ':=' m 'in' k" := (bind m (fun x => k))
  (at level 10, x name, m at level 100, k at level 200).

Definition get (c : coll) (w : world) : collection :=
  match c with
  | Users => users w
  | Parcels => parcels w
  | Payments => payments w
  | Riders => riders w
  end.

Definition set (c : coll) (l : collection) (w : world) : world :=
  match c with
  | Users => World l (parcels w) (payments w) (riders w) (next_oid w) (ticks w)
  | Parcels => World (users w) l (payments w) (riders w) (next_oid w) (ticks w)
  | Payments => World (users w) (parcels w) l (riders w) (next_oid w) (ticks w)
  | Riders => World (users w) (parcels w) (payments w) l (next_oid w) (ticks w)
  end.

Definition set_next_oid (n : N) (w : world) : world :=
  World (users w) (parcels w) (payments w) (riders w) n (ticks w).

(** [new Date()] *)
Definition new_Date : M Z :=
  fun e w =>
    (inr (clock e (ticks w)),
     World (users w) (parcels w) (payments w) (riders w) (next_oid w) (S (ticks w))).

(** [new ObjectId(v)]: a 24-character hexadecimal string is decoded; no
    argument, [null] or a number generates a new identifier, drawn from the
    supply; any other string and a boolean are rejected with a [BSONError]
    (the driver's current major version; older ones also took 12-character
    strings). *)
Definition new_ObjectId (v : option json) : M N :=
  match v with
  | Some (JStr s) =>
      match Bson.of_hex s with
      | Some o => ret o
      | None => throw BSONError
      end
  | None | Some JNull | Some (JNum _) =>
      fun _ w => (inr (next_oid w), set_next_oid (N.succ (next_oid w)) w)
  | Some (JBool _) => throw BSONError
  end.

Definition findOne (c : coll) (q : list (string * value)) : M (option doc) :=
  fun _ w => (inr (Mongo.findOne q (get c w)), w).

Definition find (c : coll) (q : list (string * value)) (sort : option string)
  : M collection :=
  fun _ w =>
    let l := Mongo.find q (get c w) in
    (inr (match sort with Some k => Mongo.sort_desc k l | None => l end), w).

Definition updateOne (c : coll) (q sets : list (string * value))
  : M Mongo.UpdateResult :=
  fun _ w =>
    let '(r, l) := Mongo.updateOne q sets (get c w) in (inr r, set c l w).

Definition deleteOne (c : coll) (q : list (string * value)) : M Z :=
  fun _ w =>
    let '(n, l) := Mongo.deleteOne q (get c w) in (inr n, set c l w).

(** [await c.insertOne(d)]: the serializer's refusal is thrown as a
    [BSONError], the unique index's as the server's duplicate-key error
    (code 11000); in both cases nothing is stored. *)
Definition insertOne (c : coll) (d : doc) : M value :=
  fun _ w =>
    match Mongo.insertOne d (get c w) (next_oid w) with
    | (inr (id, l), n) => (inr id, set_next_oid n (set c l w))
    | (inl Mongo.InvalidKey, n) => (inl BSONError, set_next_oid n w)
    | (inl Mongo.DuplicateKey, n) => (inl (MongoServerError 11000), set_next_oid n w)
    end.

(** ** Requests and responses *)

(** An Express request, as far as the handlers look at it: the
    [Authorization] header, the route parameters, the query string and the
    JSON body. *)
Record Req := {
  authorization : option string;
  params : gmap string string;
  query : gmap string string;
  body : gmap string json
}.

(** What [res.send] is given: an object literal of scalars, one stored
    document, an array of them, or the driver's result of a write. *)
Inductive payload :=
  | Obj (fields : list (string * value))
  | Document (d : gmap string value)
  | Docs (l : list (gmap string value))
  | Updated (r : Mongo.UpdateResult)
  | Inserted (insertedId : value)
  | Deleted (deletedCount : Z).

Record response := { status : Z; sent : payload }.

(** [res.status(code).send(p)]; [res.send(p)] is [send 200 p]. *)
Definition send (code : Z) (p : payload) : M response :=
  ret {| status := code; sent := p |}.

(** The body as the document the driver stores. *)
Definition doc_of_body (b : gmap string json) : gmap string value := of_json <$> b.

(** An [undefined] written into a filter, a [$set] or an inserted document
    is stored as [null]. *)
Definition of_undef (v : option json) : value :=
  match v with
  | Some j => of_json j
  | None => VNull
  end.

Definition of_undef_string (v : option string) : value :=
  match v with
  | Some s => VStr s
  | None => VNull
  end.

Definition param (req : Req) (k : string) : option json := JStr <$> params req !! k.

(** ** Middleware *)

Definition verifyFBToken (req : Req) (next : DecodedIdToken -> M response)
  : M response :=
  let authHeader := authorization req in
  if negb (Js.truthy_string authHeader) then
    send 401 (Obj [("message", VStr "unauthorize access")])
  else
    let token := Js.split " " (default "" authHeader) !! 1%nat in
    if negb (Js.truthy_string token) then
      send 401 (Obj [("message", VStr "unauthorize access")])
    else
      fun e =>
        match verifyIdToken e (default "" token) with
        | Some decoded => next decoded e
        | None => send 403 (Obj [("message", VStr "forbidden access")]) e
        end.

Definition adminVerify (decoded : DecodedIdToken) (next : M response) : M response :=
  let* user := findOne Users [("email", of_undef_string (email decoded))] in
  match user with
  | None => send 403 (Obj [("message", VStr "Forbidden Access")])
  | Some u =>
      if bool_decide (u !! "role" = Some (VStr "admin")) then next
      else send 403 (Obj [("message", VStr "Forbidden Access")])
  end.

(** ** The handlers of [run()], one per route, in the order of [index.js] *)

(** [GET /users/:email/role] *)
Definition GET_users_email_role (req : Req) : M response :=
  let email := params req !! "email" in
  if negb (Js.truthy_string email) then
    send 400 (Obj [("error", VStr "Email is required")])
  else
    try_catch
      (let* user := findOne Users [("email", of_undef_string email)] in
       match user with
       | None => send 404 (Obj [("error", VStr "User not found")])
       | Some u =>
           send 200 (Obj [("role", if Js.truthy_value (u !! "role")
                                   then default VNull (u !! "role")
                                   else VStr "user")])
       end)
      (fun _ => send 500 (Obj [("error", VStr "Failed to fetch user role")])).

(** [POST /users] *)
Definition POST_users (req : Req) : M response :=
  let email := body req !! "email" in
  let* userExists := findOne Users [("email", of_undef email)] in
  match userExists with
  | Some _ => send 200 (Obj [("message", VStr "User already exists")])
  | None =>
      let* created_at := new_Date in
      let user := <["created_at" := VDate created_at]> (doc_of_body (body req)) in
      let* result := insertOne Users user in
      send 200 (Inserted result)
  end.

(** [PATCH /users/:id/role] *)
Definition PATCH_users_id_role (req : Req) : M response :=
  let id := param req "id" in
  let role := body req !! "role" in
  if negb (Js.includes ["admin"; "user"] role) then
    send 400 (Obj [("error", VStr "Invalid role")])
  else
    try_catch
      (let* _id := new_ObjectId id in
       let* result := updateOne Users [("_id", VOid _id)] [("role", of_undef role)] in
       send 200 (Updated result))
      (fun _ => send 500 (Obj [("error", VStr "Could not update user role")])).

(** The equality condition a query-string filter contributes: none when the
    parameter is absent or empty ([if (payment_status) query.payment_status =
    payment_status]). *)
Definition filter_if_truthy (k : string) (v : option string) : list (string * value) :=
  if Js.truthy_string v then [(k, of_undef_string v)] else [].

(** [GET /parcels] *)
Definition GET_parcels (req : Req) : M response :=
  verifyFBToken req (fun _ =>
    try_catch
      (let payment_status := query req !! "payment_status" in
       let delivery_status := query req !! "delivery_status" in
       let query := filter_if_truthy "payment_status" payment_status
                    ++ filter_if_truthy "delivery_status" delivery_status in
       let* parcels := find Parcels query (Some "createdAt") in
       send 200 (Docs parcels))
      (fun _ => send 500 (Obj [("message", VStr "Failed to get parcels")]))).

(** [GET /parcels/:id] *)
Definition GET_parcels_id (req : Req) : M response :=
  try_catch
    (let id := param req "id" in
     let* _id := new_ObjectId id in
     let* parcel := findOne Parcels [("_id", VOid _id)] in
     match parcel with
     | None => send 404 (Obj [("message", VStr "Parcel not found")])
     | Some p => send 200 (Document p)
     end)
    (fun _ => send 500 (Obj [("message", VStr "Failed to fetch parcel")])).

(** [POST /parcels] *)
Definition POST_parcels (req : Req) : M response :=
  try_catch
    (let newParcel := doc_of_body (body req) in
     let* result := insertOne Parcels newParcel in
     send 201 (Inserted result))
    (fun _ => send 500 (Obj [("message", VStr "Failed to create parcel")])).

(** [DELETE /parcels/:id] *)
Definition DELETE_parcels_id (req : Req) : M response :=
  try_catch
    (let id := param req "id" in
     let* _id := new_ObjectId id in
     let* result := deleteOne Parcels [("_id", VOid _id)] in
     send 200 (Deleted result))
    (fun _ => send 500 (Obj [("message", VStr "Failed to delete parcel")])).

(** [POST /riders] *)
Definition POST_riders (req : Req) : M response :=
  let rider := doc_of_body (body req) in
  let* result := insertOne Riders rider in
  send 200 (Inserted result).

(** [GET /riders/pending] *)
Definition GET_riders_pending (req : Req) : M response :=
  verifyFBToken req (fun decoded => adminVerify decoded (
    try_catch
      (let* pendingRiders := find Riders [("status", VStr "pending")] (Some "applied_at") in
       send 200 (Docs pendingRiders))
      (fun _ => send 500 (Obj [("message", VStr "Failed to fetch pending riders")])))).

(** [PATCH /riders/status/:id] *)
Definition PATCH_riders_status_id (req : Req) : M response :=
  try_catch
    (let id := param req "id" in
     let status := body req !! "status" in
     let* _id := new_ObjectId id in
     let* updated_at := new_Date in
     let* result := updateOne Riders [("_id", VOid _id)]
                      [("status", of_undef status); ("updated_at", VDate updated_at)] in
     if 0 <? Mongo.modifiedCount result then
       send 200 (Obj [("success", VBool true); ("message", VStr "Status updated")])
     else
       send 404 (Obj [("success", VBool false);
                      ("message", VStr "Rider not found or already updated")]))
    (fun _ => send 500 (Obj [("success", VBool false); ("message", VStr "Server error")])).

(** [GET /riders/active] *)
Definition GET_riders_active (req : Req) : M response :=
  verifyFBToken req (fun decoded => adminVerify decoded (
    let* result := find Riders [("status", VStr "active")] None in
    send 200 (Docs result))).

(** [PATCH /riders/:id/status] *)
Definition PATCH_riders_id_status (req : Req) : M response :=
  verifyFBToken req (fun decoded => adminVerify decoded (
    let id := param req "id" in
    let status := body req !! "status" in
    if negb (Js.includes ["active"; "rejected"] status) then
      send 400 (Obj [("error", VStr "Invalid status value")])
    else
      try_catch
        (let* _id := new_ObjectId id in
         let filter := [("_id", VOid _id)] in
         let* result := updateOne Riders filter [("status", of_undef status)] in
         let* _ :=
           if bool_decide (status = Some (JStr "active")) then
             let* rider := findOne Riders filter in
             let rider_email := rider ≫= (fun r => r !! "email") in
             if Js.truthy_value rider_email then
               let* _ := updateOne Users [("email", default VNull rider_email)]
                           [("role", VStr "rider")] in
               ret tt
             else ret tt
           else ret tt in
         send 200 (Updated result))
        (fun _ => send 500 (Obj [("error", VStr "Failed to update rider status")])))).

(** [GET /riders/available] *)
Definition GET_riders_available (req : Req) : M response :=
  let district := query req !! "district" in
  if negb (Js.truthy_string district) then
    send 400 (Obj [("error", VStr "District required")])
  else
    try_catch
      (let* riders := find Riders [("district", of_undef_string district)] None in
       send 200 (Docs riders))
      (fun _ => send 500 (Obj [("error", VStr "Failed to load riders")])).

(** [POST /parcels/assign] *)
Definition POST_parcels_assign (req : Req) : M response :=
  let parcelId := body req !! "parcelId" in
  let riderEmail := body req !! "riderEmail" in
  let assignedAt := body req !! "assignedAt" in
  if negb (Js.truthy parcelId) || negb (Js.truthy riderEmail) then
    send 400 (Obj [("error", VStr "parcelId and riderEmail are required")])
  else
    try_catch
      (let* _id := new_ObjectId parcelId in
       let* assigned_at :=
         if Js.truthy assignedAt then ret (of_undef assignedAt)
         else let* now := new_Date in ret (VDate now) in
       let* parcelUpdateResult :=
         updateOne Parcels [("_id", VOid _id)]
           [("delivery_status", VStr "in_transit");
            ("assigned_rider", of_undef riderEmail);
            ("assigned_at", assigned_at)] in
       let* current_parcel := new_ObjectId parcelId in
       let* riderUpdateResult :=
         updateOne Riders [("email", of_undef riderEmail)]
           [("work_status", VStr "in_delivery");
            ("current_parcel", VOid current_parcel)] in
       send 200 (Obj [("success", VBool true);
                      ("message", VStr "Rider assigned and statuses updated");
                      ("parcelModified", VNum (Mongo.modifiedCount parcelUpdateResult));
                      ("riderModified", VNum (Mongo.modifiedCount riderUpdateResult))]))
      (fun _ => send 500 (Obj [("error", VStr "Internal server error")])).

(** [DELETE /riders/:id] *)
Definition DELETE_riders_id (req : Req) : M response :=
  try_catch
    (let id := param req "id" in
     let* _id := new_ObjectId id in
     let* deletedCount := deleteOne Riders [("_id", VOid _id)] in
     if 0 <? deletedCount then
       send 200 (Obj [("success", VBool true);
                      ("message", VStr "Rider application rejected and deleted.")])
     else
       send 404 (Obj [("success", VBool false); ("message", VStr "Rider not found.")]))
    (fun _ => send 500 (Obj [("success", VBool false);
                             ("message", VStr "Server error while rejecting rider.")])).

(** [name.insertOne(d)] where no binding [name] is in scope: evaluating the
    identifier throws before the call is made. *)
Definition insertOne_unbound (name : string) (d : gmap string value) : M value :=
  throw (ReferenceError name).

(** [POST /tracking] *)
Definition POST_tracking (req : Req) : M response :=
  let tracking_id := body req !! "tracking_id" in
  let parcel_id := body req !! "parcel_id" in
  let status := body req !! "status" in
  let message := body req !! "message" in
  let updated_by := match body req !! "updated_by" with
                    | None => VStr ""
                    | Some j => of_json j
                    end in
  let* parcel_oid :=
    if Js.truthy parcel_id then let* o := new_ObjectId parcel_id in ret (VOid o)
    else ret VNull in
  let* time := new_Date in
  let log : gmap string value :=
    <["tracking_id" := of_undef tracking_id]> (
    <["parcel_id" := parcel_oid]> (
    <["status" := of_undef status]> (
    <["message" := of_undef message]> (
    <["time" := VDate time]> (
    <["updated_by" := updated_by]> ∅))))) in
  let* insertedId := insertOne_unbound "trackingCollection" log in
  send 200 (Obj [("success", VBool true); ("insertedId", insertedId)]).

(** [GET /payments] *)
Definition GET_payments (req : Req) : M response :=
  verifyFBToken req (fun decoded =>
    try_catch
      (let userEmail := query req !! "email" in
       if negb (bool_decide (email decoded = userEmail)) then
         send 403 (Obj [("message", VStr "forbidden access")])
       else
         let query := if Js.truthy_string userEmail
                      then [("email", of_undef_string userEmail)] else [] in
         let* payments := find Payments query (Some "paid_at") in
         send 200 (Docs payments))
      (fun _ => send 500 (Obj [("message", VStr "Failed to get payments")]))).

(** [POST /payments] *)
Definition POST_payments (req : Req) : M response :=
  try_catch
    (let parcelId := body req !! "parcelId" in
     let email := body req !! "email" in
     let amount := body req !! "amount" in
     let paymentMethod := body req !! "paymentMethod" in
     let transactionId := body req !! "transactionId" in
     let* _id := new_ObjectId parcelId in
     let* updateResult :=
       updateOne Parcels [("_id", VOid _id)] [("payment_status", VStr "paid")] in
     if Mongo.modifiedCount updateResult =? 0 then
       send 404 (Obj [("message", VStr "Parcel not found or already paid")])
     else
       let* paid_at_string := new_Date in
       let* paid_at := new_Date in
       let paymentDoc : gmap string value :=
         <["parcelId" := of_undef parcelId]> (
         <["email" := of_undef email]> (
         <["amount" := of_undef amount]> (
         <["paymentMethod" := of_undef paymentMethod]> (
         <["transactionId" := of_undef transactionId]> (
         <["paid_at_string" := VStr (Js.toISOString paid_at_string)]> (
         <["paid_at" := VDate paid_at]> ∅)))))) in
       let* insertedId := insertOne Payments paymentDoc in
       send 201 (Obj [("message", VStr "Payment recorded and parcel marked as paid");
                      ("insertedId", insertedId)]))
    (fun _ => send 500 (Obj [("message", VStr "Failed to record payment")])).

(** The routes whose handlers touch the four collections, and the application
    as the function from a route and a request to the handler's run.  Left
    out are [GET /users/search] (a read through a regular expression),
    [POST /create-payment-intent] (the payment gateway only) and [GET /]. *)
Inductive route :=
  | Get_users_email_role | Post_users | Patch_users_id_role
  | Get_parcels | Get_parcels_id | Post_parcels | Delete_parcels_id
  | Post_riders | Get_riders_pending | Patch_riders_status_id
  | Get_riders_active | Patch_riders_id_status | Get_riders_available
  | Post_parcels_assign | Delete_riders_id | Post_tracking
  | Get_payments | Post_payments.

#[global] Instance route_eq_dec : EqDecision route.
Proof. solve_decision. Defined.

Definition app (r : route) : Req -> M response :=
  match r with
  | Get_users_email_role => GET_users_email_role
  | Post_users => POST_users
  | Patch_users_id_role => PATCH_users_id_role
  | Get_parcels => GET_parcels
  | Get_parcels_id => GET_parcels_id
  | Post_parcels => POST_parcels
  | Delete_parcels_id => DELETE_parcels_id
  | Post_riders => POST_riders
  | Get_riders_pending => GET_riders_pending
  | Patch_riders_status_id => PATCH_riders_status_id
  | Get_riders_active => GET_riders_active
  | Patch_riders_id_status => PATCH_riders_id_status
  | Get_riders_available => GET_riders_available
  | Post_parcels_assign => POST_parcels_assign
  | Delete_riders_id => DELETE_riders_id
  | Post_tracking => POST_tracking
  | Get_payments => GET_payments
  | Post_payments => POST_payments
  end.

(** ** The state of the store across requests *)

(** The four collections, without the supply and the clock position. *)
Definition db (w : world) : collection * collection * collection * collection :=
  (users w, parcels w, payments w, riders w).

(** The first document of a collection stored under [_id = v]. *)
Definition by_id (v : value) (c : collection) : option (gmap string value) :=
  List.find (fun d => bool_decide (d !! "_id" = Some v)) c.

Definition is_paid (d : gmap string value) : bool :=
  bool_decide (d !! "payment_status" = Some (VStr "paid")).

(** Every stored document has an [_id]; a generated one lies below the
    supply. *)
Definition id_ok (next : N) (d : gmap string value) : bool :=
  match d !! "_id" with
  | Some (VOid o) => (o <? next)%N
  | Some VNull | None => false
  | Some _ => true
  end.

(** The unique index on [_id], and the supply ahead of every stored
    [ObjectId]. *)
Definition coll_ok (next : N) (c : collection) : Prop :=
  NoDup (map (fun d : gmap string value => d !! "_id") c)
  /\ Forall (fun d => id_ok next d = true) c.

Definition wf (w : world) : Prop :=
  coll_ok (next_oid w) (users w) /\ coll_ok (next_oid w) (parcels w)
  /\ coll_ok (next_oid w) (payments w) /\ coll_ok (next_oid w) (riders w).

#[global] Instance coll_ok_dec next c : Decision (coll_ok next c).
Proof. unfold coll_ok. apply _. Defined.
#[global] Instance wf_dec w : Decision (wf w).
Proof. unfold wf. apply _. Defined.

(** The server starts on an empty database; every later state is the
    result of running one handler on an earlier one. *)
Definition init : world := World [] [] [] [] 0 0.

Inductive reachable : world -> Prop :=
  | reachable_init : reachable init
  | reachable_step r req e w :
      reachable w -> reachable (app r req e w).2.

Inductive steps : world -> world -> Prop :=
  | steps_refl w : steps w w
  | steps_step r req e w w' :
      steps w w' -> steps w (app r req e w').2.

(** ** Sample data: a small database, a clock, an identity provider and
       request builders, used to evaluate the handlers on concrete inputs *)

Definition document (l : list (string * value)) : gmap string value := list_to_map l.

Definition request (auth : option string) (ps qs : list (string * string))
    (b : list (string * json)) : Req :=
  {| authorization := auth; params := list_to_map ps; query := list_to_map qs;
     body := list_to_map b |}.

Definition sample_env : env :=
  {| clock := fun n => 1700000000000 + Z.of_nat n;
     verifyIdToken := fun t =>
       if String.eqb t "token-a" then Some {| email := Some "a@example.com" |}
       else if String.eqb t "token-admin" then Some {| email := Some "admin@example.com" |}
       else if String.eqb t "token-anonymous" then Some {| email := None |}
       else None |}.

Definition sample_users : collection :=
  [ document [("_id", VOid 0); ("email", VStr "admin@example.com"); ("role", VStr "admin")];
    document [("_id", VOid 1); ("email", VStr "r@example.com"); ("role", VStr "user")] ].

Definition sample_parcels : collection :=
  [ document [("_id", VOid 2); ("payment_status", VStr "unpaid");
              ("delivery_status", VStr "pending"); ("createdAt", VStr "2025-01-01")];
    document [("_id", VOid 3); ("payment_status", VStr "paid");
              ("delivery_status", VStr "pending"); ("createdAt", VStr "2025-03-01")];
    document [("_id", VOid 4); ("payment_status", VStr "paid");
              ("delivery_status", VStr "in_transit"); ("createdAt", VStr "2025-02-01")] ].

Definition sample_payments : collection :=
  [ document [("_id", VOid 5); ("parcelId", VStr "000000000000000000000003");
              ("email", VStr "a@example.com"); ("paid_at", VDate 1690000000000)];
    document [("_id", VOid 6); ("parcelId", VStr "000000000000000000000004");
              ("email", VStr "b@example.com"); ("paid_at", VDate 1695000000000)] ].

Definition sample_riders : collection :=
  [ document [("_id", VOid 7); ("email", VStr "r@example.com"); ("district", VStr "Dhaka");
              ("status", VStr "pending"); ("work_status", VStr "in_delivery")];
    document [("_id", VOid 8); ("email", VStr "s@example.com"); ("district", VStr "Sylhet");
              ("status", VStr "active"); ("work_status", VStr "available")];
    document [("_id", VOid 9); ("email", VStr "t@example.com"); ("district", VStr "Dhaka");
              ("status", VStr "rejected")] ].

Definition sample_world : world :=
  World sample_users sample_parcels sample_payments sample_riders 10 0.

(** [new ObjectId(v)] throws exactly on these arguments. *)
Definition ObjectId_rejects (v : option json) : bool :=
  match v with
  | Some (JStr s) => match Bson.of_hex s with Some _ => false | None => true end
  | Some (JBool _) => true
  | _ => false
  end.

(** The request carries a bearer token that the identity provider verifies
    as [decoded]. *)
Definition verified (e : env) (req : Req) (decoded : DecodedIdToken) : Prop :=
  exists authHeader token,
    authorization req = Some authHeader
    /\ Js.split " " authHeader !! 1%nat = Some token
    /\ token <> ""
    /\ verifyIdToken e token = Some decoded.

(** What the specification asks of a listed parcel: each filter that is
    provided with a non-empty value equals the parcel's field. *)
Definition parcel_selected (payment_status delivery_status : option string)
    (p : gmap string value) : bool :=
  match payment_status with
  | Some s => String.eqb s "" || bool_decide (p !! "payment_status" = Some (VStr s))
  | None => true
  end
  && match delivery_status with
     | Some s => String.eqb s "" || bool_decide (p !! "delivery_status" = Some (VStr s))
     | None => true
     end.

(** Newest first on field [k], in the order of the store. *)
Definition newest_first (k : string) (l : collection) : Prop :=
  StronglySorted
    (fun a b : gmap string value =>
       Bson.leb (Mongo.sort_key k b) (Mongo.sort_key k a) = true) l.

(** The verified identity belongs to a stored user whose role is "admin". *)
Definition is_admin (w : world) (decoded : DecodedIdToken) : Prop :=
  exists u : gmap string value,
    Mongo.findOne [("email", of_undef_string (email decoded))] (users w) = Some u
    /\ u !! "role" = Some (VStr "admin").

(** The [_id] a payload brings along, if any; [null] counts as none. *)
Definition own_id (b : gmap string json) : option value :=
  match b !! "_id" with
  | None | Some JNull => None
  | Some j => Some (of_json j)
  end.

(** A field name with a NUL byte in it: [a\u0000b] in a JSON body. *)
Definition nul_key : string := String "a" (String Ascii.zero "b").

(** The sample database after a sign-in whose payload chose its own [_id]. *)
Definition sample_world_u1 : world :=
  (POST_users (request None [] [] [("_id", JStr "u1"); ("email", JStr "c@example.com")])
     sample_env sample_world).2.

(** ** How a handler run may move the store *)

(** The parcel stored under [_id = v] is marked paid. *)
Definition paid (v : value) (w : world) : Prop :=
  exists p : gmap string value, by_id v (parcels w) = Some p /\ is_paid p = true.

(** What one run may do to the parcel stored under [_id = v]: delete it (it
    then carried a generated identifier), or keep it with its
    [payment_status], or, when [pay] allows, mark it paid; an identifier the
    driver has already handed out and that is not stored stays unused. *)
Definition parcel_moves (pay : bool) (v : value) (w w' : world) : Prop :=
  match by_id v (parcels w) with
  | Some p =>
      (by_id v (parcels w') = None /\ exists o, v = VOid o)
      \/ (exists p' : gmap string value,
            by_id v (parcels w') = Some p'
            /\ (p' !! "payment_status" = p !! "payment_status"
                \/ (pay = true /\ p' !! "payment_status" = Some (VStr "paid"))))
  | None =>
      (exists o, v = VOid o /\ (o < next_oid w)%N) -> by_id v (parcels w') = None
  end.

Definition evolves (pay : bool) (w w' : world) : Prop :=
  wf w ->
  wf w' /\ (next_oid w <= next_oid w')%N /\ forall v, parcel_moves pay v w w'.

(** Every run of [m] moves the store within [evolves pay]. *)
Definition lifts (pay : bool) {A} (m : M A) : Prop :=
  forall e w, evolves pay w (m e w).2.

(** The [$set] documents the handlers may apply: none touches [_id], and on
    parcels none touches [payment_status] except the payment's own. *)
Definition update_allowed (pay : bool) (c : coll) (sets : list (string * value)) : bool :=
  forallb (fun kv : string * value => negb (String.eqb kv.1 "_id")) sets
  && match c with
     | Parcels =>
         forallb (fun kv : string * value => negb (String.eqb kv.1 "payment_status")) sets
         || (pay && bool_decide (sets = [("payment_status", VStr "paid")]))
     | _ => true
     end.

(** A document built from a JSON body or from scratch never carries an
    [ObjectId] as its own [_id]. *)
Definition no_oid_id (d : gmap string value) : Prop :=
  forall o, d !! "_id" <> Some (VOid o).

(** The state reached from the empty database by creating one unpaid
    parcel. *)
Definition one_parcel_world : world :=
  (app Post_parcels
     (request None [] []
        [("payment_status", JStr "unpaid"); ("delivery_status", JStr "pending")])
     sample_env init).2.


(** ** What a run keeps: relations between the world before and after *)

(** Every run of [m] relates the world it starts in to the world it ends
    in by [R]. *)
Definition keeps (R : world -> world -> Prop) {A} (m : M A) : Prop :=
  forall e w, R w (m e w).2.

(** A relation that holds whenever the collections are the same, and that
    composes along the steps of a run. *)
Class StoreOrder (R : world -> world -> Prop) : Prop := {
  store_same : forall w w', db w' = db w -> R w w';
  store_trans : forall w1 w2 w3, R w1 w2 -> R w2 w3 -> R w1 w3
}.

Definition coll_eqb (c c' : coll) : bool :=
  match c, c' with
  | Users, Users | Parcels, Parcels | Payments, Payments | Riders, Riders => true
  | _, _ => false
  end.

Definition mem (c : coll) (cs : list coll) : bool := existsb (coll_eqb c) cs.

(** The collections not among [cs] are as they were. *)
Definition outside (cs : list coll) (w w' : world) : Prop :=
  forall c, mem c cs = false -> get c w' = get c w.

(** The collections a route's handler writes to, read off its calls. *)
Definition footprint (r : route) : list coll :=
  match r with
  | Post_users | Patch_users_id_role => [Users]
  | Post_parcels | Delete_parcels_id => [Parcels]
  | Post_riders | Patch_riders_status_id | Delete_riders_id => [Riders]
  | Patch_riders_id_status => [Riders; Users]
  | Post_parcels_assign => [Parcels; Riders]
  | Post_payments => [Parcels; Payments]
  | Get_users_email_role | Get_parcels | Get_parcels_id | Get_riders_pending
  | Get_riders_active | Get_riders_available | Post_tracking | Get_payments => []
  end.

(** The stored payments are still there, in place, possibly followed by new
    ones. *)
Definition payments_grow (w w' : world) : Prop :=
  exists l, payments w' = payments w ++ l.

(** An account apart from its role: every field of the user but [role]. *)
Definition account (u : gmap string value) : gmap string value := delete "role" u.

(** The stored accounts are the same, in place. *)
Definition accounts_same (w w' : world) : Prop :=
  map account (users w') = map account (users w).

(** The stored accounts are still there, in place, possibly followed by new
    ones. *)
Definition accounts_grow (w w' : world) : Prop :=
  exists l, map account (users w') = map account (users w) ++ l.

(** The e-mail a sign-in looks a user up by: a missing [email] reads as
    [null]. *)
Definition email_key (u : gmap string value) : value := default VNull (u !! "email").

Definition emails_unique (w : world) : Prop := NoDup (map email_key (users w)).

(** A [$set] document that sets nothing but [role]. *)
Definition keeps_account (sets : list (string * value)) : bool :=
  forallb (fun kv : string * value => String.eqb kv.1 "role") sets.

(** [POST /users] up to its first [await], the look-up, and from the answer
    of the look-up on. *)
Definition POST_users_lookup (req : Req) : M (option (gmap string value)) :=
  let email := body req !! "email" in
  findOne Users [("email", of_undef email)].

Definition POST_users_resume (req : Req) (userExists : option (gmap string value))
  : M response :=
  match userExists with
  | Some _ => send 200 (Obj [("message", VStr "User already exists")])
  | None =>
      let* created_at := new_Date in
      let user := <["created_at" := VDate created_at]> (doc_of_body (body req)) in
      let* result := insertOne Users user in
      send 200 (Inserted result)
  end.

(** Two sign-ins that overlap: each handler is suspended at its look-up, and
    both look-ups are answered before either handler goes on. *)
Definition overlapping_sign_ins (req1 req2 : Req) : M (response * response) :=
  let* userExists1 := POST_users_lookup req1 in
  let* userExists2 := POST_users_lookup req2 in
  let* r1 := POST_users_resume req1 userExists1 in
  let* r2 := POST_users_resume req2 userExists2 in
  ret (r1, r2).

(** The routes registered with [verifyFBToken], and those registered with
    [adminVerify] after it. *)
Definition gated (r : route) : bool :=
  match r with
  | Get_parcels | Get_riders_pending | Get_riders_active | Patch_riders_id_status
  | Get_payments => true
  | _ => false
  end.

Definition admin_gated (r : route) : bool :=
  match r with
  | Get_riders_pending | Get_riders_active | Patch_riders_id_status => true
  | _ => false
  end.

(** The request with its [Authorization] header replaced. *)
Definition with_authorization (h : option string) (req : Req) : Req :=
  {| authorization := h; params := params req; query := query req; body := body req |}.

Fixpoint no_space (s : string) : bool :=
  match s with
  | EmptyString => true
  | String a s' => negb (Ascii.eqb a " ") && no_space s'
  end.

(** A parcel whose [_id] is not an [ObjectId] stays exactly as it is. *)
Definition own_id_parcels_kept (w w' : world) : Prop :=
  forall v (p : gmap string value),
    (forall o, v <> VOid o) ->
    by_id v (parcels w) = Some p -> by_id v (parcels w') = Some p.

(** The sample database after a parcel whose payload chose its own [_id]. *)
Definition own_id_parcel_world : world :=
  (POST_parcels
     (request None [] [] [("_id", JStr "p1"); ("payment_status", JStr "unpaid")])
     sample_env sample_world).2.

(** The empty database after three parcels: one without [createdAt], one
    with [createdAt = null], one with a date string. *)
Definition undated_world : world :=
  (POST_parcels (request None [] [] [("createdAt", JStr "2025-01-01")]) sample_env
     (POST_parcels (request None [] [] [("createdAt", JNull)]) sample_env
        (POST_parcels (request None [] [] []) sample_env init).2).2).2.


(** * Properties *)

(** ** The runtime model on concrete inputs *)

Example split_bearer : Js.split " " "Bearer abc" = ["Bearer"; "abc"].
Proof. reflexivity. Qed.

Example split_no_token : Js.split " " "Bearer" = ["Bearer"].
Proof. reflexivity. Qed.

Example toISOString_epoch : Js.toISOString 0 = "1970-01-01T00:00:00.000Z".
Proof. reflexivity. Qed.

Example toISOString_2023 : Js.toISOString 1700000000123 = "2023-11-14T22:13:20.123Z".
Proof. reflexivity. Qed.

Example toISOString_leap : Js.toISOString 1709210096789 = "2024-02-29T12:34:56.789Z".
Proof. reflexivity. Qed.

Example toISOString_before_epoch : Js.toISOString (-1) = "1969-12-31T23:59:59.999Z".
Proof. reflexivity. Qed.

Example of_hex_sample : Bson.of_hex "00000000000000000000000A" = Some 10%N.
Proof. reflexivity. Qed.

Example of_hex_short : Bson.of_hex "abc" = None.
Proof. reflexivity. Qed.

(** ** The driver's operations *)

Lemma matches_one k v d :
  Mongo.matches [(k, v)] d = Mongo.field_matches (d !! k) v.
Proof. unfold Mongo.matches. simpl. apply andb_true_r. Qed.

Lemma field_matches_str o s :
  Mongo.field_matches o (VStr s) = bool_decide (o = Some (VStr s)).
Proof. reflexivity. Qed.

Lemma truthy_string_Some s : s <> "" -> Js.truthy_string (Some s) = true.
Proof.
  intros H. unfold Js.truthy_string.
  destruct (String.eqb_spec s ""); [contradiction | reflexivity].
Qed.

(** ** Riders by district *)

(** C10: for a non-empty [district], [GET /riders/available] answers 200 with
    the stored riders whose [district] equals it, in stored order, and leaves
    the world as it was; a stored rider is in the answer exactly when its
    [district] is the queried one, whatever its [status] and [work_status]. *)
Theorem GET_riders_available_by_district (req : Req) (e : env) (w : world) (s : string) :
  query req !! "district" = Some s -> s <> "" ->
  exists result,
    GET_riders_available req e w = (inr {| status := 200; sent := Docs result |}, w)
    /\ result = List.filter (fun r : gmap string value =>
                               bool_decide (r !! "district" = Some (VStr s))) (riders w)
    /\ (forall r : gmap string value,
          In r result <-> In r (riders w) /\ r !! "district" = Some (VStr s)).
Proof.
  intros Hq Hs. eexists. split; [| split; [reflexivity |]].
  - unfold GET_riders_available. rewrite Hq, (truthy_string_Some s Hs). simpl.
    unfold try_catch, bind, find, send, ret, Mongo.find. simpl.
    do 4 f_equal. apply List.filter_ext. intros r.
    now rewrite matches_one.
  - intros r. rewrite List.filter_In, bool_decide_eq_true. reflexivity.
Qed.

(** ** [findOne], [updateOne] and [deleteOne] on a collection *)

Lemma findOne_split q c d :
  Mongo.findOne q c = Some d ->
  exists l1 l2, c = l1 ++ d :: l2
    /\ Forall (fun x => Mongo.matches q x = false) l1 /\ Mongo.matches q d = true.
Proof.
  unfold Mongo.findOne. induction c as [| x c IH]; simpl; [discriminate |].
  destruct (Mongo.matches q x) eqn:Hx.
  - intros [= <-]. exists [], c. auto.
  - intros H. destruct (IH H) as (l1 & l2 & -> & Hl1 & Hd).
    exists (x :: l1), l2. auto.
Qed.

Lemma findOne_app q l1 d l2 :
  Forall (fun x => Mongo.matches q x = false) l1 ->
  Mongo.findOne q (l1 ++ d :: l2)
  = if Mongo.matches q d then Some d else Mongo.findOne q l2.
Proof.
  unfold Mongo.findOne. induction 1 as [| x l1 Hx _ IH]; simpl; [reflexivity |].
  now rewrite Hx.
Qed.

Lemma findOne_None q c :
  Mongo.findOne q c = None <-> Forall (fun x => Mongo.matches q x = false) c.
Proof.
  unfold Mongo.findOne. induction c as [| x c IH]; simpl.
  - split; [constructor | reflexivity].
  - destruct (Mongo.matches q x) eqn:Hx.
    + split; [discriminate | inversion 1; congruence].
    + rewrite IH. split; [now constructor | now inversion 1].
Qed.

Lemma updateOne_miss q sets c :
  Forall (fun x => Mongo.matches q x = false) c ->
  Mongo.updateOne q sets c = ({| Mongo.matchedCount := 0; Mongo.modifiedCount := 0 |}, c).
Proof.
  induction 1 as [| x c Hx _ IH]; simpl; [reflexivity |]. now rewrite Hx, IH.
Qed.

Lemma updateOne_hit q sets l1 d l2 :
  Forall (fun x => Mongo.matches q x = false) l1 -> Mongo.matches q d = true ->
  Mongo.updateOne q sets (l1 ++ d :: l2)
  = ({| Mongo.matchedCount := 1;
        Mongo.modifiedCount := if bool_decide (Mongo.apply_set sets d = d) then 0 else 1 |},
     l1 ++ Mongo.apply_set sets d :: l2).
Proof.
  intros Hl1 Hd. induction Hl1 as [| x l1 Hx _ IH]; simpl.
  - now rewrite Hd.
  - now rewrite Hx, IH.
Qed.

(** An update that reports no modification leaves the collection as it was. *)
Lemma updateOne_unmodified q sets c :
  Mongo.modifiedCount (Mongo.updateOne q sets c).1 = 0 ->
  (Mongo.updateOne q sets c).2 = c.
Proof.
  destruct (Mongo.findOne q c) as [d |] eqn:Hf.
  - destruct (findOne_split _ _ _ Hf) as (l1 & l2 & -> & Hl1 & Hd).
    rewrite (updateOne_hit _ _ _ _ _ Hl1 Hd). simpl.
    case_bool_decide as Heq; [now rewrite Heq | discriminate].
  - apply findOne_None in Hf. now rewrite (updateOne_miss _ _ _ Hf).
Qed.

Lemma deleteOne_miss q c :
  Forall (fun x => Mongo.matches q x = false) c -> Mongo.deleteOne q c = (0, c).
Proof.
  induction 1 as [| x c Hx _ IH]; simpl; [reflexivity |]. now rewrite Hx, IH.
Qed.

Lemma deleteOne_hit q l1 d l2 :
  Forall (fun x => Mongo.matches q x = false) l1 -> Mongo.matches q d = true ->
  Mongo.deleteOne q (l1 ++ d :: l2) = (1, l1 ++ l2).
Proof.
  intros Hl1 Hd. induction Hl1 as [| x l1 Hx _ IH]; simpl.
  - now rewrite Hd.
  - now rewrite Hx, IH.
Qed.

Lemma matches_id o d :
  Mongo.matches [("_id", VOid o)] d = bool_decide (d !! "_id" = Some (VOid o)).
Proof. now rewrite matches_one. Qed.

Lemma findOne_by_id o c : Mongo.findOne [("_id", VOid o)] c = by_id (VOid o) c.
Proof.
  unfold Mongo.findOne, by_id. induction c as [| x c IH]; [reflexivity |].
  cbn [List.find]. now rewrite matches_id, IH.
Qed.

(** [$set] on keys other than [k] leaves field [k] alone. *)
Lemma apply_set_lookup_ne sets (d : gmap string value) k :
  forallb (fun kv : string * value => negb (String.eqb kv.1 k)) sets = true ->
  Mongo.apply_set sets d !! k = d !! k.
Proof.
  unfold Mongo.apply_set. revert d.
  induction sets as [| [k' v] sets IH]; intros d; simpl; [reflexivity |].
  intros [Hk Hs]%andb_true_iff. rewrite (IH _ Hs).
  apply lookup_insert_ne. intros ->. now rewrite String.eqb_refl in Hk.
Qed.

Lemma findOne_updateOne q sets c :
  (forall d, Mongo.matches q (Mongo.apply_set sets d) = Mongo.matches q d) ->
  Mongo.findOne q (Mongo.updateOne q sets c).2 = Mongo.apply_set sets <$> Mongo.findOne q c.
Proof.
  intros Hm. destruct (Mongo.findOne q c) as [d |] eqn:Hf.
  - destruct (findOne_split _ _ _ Hf) as (l1 & l2 & -> & Hl1 & Hd).
    rewrite (updateOne_hit _ _ _ _ _ Hl1 Hd). simpl.
    now rewrite (findOne_app _ _ _ _ Hl1), Hm, Hd.
  - pose proof Hf as Hf'. apply findOne_None in Hf'.
    rewrite (updateOne_miss _ _ _ Hf'). exact Hf.
Qed.

Lemma matches_one_apply_set k v sets d :
  forallb (fun kv : string * value => negb (String.eqb kv.1 k)) sets = true ->
  Mongo.matches [(k, v)] (Mongo.apply_set sets d) = Mongo.matches [(k, v)] d.
Proof. intros H. now rewrite !matches_one, (apply_set_lookup_ne _ _ _ H). Qed.

Lemma by_id_updateOne o sets c :
  forallb (fun kv : string * value => negb (String.eqb kv.1 "_id")) sets = true ->
  by_id (VOid o) (Mongo.updateOne [("_id", VOid o)] sets c).2
  = Mongo.apply_set sets <$> by_id (VOid o) c.
Proof.
  intros H. rewrite <- !findOne_by_id. apply findOne_updateOne.
  intros d. now apply matches_one_apply_set.
Qed.

Lemma updateOne_by_id_None o sets c :
  by_id (VOid o) c = None ->
  Mongo.updateOne [("_id", VOid o)] sets c
  = ({| Mongo.matchedCount := 0; Mongo.modifiedCount := 0 |}, c).
Proof.
  rewrite <- findOne_by_id. intros H%findOne_None. now apply updateOne_miss.
Qed.

Lemma updateOne_matched q sets c d :
  Mongo.findOne q c = Some d ->
  Mongo.matchedCount (Mongo.updateOne q sets c).1 = 1
  /\ Mongo.modifiedCount (Mongo.updateOne q sets c).1
     = if bool_decide (Mongo.apply_set sets d = d) then 0 else 1.
Proof.
  intros Hf. destruct (findOne_split _ _ _ Hf) as (l1 & l2 & -> & Hl1 & Hd).
  now rewrite (updateOne_hit _ _ _ _ _ Hl1 Hd).
Qed.

Lemma set_get c w : set c (get c w) w = w.
Proof. now destruct w, c. Qed.

Lemma get_set c l w : get c (set c l w) = l.
Proof. now destruct c. Qed.

(** ** Setting a user's role *)

(** C9 (as amended): a [role] other than the strings "admin" and "user" is
    answered 400 with the world untouched.  For a valid role and an [id] of
    24 hexadecimal digits the handler answers 200 with the update result:
    the user stored under that [_id] has its [role] set, and when there is
    none the counts are zero and the world is untouched.  An [id] that is not
    24 hexadecimal digits is answered 500, again with the world untouched. *)
Theorem PATCH_users_id_role_spec (req : Req) (e : env) (w : world) :
  (Js.includes ["admin"; "user"] (body req !! "role") = false ->
   PATCH_users_id_role req e w
   = (inr {| status := 400; sent := Obj [("error", VStr "Invalid role")] |}, w))
  /\ (forall r s,
        body req !! "role" = Some (JStr r) -> r = "admin" \/ r = "user" ->
        params req !! "id" = Some s ->
        match Bson.of_hex s with
        | Some o =>
            exists res w',
              PATCH_users_id_role req e w = (inr {| status := 200; sent := Updated res |}, w')
              /\ parcels w' = parcels w /\ payments w' = payments w /\ riders w' = riders w
              /\ match by_id (VOid o) (users w) with
                 | Some u =>
                     Mongo.matchedCount res = 1
                     /\ by_id (VOid o) (users w') = Some (<["role" := VStr r]> u)
                 | None =>
                     res = {| Mongo.matchedCount := 0; Mongo.modifiedCount := 0 |} /\ w' = w
                 end
        | None =>
            PATCH_users_id_role req e w
            = (inr {| status := 500; sent := Obj [("error", VStr "Could not update user role")] |}, w)
        end).
Proof.
  split.
  - intros H. unfold PATCH_users_id_role. now rewrite H.
  - intros r s Hr Hv Hs. unfold PATCH_users_id_role, param. rewrite Hr, Hs.
    assert (Js.includes ["admin"; "user"] (Some (JStr r)) = true) as ->
      by (destruct Hv; subst; reflexivity).
    simpl. unfold try_catch, bind, new_ObjectId.
    destruct (Bson.of_hex s) as [o |]; simpl; [| reflexivity].
    unfold updateOne. simpl.
    destruct (Mongo.updateOne [("_id", VOid o)] [("role", VStr r)] (users w))
      as [res us'] eqn:Hu.
    simpl. exists res, (set Users us' w). repeat split.
    destruct (by_id (VOid o) (users w)) as [u |] eqn:Hb.
    + split.
      * rewrite <- findOne_by_id in Hb.
        pose proof (updateOne_matched _ [("role", VStr r)] _ _ Hb) as [Hm _].
        now rewrite Hu in Hm.
      * simpl. pose proof (by_id_updateOne o [("role", VStr r)] (users w) eq_refl) as H.
        now rewrite Hu, Hb in H.
    + rewrite (updateOne_by_id_None _ _ _ Hb) in Hu. injection Hu as <- <-.
      split; [reflexivity |]. apply (set_get Users).
Qed.

Lemma PATCH_users_id_role_spec_witness :
  exists res w',
    PATCH_users_id_role
      (request None [("id", "000000000000000000000001")] [] [("role", JStr "admin")])
      sample_env sample_world
    = (inr {| status := 200; sent := Updated res |}, w')
    /\ Mongo.matchedCount res = 1
    /\ by_id (VOid 1) (users w')
       = Some (document [("_id", VOid 1); ("email", VStr "r@example.com");
                         ("role", VStr "admin")]).
Proof.
  destruct (proj2 (PATCH_users_id_role_spec
             (request None [("id", "000000000000000000000001")] [] [("role", JStr "admin")])
             sample_env sample_world) "admin" "000000000000000000000001"
             eq_refl (or_introl eq_refl) eq_refl)
    as (res & w' & Hrun & _ & _ & _ & Hm & Hu).
  exists res, w'. split; [exact Hrun |]. split; [exact Hm |]. exact Hu.
Defined.

(** C9 (as stated) fails: with the valid role "admin" and the id "abc" the
    handler does not succeed; it answers 500. *)
Lemma PATCH_users_id_role_malformed_id :
  PATCH_users_id_role (request None [("id", "abc")] [] [("role", JStr "admin")])
    sample_env sample_world
  = (inr {| status := 500; sent := Obj [("error", VStr "Could not update user role")] |},
     sample_world)
  /\ ~ (exists res w',
          PATCH_users_id_role (request None [("id", "abc")] [] [("role", JStr "admin")])
            sample_env sample_world
          = (inr {| status := 200; sent := Updated res |}, w')).
Proof.
  assert (PATCH_users_id_role (request None [("id", "abc")] [] [("role", JStr "admin")])
            sample_env sample_world
          = (inr {| status := 500; sent := Obj [("error", VStr "Could not update user role")] |},
             sample_world)) as H by (vm_compute; reflexivity).
  split; [exact H |]. intros (res & w' & H'). rewrite H in H'. discriminate.
Qed.

(** ** [new ObjectId] and [new Date] leave the collections alone *)

Lemma new_ObjectId_rejects v e w :
  ObjectId_rejects v = true -> new_ObjectId v e w = (inl BSONError, w).
Proof.
  destruct v as [[| b | n | s] |]; simpl; try discriminate; try reflexivity.
  now destruct (Bson.of_hex s).
Qed.

Lemma new_ObjectId_accepts v e w :
  ObjectId_rejects v = false ->
  exists o w', new_ObjectId v e w = (inr o, w')
    /\ db w' = db w /\ ticks w' = ticks w /\ (next_oid w <= next_oid w')%N
    /\ (w' = w \/ o = next_oid w /\ next_oid w' = N.succ (next_oid w)).
Proof.
  destruct v as [[| b | n | s] |]; simpl; intros H; try discriminate;
    try (eexists _, _; split; [reflexivity |]; simpl; repeat split; (lia || auto); fail).
  destruct (Bson.of_hex s) as [o |]; [| discriminate].
  exists o, w. repeat split; (lia || auto).
Qed.

(** ** Tracking logs *)

(** C5 (as amended): [POST /tracking] never answers and never writes.  The run
    ends in the [ReferenceError] on [trackingCollection], unless [parcel_id]
    is truthy and [new ObjectId] rejects it, in which case the constructor's
    error is raised first, while the log document is being built. *)
Theorem POST_tracking_never_inserts (req : Req) (e : env) (w : world) :
  exists w',
    POST_tracking req e w
    = (inl (if Js.truthy (body req !! "parcel_id")
               && ObjectId_rejects (body req !! "parcel_id")
            then BSONError else ReferenceError "trackingCollection"), w')
    /\ db w' = db w.
Proof.
  unfold POST_tracking, bind.
  destruct (Js.truthy (body req !! "parcel_id")) eqn:Ht; simpl.
  - destruct (ObjectId_rejects (body req !! "parcel_id")) eqn:Hr.
    + rewrite (new_ObjectId_rejects _ _ _ Hr). now exists w.
    + destruct (new_ObjectId_accepts _ e w Hr) as (o & w1 & -> & Hdb & _).
      simpl. eexists. split; [reflexivity |]. exact Hdb.
  - eexists. split; [reflexivity |]. reflexivity.
Qed.

(** C5 (as stated) fails: with [parcel_id = "xyz"] the error raised is the
    [BSONError] of [new ObjectId], not a reference error. *)
Lemma POST_tracking_malformed_parcel_id :
  POST_tracking (request None [] [] [("tracking_id", JStr "T1"); ("parcel_id", JStr "xyz")])
    sample_env sample_world
  = (inl BSONError, sample_world)
  /\ ~ (exists name w',
          POST_tracking
            (request None [] [] [("tracking_id", JStr "T1"); ("parcel_id", JStr "xyz")])
            sample_env sample_world
          = (inl (ReferenceError name), w')).
Proof.
  assert (POST_tracking
            (request None [] [] [("tracking_id", JStr "T1"); ("parcel_id", JStr "xyz")])
            sample_env sample_world = (inl BSONError, sample_world)) as H
    by (vm_compute; reflexivity).
  split; [exact H |]. intros (name & w' & H'). rewrite H in H'. discriminate.
Qed.

(** ** Generated identifiers are new *)

Lemma has_id_by_id v c : Mongo.has_id v c = false <-> by_id v c = None.
Proof.
  unfold Mongo.has_id, by_id. induction c as [| d c IH]; simpl; [tauto |].
  destruct (bool_decide (d !! "_id" = Some v)); simpl; [split; discriminate | exact IH].
Qed.

Lemma has_id_fresh n c n' :
  coll_ok n c -> (n <= n')%N -> Mongo.has_id (VOid n') c = false.
Proof.
  intros [_ Hok] Hle. unfold Mongo.has_id.
  induction Hok as [| d c Hd _ IH]; simpl; [reflexivity |].
  rewrite IH, orb_false_r. apply bool_decide_eq_false. intros Heq.
  unfold id_ok in Hd. rewrite Heq in Hd. apply N.ltb_lt in Hd. lia.
Qed.

Lemma wf_get c w : wf w -> coll_ok (next_oid w) (get c w).
Proof. intros (? & ? & ? & ?). now destruct c. Qed.

(** ** Recording a payment *)

(** The three ways a run of [POST /payments] can go. *)
Lemma POST_payments_cases (req : Req) (e : env) (w : world) :
  wf w ->
  let parcelId := body req !! "parcelId" in
  (ObjectId_rejects parcelId = true ->
   POST_payments req e w
   = (inr {| status := 500; sent := Obj [("message", VStr "Failed to record payment")] |}, w))
  /\ (forall o,
        (new_ObjectId parcelId e w).1 = inr o ->
        let upd := Mongo.updateOne [("_id", VOid o)] [("payment_status", VStr "paid")]
                     (parcels w) in
        (Mongo.modifiedCount upd.1 = 0 ->
         exists w',
           POST_payments req e w
           = (inr {| status := 404;
                     sent := Obj [("message", VStr "Parcel not found or already paid")] |}, w')
           /\ db w' = db w)
        /\ (Mongo.modifiedCount upd.1 <> 0 ->
            exists id paymentDoc w',
              POST_payments req e w
              = (inr {| status := 201;
                        sent := Obj [("message", VStr "Payment recorded and parcel marked as paid");
                                     ("insertedId", id)] |}, w')
              /\ payments w' = payments w ++ [paymentDoc]
              /\ paymentDoc !! "_id" = Some id /\ by_id id (payments w) = None
              /\ paymentDoc !! "paid_at" = Some (VDate (clock e (S (ticks w))))
              /\ paymentDoc !! "paid_at_string"
                 = Some (VStr (Js.toISOString (clock e (ticks w))))
              /\ paymentDoc !! "parcelId" = Some (of_undef parcelId)
              /\ paymentDoc !! "email" = Some (of_undef (body req !! "email"))
              /\ paymentDoc !! "amount" = Some (of_undef (body req !! "amount"))
              /\ paymentDoc !! "paymentMethod" = Some (of_undef (body req !! "paymentMethod"))
              /\ paymentDoc !! "transactionId" = Some (of_undef (body req !! "transactionId"))
              /\ parcels w' = upd.2 /\ users w' = users w /\ riders w' = riders w)).
Proof.
  intros Hwf parcelId. split.
  - intros Hr. unfold POST_payments, try_catch, bind. fold parcelId.
    now rewrite (new_ObjectId_rejects _ _ _ Hr).
  - intros o Ho upd.
    assert (ObjectId_rejects parcelId = false) as Hacc.
    { destruct (ObjectId_rejects parcelId) eqn:Hr; [| reflexivity].
      rewrite (new_ObjectId_rejects _ e w Hr) in Ho. discriminate. }
    destruct (new_ObjectId_accepts _ e w Hacc) as (o' & w1 & Hnew & Hdb & Hticks & Hle & _).
    rewrite Hnew in Ho. simpl in Ho. injection Ho as ->.
    assert (parcels w1 = parcels w /\ payments w1 = payments w
            /\ users w1 = users w /\ riders w1 = riders w) as (Hp1 & Hy1 & Hu1 & Hr1).
    { unfold db in Hdb. injection Hdb as -> -> -> ->. auto. }
    unfold POST_payments, try_catch, bind. fold parcelId. rewrite Hnew.
    unfold updateOne. simpl get. rewrite Hp1. fold upd.
    destruct upd as [res ps'] eqn:Hupd. simpl. split.
    + intros Hz. rewrite Hz. simpl. eexists. split; [reflexivity |].
      pose proof (updateOne_unmodified [("_id", VOid o)] [("payment_status", VStr "paid")]
                    (parcels w)) as Hsame.
      fold upd in Hsame. rewrite Hupd in Hsame. simpl in Hsame. rewrite (Hsame Hz).
      unfold db. simpl. now rewrite Hy1, Hu1, Hr1.
    + intros Hnz. destruct (Mongo.modifiedCount res =? 0) eqn:Hm;
        [apply Z.eqb_eq in Hm; contradiction |].
      unfold new_Date, insertOne. simpl.
      unfold Mongo.insertOne. rewrite !lookup_insert_ne by discriminate.
      rewrite lookup_empty, lookup_insert_eq. simpl.
      rewrite Hy1, (has_id_fresh (next_oid w) (payments w) (next_oid w1));
        [| apply (wf_get Payments w Hwf) | exact Hle].
      simpl. eexists _, _, _. split; [reflexivity |]. simpl.
      rewrite Hticks, Hu1, Hr1.
      repeat split; try (now simplify_map_eq).
      apply has_id_by_id, (has_id_fresh (next_oid w)); [apply (wf_get Payments w Hwf) | exact Hle].
Qed.

Lemma sample_world_wf : wf sample_world.
Proof. refine (bool_decide_unpack _ _). vm_compute. exact I. Qed.

(** C1 (as amended): in a well-formed store every run of [POST /payments]
    goes one of three ways.  A [parcelId] that [new ObjectId] rejects is
    answered 500 and nothing is written.  Otherwise the parcel update is
    attempted: when it modifies no document the answer is 404 "Parcel not
    found or already paid" and the four collections are unchanged; when it
    does, exactly one document is appended to [payments], carrying the
    request's fields, [paid_at] (the clock read last) and [paid_at_string]
    (the ISO rendering of the clock read just before), and the answer is 201
    with that document's newly generated [_id]. *)
Theorem POST_payments_spec (req : Req) (e : env) (w : world) :
  wf w ->
  let parcelId := body req !! "parcelId" in
  let upd o := Mongo.updateOne [("_id", VOid o)] [("payment_status", VStr "paid")]
                 (parcels w) in
  (ObjectId_rejects parcelId = true
   /\ POST_payments req e w
      = (inr {| status := 500; sent := Obj [("message", VStr "Failed to record payment")] |}, w))
  \/ (exists o w',
        (new_ObjectId parcelId e w).1 = inr o
        /\ Mongo.modifiedCount (upd o).1 = 0
        /\ POST_payments req e w
           = (inr {| status := 404;
                     sent := Obj [("message", VStr "Parcel not found or already paid")] |}, w')
        /\ db w' = db w)
  \/ (exists o id paymentDoc w',
        (new_ObjectId parcelId e w).1 = inr o
        /\ Mongo.modifiedCount (upd o).1 <> 0
        /\ POST_payments req e w
           = (inr {| status := 201;
                     sent := Obj [("message", VStr "Payment recorded and parcel marked as paid");
                                  ("insertedId", id)] |}, w')
        /\ payments w' = payments w ++ [paymentDoc]
        /\ paymentDoc !! "_id" = Some id /\ by_id id (payments w) = None
        /\ paymentDoc !! "paid_at" = Some (VDate (clock e (S (ticks w))))
        /\ paymentDoc !! "paid_at_string" = Some (VStr (Js.toISOString (clock e (ticks w))))
        /\ paymentDoc !! "parcelId" = Some (of_undef parcelId)
        /\ paymentDoc !! "email" = Some (of_undef (body req !! "email"))
        /\ paymentDoc !! "amount" = Some (of_undef (body req !! "amount"))
        /\ paymentDoc !! "paymentMethod" = Some (of_undef (body req !! "paymentMethod"))
        /\ paymentDoc !! "transactionId" = Some (of_undef (body req !! "transactionId"))
        /\ parcels w' = (upd o).2 /\ users w' = users w /\ riders w' = riders w).
Proof.
  intros Hwf parcelId upd.
  destruct (POST_payments_cases req e w Hwf) as [Hrej Hacc]. fold parcelId in Hrej, Hacc.
  destruct (ObjectId_rejects parcelId) eqn:Hr; [left; auto |].
  destruct (new_ObjectId_accepts parcelId e w Hr) as (o & w1 & Hnew & _).
  assert ((new_ObjectId parcelId e w).1 = inr o) as Ho by now rewrite Hnew.
  destruct (Hacc o Ho) as [Hzero Hpaid]. right.
  destruct (Z.eq_dec (Mongo.modifiedCount (upd o).1) 0) as [Hz | Hnz].
  - left. destruct (Hzero Hz) as (w' & Hrun & Hdb). exists o, w'. auto.
  - right. destruct (Hpaid Hnz) as (id & paymentDoc & w' & H). exists o, id, paymentDoc, w'. auto.
Qed.

Lemma POST_payments_spec_witness :
  wf sample_world
  /\ exists id paymentDoc w',
       POST_payments
         (request None [] []
            [("parcelId", JStr "000000000000000000000002"); ("email", JStr "a@example.com");
             ("amount", JNum 120); ("paymentMethod", JStr "card");
             ("transactionId", JStr "tx_1")])
         sample_env sample_world
       = (inr {| status := 201;
                 sent := Obj [("message", VStr "Payment recorded and parcel marked as paid");
                              ("insertedId", id)] |}, w')
       /\ payments w' = payments sample_world ++ [paymentDoc]
       /\ paymentDoc !! "_id" = Some id
       /\ by_id id (payments sample_world) = None
       /\ paymentDoc !! "paid_at" = Some (VDate (clock sample_env (S (ticks sample_world))))
       /\ paymentDoc !! "paid_at_string"
          = Some (VStr (Js.toISOString (clock sample_env (ticks sample_world)))).
Proof.
  assert (wf sample_world) as Hwf by (refine (bool_decide_unpack _ _); vm_compute; exact I).
  split; [exact Hwf |].
  destruct (POST_payments_spec
              (request None [] []
                 [("parcelId", JStr "000000000000000000000002");
                  ("email", JStr "a@example.com"); ("amount", JNum 120);
                  ("paymentMethod", JStr "card"); ("transactionId", JStr "tx_1")])
              sample_env sample_world Hwf)
    as [[Hrej _] | [(o & w' & Ho & Hz & _) | (o & id & paymentDoc & w' & _ & _ & H)]].
  - vm_compute in Hrej. discriminate.
  - vm_compute in Ho. injection Ho as <-. vm_compute in Hz. discriminate.
  - destruct H as (Hrun & Hpay & Hid & Hnew & Hat & Hstr & _).
    exists id, paymentDoc, w'. repeat split; assumption.
Defined.

Example POST_payments_sample :
  POST_payments
    (request None [] []
       [("parcelId", JStr "000000000000000000000002"); ("email", JStr "a@example.com");
        ("amount", JNum 120); ("paymentMethod", JStr "card"); ("transactionId", JStr "tx_1")])
    sample_env sample_world
  = (inr {| status := 201;
            sent := Obj [("message", VStr "Payment recorded and parcel marked as paid");
                         ("insertedId", VOid 10)] |},
     World sample_users
       [ document [("_id", VOid 2); ("payment_status", VStr "paid");
                   ("delivery_status", VStr "pending"); ("createdAt", VStr "2025-01-01")];
         document [("_id", VOid 3); ("payment_status", VStr "paid");
                   ("delivery_status", VStr "pending"); ("createdAt", VStr "2025-03-01")];
         document [("_id", VOid 4); ("payment_status", VStr "paid");
                   ("delivery_status", VStr "in_transit"); ("createdAt", VStr "2025-02-01")] ]
       (sample_payments ++
        [ document [("_id", VOid 10); ("parcelId", VStr "000000000000000000000002");
                    ("email", VStr "a@example.com"); ("amount", VNum 120);
                    ("paymentMethod", VStr "card"); ("transactionId", VStr "tx_1");
                    ("paid_at_string", VStr "2023-11-14T22:13:20.000Z");
                    ("paid_at", VDate 1700000000001)] ])
       sample_riders 11 2).
Proof. vm_compute. reflexivity. Qed.

(** C1 (as stated) fails: with [parcelId = "xyz"] the update is never
    attempted, so no document is modified, yet the answer is neither the 404
    of the gate nor the 201 of a recorded payment; it is 500. *)
Lemma POST_payments_malformed_parcelId :
  POST_payments (request None [] [] [("parcelId", JStr "xyz"); ("email", JStr "a@example.com")])
    sample_env sample_world
  = (inr {| status := 500; sent := Obj [("message", VStr "Failed to record payment")] |},
     sample_world)
  /\ ~ (exists p w',
          POST_payments
            (request None [] [] [("parcelId", JStr "xyz"); ("email", JStr "a@example.com")])
            sample_env sample_world = (inr {| status := 404; sent := p |}, w'))
  /\ ~ (exists p w',
          POST_payments
            (request None [] [] [("parcelId", JStr "xyz"); ("email", JStr "a@example.com")])
            sample_env sample_world = (inr {| status := 201; sent := p |}, w')).
Proof.
  assert (POST_payments
            (request None [] [] [("parcelId", JStr "xyz"); ("email", JStr "a@example.com")])
            sample_env sample_world
          = (inr {| status := 500; sent := Obj [("message", VStr "Failed to record payment")] |},
             sample_world)) as H by (vm_compute; reflexivity).
  split; [exact H |].
  split; intros (p & w' & H'); rewrite H in H'; discriminate.
Qed.

(** ** Assigning a rider *)

Lemma new_ObjectId_hex s o e w :
  Bson.of_hex s = Some o -> new_ObjectId (Some (JStr s)) e w = (inr o, w).
Proof. intros H. simpl. now rewrite H. Qed.

(** C3 (as amended): a missing or otherwise falsy [parcelId] or [riderEmail]
    is answered 400 and a [parcelId] that [new ObjectId] rejects is answered
    500, both without any write.  For a [parcelId] of 24 hexadecimal digits
    both updates run, each on its own collection, and the answer is 200 with
    the two modification counts: the parcel stored under that [_id], if any,
    gets [delivery_status = "in_transit"], [assigned_rider = riderEmail] and
    [assigned_at] (the given value, or the clock when it is falsy); the first
    rider with that [email], if any, gets [work_status = "in_delivery"] and
    [current_parcel] set to the parcel's identifier. *)
Theorem POST_parcels_assign_spec (req : Req) (e : env) (w : world) :
  let parcelId := body req !! "parcelId" in
  let riderEmail := body req !! "riderEmail" in
  let assignedAt := body req !! "assignedAt" in
  (Js.truthy parcelId = false \/ Js.truthy riderEmail = false ->
   POST_parcels_assign req e w
   = (inr {| status := 400;
             sent := Obj [("error", VStr "parcelId and riderEmail are required")] |}, w))
  /\ (Js.truthy parcelId = true -> Js.truthy riderEmail = true ->
      ObjectId_rejects parcelId = true ->
      POST_parcels_assign req e w
      = (inr {| status := 500; sent := Obj [("error", VStr "Internal server error")] |}, w))
  /\ (forall s o,
        parcelId = Some (JStr s) -> Bson.of_hex s = Some o -> Js.truthy riderEmail = true ->
        let assigned_at := if Js.truthy assignedAt then of_undef assignedAt
                           else VDate (clock e (ticks w)) in
        let pu := Mongo.updateOne [("_id", VOid o)]
                    [("delivery_status", VStr "in_transit");
                     ("assigned_rider", of_undef riderEmail);
                     ("assigned_at", assigned_at)] (parcels w) in
        let ru := Mongo.updateOne [("email", of_undef riderEmail)]
                    [("work_status", VStr "in_delivery"); ("current_parcel", VOid o)]
                    (riders w) in
        exists w',
          POST_parcels_assign req e w
          = (inr {| status := 200;
                    sent := Obj [("success", VBool true);
                                 ("message", VStr "Rider assigned and statuses updated");
                                 ("parcelModified", VNum (Mongo.modifiedCount pu.1));
                                 ("riderModified", VNum (Mongo.modifiedCount ru.1))] |}, w')
          /\ parcels w' = pu.2 /\ riders w' = ru.2
          /\ users w' = users w /\ payments w' = payments w
          /\ (forall p, by_id (VOid o) (parcels w) = Some p ->
                exists p', by_id (VOid o) (parcels w') = Some p'
                  /\ p' !! "delivery_status" = Some (VStr "in_transit")
                  /\ p' !! "assigned_rider" = Some (of_undef riderEmail)
                  /\ p' !! "assigned_at" = Some assigned_at)
          /\ (forall r, Mongo.findOne [("email", of_undef riderEmail)] (riders w) = Some r ->
                exists r', Mongo.findOne [("email", of_undef riderEmail)] (riders w') = Some r'
                  /\ r' !! "work_status" = Some (VStr "in_delivery")
                  /\ r' !! "current_parcel" = Some (VOid o))).
Proof.
  intros parcelId riderEmail assignedAt. split; [| split].
  - intros H. unfold POST_parcels_assign. fold parcelId riderEmail.
    destruct H as [-> | ->]; [reflexivity | now rewrite orb_true_r].
  - intros Hp Hr Hrej. unfold POST_parcels_assign. fold parcelId riderEmail.
    rewrite Hp, Hr. simpl. unfold try_catch, bind.
    now rewrite (new_ObjectId_rejects _ _ _ Hrej).
  - intros s o Hs Ho Hr assigned_at pu ru.
    assert (Js.truthy parcelId = true) as Hp.
    { rewrite Hs. simpl. destruct (String.eqb_spec s ""); [subst; discriminate | reflexivity]. }
    unfold POST_parcels_assign. fold parcelId riderEmail assignedAt.
    rewrite Hp, Hr. simpl. unfold try_catch, bind. rewrite Hs.
    rewrite (new_ObjectId_hex _ _ _ _ Ho).
    set (w1 := if Js.truthy assignedAt then w
               else World (users w) (parcels w) (payments w) (riders w) (next_oid w)
                      (S (ticks w))).
    assert ((if Js.truthy assignedAt then ret (of_undef assignedAt)
             else fun e0 w0 => match new_Date e0 w0 with
                               | (inr a, w') => ret (VDate a) e0 w'
                               | (inl x, w') => (inl x, w')
                               end) e w = (inr assigned_at, w1)) as ->.
    { subst assigned_at w1. now destruct (Js.truthy assignedAt). }
    assert (parcels w1 = parcels w /\ riders w1 = riders w /\ users w1 = users w
            /\ payments w1 = payments w) as (Hp1 & Hr1 & Hu1 & Hy1).
    { subst w1. now destruct (Js.truthy assignedAt). }
    unfold updateOne at 1. simpl get. rewrite Hp1. fold pu.
    destruct pu as [pres ps'] eqn:Hpu.
    rewrite (new_ObjectId_hex _ _ _ _ Ho).
    unfold updateOne. simpl get. rewrite Hr1. fold ru.
    destruct ru as [rres rs'] eqn:Hru. simpl.
    eexists. split; [reflexivity |]. simpl. rewrite Hu1, Hy1.
    repeat split.
    + intros p Hb. exists (Mongo.apply_set
        [("delivery_status", VStr "in_transit"); ("assigned_rider", of_undef riderEmail);
         ("assigned_at", assigned_at)] p).
      split.
      * pose proof (by_id_updateOne o
          [("delivery_status", VStr "in_transit"); ("assigned_rider", of_undef riderEmail);
           ("assigned_at", assigned_at)] (parcels w) eq_refl) as H.
        fold pu in H. rewrite Hpu, Hb in H. exact H.
      * unfold Mongo.apply_set. simpl. repeat split; now simplify_map_eq.
    + intros r Hf. exists (Mongo.apply_set
        [("work_status", VStr "in_delivery"); ("current_parcel", VOid o)] r).
      split.
      * pose proof (findOne_updateOne [("email", of_undef riderEmail)]
          [("work_status", VStr "in_delivery"); ("current_parcel", VOid o)] (riders w)) as H.
        fold ru in H. rewrite Hru, Hf in H. apply H.
        intros d. now apply matches_one_apply_set.
      * unfold Mongo.apply_set. simpl. repeat split; now simplify_map_eq.
Qed.

Lemma POST_parcels_assign_spec_witness :
  exists w',
    POST_parcels_assign
      (request None [] []
         [("parcelId", JStr "000000000000000000000002"); ("riderEmail", JStr "r@example.com")])
      sample_env sample_world
    = (inr {| status := 200;
              sent := Obj [("success", VBool true);
                           ("message", VStr "Rider assigned and statuses updated");
                           ("parcelModified", VNum 1); ("riderModified", VNum 1)] |}, w')
    /\ users w' = users sample_world /\ payments w' = payments sample_world
    /\ (forall p, by_id (VOid 2) (parcels sample_world) = Some p ->
          exists p', by_id (VOid 2) (parcels w') = Some p'
            /\ p' !! "delivery_status" = Some (VStr "in_transit")
            /\ p' !! "assigned_rider" = Some (VStr "r@example.com")
            /\ p' !! "assigned_at" = Some (VDate 1700000000000))
    /\ (forall r, Mongo.findOne [("email", VStr "r@example.com")] (riders sample_world) = Some r ->
          exists r', Mongo.findOne [("email", VStr "r@example.com")] (riders w') = Some r'
            /\ r' !! "work_status" = Some (VStr "in_delivery")
            /\ r' !! "current_parcel" = Some (VOid 2)).
Proof.
  destruct (proj2 (proj2 (POST_parcels_assign_spec
              (request None [] []
                 [("parcelId", JStr "000000000000000000000002");
                  ("riderEmail", JStr "r@example.com")])
              sample_env sample_world)) "000000000000000000000002" 2%N
              ltac:(vm_compute; reflexivity) ltac:(vm_compute; reflexivity)
              ltac:(vm_compute; reflexivity))
    as (w' & Hrun & _ & _ & Hu & Hy & Hparcel & Hrider).
  exists w'. split; [| split; [exact Hu | split; [exact Hy | split; [exact Hparcel | exact Hrider]]]].
  rewrite Hrun. vm_compute. reflexivity.
Defined.

(** C3 (as stated) fails: with [parcelId = "xyz"] and a rider e-mail, neither
    field is missing, yet no write is attempted and the answer is 500, not
    the report of two modification counts. *)
Lemma POST_parcels_assign_malformed_parcelId :
  body (request None [] [] [("parcelId", JStr "xyz"); ("riderEmail", JStr "r@example.com")])
    !! "parcelId" = Some (JStr "xyz")
  /\ body (request None [] [] [("parcelId", JStr "xyz"); ("riderEmail", JStr "r@example.com")])
       !! "riderEmail" = Some (JStr "r@example.com")
  /\ POST_parcels_assign
       (request None [] [] [("parcelId", JStr "xyz"); ("riderEmail", JStr "r@example.com")])
       sample_env sample_world
     = (inr {| status := 500; sent := Obj [("error", VStr "Internal server error")] |},
        sample_world)
  /\ ~ (exists p w',
          POST_parcels_assign
            (request None [] [] [("parcelId", JStr "xyz"); ("riderEmail", JStr "r@example.com")])
            sample_env sample_world
          = (inr {| status := 200; sent := p |}, w')).
Proof.
  assert (POST_parcels_assign
            (request None [] [] [("parcelId", JStr "xyz"); ("riderEmail", JStr "r@example.com")])
            sample_env sample_world
          = (inr {| status := 500; sent := Obj [("error", VStr "Internal server error")] |},
             sample_world)) as H by (vm_compute; reflexivity).
  split; [vm_compute; reflexivity |]. split; [vm_compute; reflexivity |].
  split; [exact H |]. intros (p & w' & H'). rewrite H in H'. discriminate.
Qed.

(** ** The sort order of the store *)

Lemma ascii_compare_spec a b :
  match Ascii.compare a b with
  | Eq => a = b
  | Lt => (N_of_ascii a < N_of_ascii b)%N
  | Gt => (N_of_ascii b < N_of_ascii a)%N
  end.
Proof.
  destruct (Ascii.compare a b) eqn:H.
  - now apply Ascii.compare_eq_iff.
  - now apply N.compare_lt_iff.
  - now apply N.compare_gt_iff.
Qed.

Lemma ascii_compare_lt a b : (N_of_ascii a < N_of_ascii b)%N -> Ascii.compare a b = Lt.
Proof. intros H. now apply N.compare_lt_iff. Qed.

Lemma ascii_compare_refl a : Ascii.compare a a = Eq.
Proof. apply N.compare_refl. Qed.

Lemma string_compare_refl s : String.compare s s = Eq.
Proof. induction s as [| a s IH]; simpl; [reflexivity |]. now rewrite ascii_compare_refl. Qed.

Lemma string_le_trans s1 s2 s3 :
  String.compare s1 s2 <> Gt -> String.compare s2 s3 <> Gt -> String.compare s1 s3 <> Gt.
Proof.
  revert s2 s3. induction s1 as [| a s1 IH]; intros [| b s2] [| c s3]; simpl; try congruence.
  pose proof (ascii_compare_spec a b) as Hab. pose proof (ascii_compare_spec b c) as Hbc.
  destruct (Ascii.compare a b) eqn:Eab; [subst b | | congruence].
  - destruct (Ascii.compare a c); [apply IH | congruence | congruence].
  - destruct (Ascii.compare b c) eqn:Ebc; [subst c | | congruence].
    + now rewrite Eab.
    + rewrite (ascii_compare_lt a c) by lia. congruence.
Qed.

Lemma leb_total a b : Bson.leb a b = false -> Bson.leb b a = true.
Proof.
  unfold Bson.leb.
  destruct a, b; simpl; try discriminate; try reflexivity.
  - destruct b, b0; simpl; (discriminate || reflexivity).
  - rewrite (Z.compare_antisym n0 n). now destruct (n0 ?= n).
  - rewrite (String.compare_antisym s0 s). now destruct (String.compare s s0).
  - rewrite (N.compare_antisym o0 o). now destruct (o0 ?= o)%N.
  - rewrite (Z.compare_antisym t0 t). now destruct (t0 ?= t).
Qed.

Lemma leb_refl a : Bson.leb a a = true.
Proof.
  unfold Bson.leb. destruct a; simpl; try reflexivity.
  - now destruct b.
  - now rewrite Z.compare_refl.
  - now rewrite string_compare_refl.
  - now rewrite N.compare_refl.
  - now rewrite Z.compare_refl.
Qed.

Lemma leb_le a b : Bson.leb a b = true <-> Bson.compare a b <> Gt.
Proof. unfold Bson.leb. destruct (Bson.compare a b); split; congruence. Qed.

Lemma leb_trans a b c : Bson.leb a b = true -> Bson.leb b c = true -> Bson.leb a c = true.
Proof.
  rewrite !leb_le.
  destruct a as [| x | x | x | x | x], b as [| y | y | y | y | y], c as [| z | z | z | z | z];
    simpl; try congruence; try (unfold Pos.compare; simpl; congruence).
  - destruct x, y, z; simpl; congruence.
  - rewrite !Z.compare_le_iff. lia.
  - apply string_le_trans.
  - rewrite !N.compare_le_iff. lia.
  - rewrite !Z.compare_le_iff. lia.
Qed.

(** Descending on field [k]: no document sorts before one with a larger key. *)
Lemma insert_desc_perm k d l : Permutation (Mongo.insert_desc k d l) (d :: l).
Proof.
  induction l as [| x l IH]; simpl; [reflexivity |].
  destruct (Bson.leb (Mongo.sort_key k x) (Mongo.sort_key k d)); [reflexivity |].
  rewrite IH. apply perm_swap.
Qed.

Lemma sort_desc_perm k l : Permutation (Mongo.sort_desc k l) l.
Proof.
  induction l as [| d l IH]; simpl; [reflexivity |].
  rewrite insert_desc_perm. now constructor.
Qed.

Lemma insert_desc_sorted k d l :
  StronglySorted (fun a b => Bson.leb (Mongo.sort_key k b) (Mongo.sort_key k a) = true) l ->
  StronglySorted (fun a b => Bson.leb (Mongo.sort_key k b) (Mongo.sort_key k a) = true)
    (Mongo.insert_desc k d l).
Proof.
  induction 1 as [| x l Hl IH Hx]; simpl.
  - repeat constructor.
  - destruct (Bson.leb (Mongo.sort_key k x) (Mongo.sort_key k d)) eqn:Hd.
    + constructor; [now constructor |]. constructor; [exact Hd |].
      eapply List.Forall_impl; [| exact Hx]. intros y Hy. simpl in Hy.
      exact (leb_trans _ _ _ Hy Hd).
    + constructor; [exact IH |].
      eapply Permutation_Forall; [symmetry; apply insert_desc_perm |].
      constructor; [now apply leb_total | exact Hx].
Qed.

Lemma sort_desc_sorted k l :
  StronglySorted (fun a b => Bson.leb (Mongo.sort_key k b) (Mongo.sort_key k a) = true)
    (Mongo.sort_desc k l).
Proof.
  induction l as [| d l IH]; simpl; [constructor | now apply insert_desc_sorted].
Qed.

(** Sorting keeps the stored order among documents with equal keys. *)
Lemma sort_desc_In k l d : In d (Mongo.sort_desc k l) <-> In d l.
Proof.
  split; apply Permutation_in; [apply sort_desc_perm | symmetry; apply sort_desc_perm].
Qed.

(** ** The credential gate *)

Lemma verifyFBToken_verified e req decoded next w :
  verified e req decoded -> verifyFBToken req next e w = next decoded e w.
Proof.
  intros (h & tok & Hh & Hs & Ht & Hv). unfold verifyFBToken. rewrite Hh.
  assert (h <> "") as Hne by (intros ->; discriminate).
  rewrite (truthy_string_Some h Hne). simpl. rewrite Hs.
  rewrite (truthy_string_Some tok Ht). simpl. now rewrite Hv.
Qed.

(** ** Listing parcels *)

Lemma filter_if_truthy_matches k v d :
  Mongo.matches (filter_if_truthy k v) d
  = match v with
    | Some s => String.eqb s "" || bool_decide (d !! k = Some (VStr s))
    | None => true
    end.
Proof.
  unfold filter_if_truthy, Js.truthy_string. destruct v as [s |]; [| reflexivity].
  destruct (String.eqb s ""); [reflexivity |]. simpl. apply andb_true_r.
Qed.

Lemma matches_app q1 q2 d :
  Mongo.matches (q1 ++ q2) d = Mongo.matches q1 d && Mongo.matches q2 d.
Proof. unfold Mongo.matches. apply forallb_app. Qed.

(** C7 (as amended): for a request with a verified identity, [GET /parcels]
    answers 200 with exactly the stored parcels that agree with every filter
    given a non-empty value (an empty [payment_status] or [delivery_status]
    counts as not given), newest first by [createdAt]; nothing is written. *)
Theorem GET_parcels_spec (req : Req) (e : env) (w : world) (decoded : DecodedIdToken) :
  verified e req decoded ->
  let payment_status := query req !! "payment_status" in
  let delivery_status := query req !! "delivery_status" in
  exists l,
    GET_parcels req e w = (inr {| status := 200; sent := Docs l |}, w)
    /\ Permutation l (List.filter (parcel_selected payment_status delivery_status) (parcels w))
    /\ newest_first "createdAt" l
    /\ (forall p : gmap string value,
          In p l <->
          In p (parcels w)
          /\ (forall s, payment_status = Some s -> s <> "" ->
                p !! "payment_status" = Some (VStr s))
          /\ (forall s, delivery_status = Some s -> s <> "" ->
                p !! "delivery_status" = Some (VStr s))).
Proof.
  intros Hv ps ds. unfold GET_parcels. rewrite (verifyFBToken_verified _ _ _ _ _ Hv).
  unfold try_catch, bind, find, send, ret. simpl. fold ps ds.
  assert (Mongo.find (filter_if_truthy "payment_status" ps ++ filter_if_truthy "delivery_status" ds)
            (parcels w)
          = List.filter (parcel_selected ps ds) (parcels w)) as ->.
  { unfold Mongo.find. apply List.filter_ext. intros p.
    now rewrite matches_app, !filter_if_truthy_matches. }
  eexists. split; [reflexivity |]. split; [apply sort_desc_perm |].
  split; [apply sort_desc_sorted |].
  intros p. rewrite sort_desc_In, List.filter_In. unfold parcel_selected.
  rewrite andb_true_iff.
  assert (forall k (v : option string),
            match v with
            | Some s => String.eqb s "" || bool_decide (p !! k = Some (VStr s))
            | None => true
            end = true
            <-> (forall s, v = Some s -> s <> "" -> p !! k = Some (VStr s))) as Hk.
  { intros k [s |]; [| split; [discriminate | reflexivity]].
    rewrite orb_true_iff, bool_decide_eq_true. destruct (String.eqb_spec s "") as [-> | Hne].
    - split; [intros _ ? [= <-] ? | auto]. contradiction.
    - split; [intros [? | ?] ? [= <-] _; [discriminate | assumption] | intros H; right; auto]. }
  now rewrite !Hk.
Qed.

Lemma GET_parcels_spec_witness :
  verified sample_env
    (request (Some "Bearer token-a") [] [("payment_status", "paid")] [])
    {| email := Some "a@example.com" |}
  /\ exists l,
       GET_parcels (request (Some "Bearer token-a") [] [("payment_status", "paid")] [])
         sample_env sample_world
       = (inr {| status := 200; sent := Docs l |}, sample_world)
       /\ newest_first "createdAt" l
       /\ (forall p : gmap string value,
             In p l <->
             In p (parcels sample_world)
             /\ (forall s,
                   query (request (Some "Bearer token-a") [] [("payment_status", "paid")] [])
                     !! "payment_status" = Some s ->
                   s <> "" -> p !! "payment_status" = Some (VStr s))
             /\ (forall s,
                   query (request (Some "Bearer token-a") [] [("payment_status", "paid")] [])
                     !! "delivery_status" = Some s ->
                   s <> "" -> p !! "delivery_status" = Some (VStr s))).
Proof.
  assert (verified sample_env
            (request (Some "Bearer token-a") [] [("payment_status", "paid")] [])
            {| email := Some "a@example.com" |}) as Hv.
  { exists "Bearer token-a", "token-a". repeat split; try (vm_compute; reflexivity).
    discriminate. }
  split; [exact Hv |].
  destruct (GET_parcels_spec _ sample_env sample_world _ Hv) as (l & Hrun & _ & Hs & Hm).
  exists l. split; [exact Hrun |]. split; [exact Hs | exact Hm].
Defined.

Example GET_parcels_paid_sample :
  GET_parcels (request (Some "Bearer token-a") [] [("payment_status", "paid")] [])
    sample_env sample_world
  = (inr {| status := 200;
            sent := Docs
              [ document [("_id", VOid 3); ("payment_status", VStr "paid");
                          ("delivery_status", VStr "pending"); ("createdAt", VStr "2025-03-01")];
                document [("_id", VOid 4); ("payment_status", VStr "paid");
                          ("delivery_status", VStr "in_transit");
                          ("createdAt", VStr "2025-02-01")] ] |},
     sample_world).
Proof. vm_compute. reflexivity. Qed.

(** C7 (as stated) fails: [?payment_status=] provides the empty string as the
    filter value, and the answer still holds a parcel whose [payment_status]
    is "paid", not the empty string. *)
Lemma GET_parcels_empty_filter :
  verified sample_env (request (Some "Bearer token-a") [] [("payment_status", "")] [])
    {| email := Some "a@example.com" |}
  /\ query (request (Some "Bearer token-a") [] [("payment_status", "")] [])
       !! "payment_status" = Some ""
  /\ exists l p,
       GET_parcels (request (Some "Bearer token-a") [] [("payment_status", "")] [])
         sample_env sample_world
       = (inr {| status := 200; sent := Docs l |}, sample_world)
       /\ In p l
       /\ p !! "payment_status" = Some (VStr "paid")
       /\ p !! "payment_status" <> Some (VStr "").
Proof.
  split.
  { exists "Bearer token-a", "token-a". repeat split; try (vm_compute; reflexivity).
    discriminate. }
  split; [vm_compute; reflexivity |].
  eexists _, (document [("_id", VOid 3); ("payment_status", VStr "paid");
                        ("delivery_status", VStr "pending"); ("createdAt", VStr "2025-03-01")]).
  split; [vm_compute; reflexivity |].
  split; [left; reflexivity |].
  split; [vm_compute; reflexivity | vm_compute; discriminate].
Qed.

(** ** Listing payments *)



Example GET_payments_forbidden_sample :
  GET_payments (request (Some "Bearer token-a") [] [("email", "b@example.com")] [])
    sample_env sample_world
  = (inr {| status := 403; sent := Obj [("message", VStr "forbidden access")] |}, sample_world).
Proof. vm_compute. reflexivity. Qed.


(** ** Approving or rejecting a rider *)

Lemma adminVerify_admin w decoded next e :
  is_admin w decoded -> adminVerify decoded next e w = next e w.
Proof.
  intros (u & Hu & Hr). unfold adminVerify, bind, findOne. simpl. rewrite Hu.
  now rewrite (bool_decide_eq_true_2 _ Hr).
Qed.

(** C4: behind the credential and admin gates, [PATCH /riders/:id/status]
    answers 400 to a [status] other than "active" and "rejected" and writes
    nothing.  With [status = "active"] on a stored rider that has an e-mail,
    the rider's [status] is set and the first user with that e-mail gets
    [role = "rider"], so that [GET /users/:email/role] then answers "rider";
    when no user has that e-mail the users are left as they were and the
    answer is the same 200 with the rider's update result. *)
Theorem PATCH_riders_id_status_spec (req : Req) (e : env) (w : world)
    (decoded : DecodedIdToken) :
  verified e req decoded -> is_admin w decoded ->
  let status := body req !! "status" in
  (Js.includes ["active"; "rejected"] status = false ->
   PATCH_riders_id_status req e w
   = (inr {| status := 400; sent := Obj [("error", VStr "Invalid status value")] |}, w))
  /\ (forall s o (r : gmap string value) em,
        params req !! "id" = Some s -> Bson.of_hex s = Some o ->
        status = Some (JStr "active") ->
        by_id (VOid o) (riders w) = Some r -> r !! "email" = Some (VStr em) -> em <> "" ->
        exists w',
          PATCH_riders_id_status req e w
          = (inr {| status := 200;
                    sent := Updated (Mongo.updateOne [("_id", VOid o)]
                                       [("status", VStr "active")] (riders w)).1 |}, w')
          /\ by_id (VOid o) (riders w') = Some (<["status" := VStr "active"]> r)
          /\ users w' = (Mongo.updateOne [("email", VStr em)] [("role", VStr "rider")]
                           (users w)).2
          /\ parcels w' = parcels w /\ payments w' = payments w
          /\ forall req2 e2,
               params req2 !! "email" = Some em ->
               match Mongo.findOne [("email", VStr em)] (users w) with
               | Some _ =>
                   GET_users_email_role req2 e2 w'
                   = (inr {| status := 200; sent := Obj [("role", VStr "rider")] |}, w')
               | None =>
                   users w' = users w
                   /\ GET_users_email_role req2 e2 w'
                      = (inr {| status := 404; sent := Obj [("error", VStr "User not found")] |}, w')
               end).
Proof.
  intros Hv Ha status. unfold PATCH_riders_id_status.
  rewrite (verifyFBToken_verified _ _ _ _ _ Hv), (adminVerify_admin _ _ _ _ Ha).
  fold status. split.
  - intros H. now rewrite H.
  - intros s o r em Hs Ho Hst Hb Hem Hne. rewrite Hst. simpl.
    unfold try_catch, bind, param. rewrite Hs. simpl. rewrite Ho. simpl.
    unfold updateOne at 1. simpl get.
    pose proof (by_id_updateOne o [("status", VStr "active")] (riders w) eq_refl) as Hrider.
    destruct (Mongo.updateOne [("_id", VOid o)] [("status", VStr "active")] (riders w))
      as [res rs'] eqn:Hu.
    simpl in Hrider. rewrite Hb in Hrider. simpl in Hrider.
    unfold findOne. simpl. rewrite findOne_by_id, Hrider. simpl.
    unfold Mongo.apply_set. simpl.
    rewrite lookup_insert_ne by discriminate. rewrite Hem. simpl.
    destruct (String.eqb_spec em ""); [contradiction |]. simpl.
    unfold updateOne. simpl.
    pose proof (findOne_updateOne [("email", VStr em)] [("role", VStr "rider")] (users w)
                  (fun d => matches_one_apply_set "email" (VStr em)
                              [("role", VStr "rider")] d eq_refl)) as Huser.
    destruct (Mongo.updateOne [("email", VStr em)] [("role", VStr "rider")] (users w))
      as [ures us'] eqn:Huu.
    simpl. eexists. split; [reflexivity |]. simpl. split; [exact Hrider |].
    repeat split.
    intros req2 e2 Hreq2. unfold GET_users_email_role. rewrite Hreq2.
    rewrite (truthy_string_Some em) by assumption. simpl.
    unfold try_catch, bind, findOne. simpl. simpl in Huser. rewrite Huser.
    destruct (Mongo.findOne [("email", VStr em)] (users w)) as [u |] eqn:Hf; simpl.
    + unfold Mongo.apply_set. simpl. now rewrite lookup_insert_eq.
    + split; [| reflexivity].
      apply findOne_None in Hf. rewrite (updateOne_miss _ _ _ Hf) in Huu. congruence.
Qed.

Lemma PATCH_riders_id_status_spec_witness :
  verified sample_env
    (request (Some "Bearer token-admin") [("id", "000000000000000000000007")] []
       [("status", JStr "active")])
    {| email := Some "admin@example.com" |}
  /\ is_admin sample_world {| email := Some "admin@example.com" |}
  /\ exists w',
       PATCH_riders_id_status
         (request (Some "Bearer token-admin") [("id", "000000000000000000000007")] []
            [("status", JStr "active")])
         sample_env sample_world
       = (inr {| status := 200;
                 sent := Updated (Mongo.updateOne [("_id", VOid 7)]
                                    [("status", VStr "active")] (riders sample_world)).1 |}, w')
       /\ GET_users_email_role (request None [("email", "r@example.com")] [] [])
            sample_env w'
          = (inr {| status := 200; sent := Obj [("role", VStr "rider")] |}, w').
Proof.
  assert (verified sample_env
            (request (Some "Bearer token-admin") [("id", "000000000000000000000007")] []
               [("status", JStr "active")])
            {| email := Some "admin@example.com" |}) as Hv.
  { exists "Bearer token-admin", "token-admin". repeat split; try (vm_compute; reflexivity).
    discriminate. }
  assert (is_admin sample_world {| email := Some "admin@example.com" |}) as Ha.
  { eexists. split; vm_compute; reflexivity. }
  split; [exact Hv |]. split; [exact Ha |].
  destruct (proj2 (PATCH_riders_id_status_spec _ sample_env sample_world _ Hv Ha)
              "000000000000000000000007" 7%N
              (document [("_id", VOid 7); ("email", VStr "r@example.com");
                         ("district", VStr "Dhaka"); ("status", VStr "pending");
                         ("work_status", VStr "in_delivery")])
              "r@example.com"
              ltac:(vm_compute; reflexivity) ltac:(vm_compute; reflexivity)
              ltac:(vm_compute; reflexivity) ltac:(vm_compute; reflexivity)
              ltac:(vm_compute; reflexivity) ltac:(discriminate))
    as (w' & Hrun & _ & _ & _ & _ & Hrole).
  exists w'. split; [exact Hrun |].
  specialize (Hrole (request None [("email", "r@example.com")] [] []) sample_env
                ltac:(vm_compute; reflexivity)).
  assert (Mongo.findOne [("email", VStr "r@example.com")] (users sample_world)
          = Some (document [("_id", VOid 1); ("email", VStr "r@example.com");
                            ("role", VStr "user")])) as Hu
    by (vm_compute; reflexivity).
  rewrite Hu in Hrole. exact Hrole.
Defined.

(** ** Signing a user in *)

Lemma serializable_insert k v (d : gmap string value) :
  Bson.has_nul k = false -> Bson.serializable (<[k := v]> d) = Bson.serializable d.
Proof.
  intros Hk. unfold Bson.serializable. apply bool_decide_ext. split.
  - intros H i x Hi. destruct (decide (i = k)) as [-> | Hne]; [exact Hk |].
    apply (H i x). now rewrite lookup_insert_ne by congruence.
  - now apply map_Forall_insert_2.
Qed.

Lemma insertOne_Some d c n id l n' :
  Mongo.insertOne d c n = (inr (id, l), n') ->
  exists d' : gmap string value,
    l = c ++ [d'] /\ d' !! "_id" = Some id /\ Mongo.has_id id c = false
    /\ (forall k, k <> "_id" -> d' !! k = d !! k)
    /\ ((id = VOid n /\ n' = N.succ n /\ d' = <["_id" := VOid n]> d)
        \/ (d !! "_id" = Some id /\ id <> VNull /\ n' = n /\ d' = d)).
Proof.
  unfold Mongo.insertOne.
  destruct (d !! "_id") as [v |] eqn:Hid.
  - destruct v; cbn [negb];
      (destruct (Bson.serializable _); cbn [negb]; [| discriminate]);
      rewrite ?lookup_insert_eq, ?Hid; simpl;
      (destruct (Mongo.has_id _ c) eqn:Hh; [discriminate |]);
      intros [= <- <- <-]; eexists; (split; [reflexivity |]);
      rewrite ?lookup_insert_eq, ?Hid;
      (split; [reflexivity |]); (split; [exact Hh |]);
      (split; [intros k Hk; now rewrite ?lookup_insert_ne by congruence |]);
      try (left; now auto); right; repeat split; congruence.
  - destruct (Bson.serializable _); cbn [negb]; [| discriminate].
    rewrite lookup_insert_eq. simpl.
    destruct (Mongo.has_id _ c) eqn:Hh; [discriminate |].
    intros [= <- <- <-]. eexists. split; [reflexivity |].
    rewrite lookup_insert_eq. split; [reflexivity |]. split; [exact Hh |].
    split; [intros k Hk; now rewrite lookup_insert_ne by congruence |].
    left. auto.
Qed.

Lemma insertOne_serializable d c n id l n' :
  Mongo.insertOne d c n = (inr (id, l), n') -> Bson.serializable d = true.
Proof.
  unfold Mongo.insertOne.
  assert (Bson.serializable (<["_id" := VOid n]> d) = Bson.serializable d) as Hs
    by now apply serializable_insert.
  destruct (d !! "_id") as [[] |]; rewrite ?Hs;
    destruct (Bson.serializable d); cbn [negb]; try reflexivity; discriminate.
Qed.

Lemma insertOne_invalid d c n :
  Bson.serializable d = false ->
  (Mongo.insertOne d c n).1 = inl Mongo.InvalidKey.
Proof.
  intros Hd. unfold Mongo.insertOne.
  assert (Bson.serializable (<["_id" := VOid n]> d) = false) as Hs
    by now rewrite serializable_insert.
  destruct (d !! "_id") as [[] |]; now rewrite ?Hs, ?Hd.
Qed.

Lemma insertOne_fresh (d : gmap string value) c n :
  Bson.serializable d = true -> d !! "_id" = None \/ d !! "_id" = Some VNull ->
  Mongo.has_id (VOid n) c = false ->
  Mongo.insertOne d c n = (inr (VOid n, c ++ [<["_id" := VOid n]> d]), N.succ n).
Proof.
  intros Hd Hid Hfree. unfold Mongo.insertOne.
  assert (Bson.serializable (<["_id" := VOid n]> d) = true) as Hs
    by now rewrite serializable_insert.
  destruct Hid as [-> | ->]; cbv beta iota zeta; rewrite Hs, lookup_insert_eq; simpl;
    now rewrite Hfree.
Qed.

Lemma insertOne_own (d : gmap string value) c n v :
  Bson.serializable d = true -> d !! "_id" = Some v -> v <> VNull ->
  Mongo.insertOne d c n
  = if Mongo.has_id v c then (inl Mongo.DuplicateKey, n) else (inr (v, c ++ [d]), n).
Proof.
  intros Hd Hid Hv. unfold Mongo.insertOne. rewrite Hid.
  destruct v; try congruence; cbv beta iota zeta; rewrite Hd, Hid; reflexivity.
Qed.

Lemma own_id_None (b : gmap string json) :
  own_id b = None ->
  of_json <$> b !! "_id" = None \/ of_json <$> b !! "_id" = Some VNull.
Proof. unfold own_id. destruct (b !! "_id") as [[] |]; simpl; auto; discriminate. Qed.

Lemma own_id_Some (b : gmap string json) v :
  own_id b = Some v -> of_json <$> b !! "_id" = Some v /\ v <> VNull.
Proof.
  unfold own_id. destruct (b !! "_id") as [[] |]; simpl; try discriminate;
    intros [= <-]; split; (reflexivity || discriminate).
Qed.



Lemma findOne_app_None q l1 l2 :
  Mongo.findOne q l1 = None -> Mongo.findOne q (l1 ++ l2) = Mongo.findOne q l2.
Proof.
  unfold Mongo.findOne. induction l1 as [| d l1 IH]; simpl; [reflexivity |].
  destruct (Mongo.matches q d); [discriminate | exact IH].
Qed.

Lemma field_matches_of_undef (v : option json) :
  Mongo.field_matches (of_json <$> v) (of_undef v) = true.
Proof.
  destruct v as [[| b | n | s] |]; simpl; try reflexivity; now apply bool_decide_eq_true.
Qed.

(** C6 (as amended): in a well-formed store, [POST /users] answers "User
    already exists" and changes nothing when a user with the payload's e-mail
    is stored.  Otherwise the insertion is attempted.  When a field name of
    the payload holds a NUL byte the driver refuses to serialize the document
    and the call throws a [BSONError]; when the payload brings an [_id] that
    is already stored the unique index rejects the insertion; in both cases no
    answer is sent and the collections are unchanged.  In every other case
    the payload, extended with [created_at] and, unless it brings its own, a
    generated [_id], is appended to the users.  Whenever the call answers, a
    second call with the same e-mail answers "User already exists" and leaves
    the world as the first call left it. *)
Theorem POST_users_spec (req : Req) (e : env) (w : world) :
  wf w ->
  let email := body req !! "email" in
  let user := <["created_at" := VDate (clock e (ticks w))]> (doc_of_body (body req)) in
  (forall u, Mongo.findOne [("email", of_undef email)] (users w) = Some u ->
     POST_users req e w
     = (inr {| status := 200; sent := Obj [("message", VStr "User already exists")] |}, w))
  /\ (Mongo.findOne [("email", of_undef email)] (users w) = None ->
      (Bson.serializable (doc_of_body (body req)) = false ->
         (POST_users req e w).1 = inl BSONError
         /\ db (POST_users req e w).2 = db w)
      /\ (Bson.serializable (doc_of_body (body req)) = true ->
          (forall v u, own_id (body req) = Some v -> by_id v (users w) = Some u ->
             (POST_users req e w).1 = inl (MongoServerError 11000)
             /\ db (POST_users req e w).2 = db w)
          /\ (own_id (body req) = None
              \/ (exists v, own_id (body req) = Some v /\ by_id v (users w) = None) ->
              exists id w',
                POST_users req e w = (inr {| status := 200; sent := Inserted id |}, w')
                /\ users w' = users w ++ [<["_id" := id]> user]
                /\ id = default (VOid (next_oid w)) (own_id (body req))
                /\ parcels w' = parcels w /\ payments w' = payments w
                /\ riders w' = riders w)))
  /\ (forall r w',
        POST_users req e w = (inr r, w') ->
        forall req2 e2,
          body req2 !! "email" = email ->
          POST_users req2 e2 w'
          = (inr {| status := 200; sent := Obj [("message", VStr "User already exists")] |}, w')).
Proof.
  intros Hwf email user.
  assert (forall u, Mongo.findOne [("email", of_undef email)] (users w) = Some u ->
            POST_users req e w
            = (inr {| status := 200; sent := Obj [("message", VStr "User already exists")] |}, w))
    as Hexists.
  { intros u Hu. unfold POST_users, bind, findOne. fold email. simpl. now rewrite Hu. }
  assert (user !! "_id" = of_json <$> body req !! "_id") as Huid.
  { unfold user, doc_of_body. rewrite lookup_insert_ne by discriminate. apply lookup_fmap. }
  assert (user !! "email" = of_json <$> email) as Huemail.
  { unfold user, doc_of_body. rewrite lookup_insert_ne by discriminate. apply lookup_fmap. }
  assert (Bson.serializable user = Bson.serializable (doc_of_body (body req))) as Huser
    by now apply serializable_insert.
  assert (Mongo.findOne [("email", of_undef email)] (users w) = None ->
          POST_users req e w
          = match Mongo.insertOne user (users w) (next_oid w) with
            | (inr (id, l), n) =>
                (inr {| status := 200; sent := Inserted id |},
                 World l (parcels w) (payments w) (riders w) n (S (ticks w)))
            | (inl Mongo.InvalidKey, n) =>
                (inl BSONError,
                 World (users w) (parcels w) (payments w) (riders w) n (S (ticks w)))
            | (inl Mongo.DuplicateKey, n) =>
                (inl (MongoServerError 11000),
                 World (users w) (parcels w) (payments w) (riders w) n (S (ticks w)))
            end) as Hrun.
  { intros Hn. unfold POST_users, bind, findOne, new_Date, insertOne. fold email. simpl.
    rewrite Hn. fold user.
    now destruct (Mongo.insertOne user (users w) (next_oid w)) as [[[] | [id l]] n]. }
  split; [exact Hexists |]. split.
  - intros Hn. split; [| intros Hser; rewrite <- Huser in Hser; split].
    + intros Hser. rewrite <- Huser in Hser. rewrite (Hrun Hn).
      pose proof (insertOne_invalid user (users w) (next_oid w) Hser) as Hinv.
      destruct (Mongo.insertOne user (users w) (next_oid w)) as [[[] | [id l]] n];
        simpl in Hinv; try discriminate. split; reflexivity.
    + intros v u Hv Hu. rewrite (Hrun Hn).
      destruct (own_id_Some _ _ Hv) as [Hid Hnn]. rewrite <- Huid in Hid.
      rewrite (insertOne_own _ _ _ _ Hser Hid Hnn).
      assert (Mongo.has_id v (users w) = true) as ->.
      { destruct (Mongo.has_id v (users w)) eqn:Hh; [reflexivity |].
        apply has_id_by_id in Hh. congruence. }
      split; reflexivity.
    + intros Hcase. rewrite (Hrun Hn). destruct Hcase as [Hnone | (v & Hv & Hfree)].
      * rewrite Hnone. apply own_id_None in Hnone. rewrite <- Huid in Hnone.
        pose proof (has_id_fresh _ _ (next_oid w) (wf_get Users w Hwf) (N.le_refl _))
          as Hfresh. simpl get in Hfresh.
        rewrite (insertOne_fresh _ _ _ Hser Hnone Hfresh).
        eexists _, _. split; [reflexivity |]. simpl. auto.
      * rewrite Hv. destruct (own_id_Some _ _ Hv) as [Hid Hnn]. rewrite <- Huid in Hid.
        rewrite (insertOne_own _ _ _ _ Hser Hid Hnn).
        apply has_id_by_id in Hfree. rewrite Hfree.
        eexists _, _. split; [reflexivity |]. simpl.
        rewrite insert_id by exact Hid. auto.
  - intros r w' Hfirst req2 e2 Hsame.
    unfold POST_users at 1, bind, findOne. rewrite Hsame. simpl.
    destruct (Mongo.findOne [("email", of_undef email)] (users w)) as [u |] eqn:Hf.
    + rewrite (Hexists u eq_refl) in Hfirst. injection Hfirst as _ <-. now rewrite Hf.
    + rewrite (Hrun eq_refl) in Hfirst.
      destruct (Mongo.insertOne user (users w) (next_oid w)) as [[[] | [id l]] n] eqn:Hi;
        try discriminate.
      injection Hfirst as _ <-. simpl.
      destruct (insertOne_Some _ _ _ _ _ _ Hi) as (d' & -> & _ & _ & Hd' & _).
      rewrite (findOne_app_None _ _ _ Hf).
      unfold Mongo.findOne. simpl. rewrite andb_true_r.
      rewrite (Hd' "email") by discriminate. rewrite Huemail.
      now rewrite field_matches_of_undef.
Qed.

Lemma POST_users_spec_witness :
  wf sample_world
  /\ exists id w',
       POST_users (request None [] [] [("email", JStr "new@example.com"); ("name", JStr "N")])
         sample_env sample_world
       = (inr {| status := 200; sent := Inserted id |}, w')
       /\ users w'
          = users sample_world
            ++ [<["_id" := id]>
                  (<["created_at" := VDate (clock sample_env (ticks sample_world))]>
                     (doc_of_body
                        (body (request None [] []
                                 [("email", JStr "new@example.com"); ("name", JStr "N")]))))]
       /\ POST_users (request None [] [] [("email", JStr "new@example.com")]) sample_env w'
          = (inr {| status := 200; sent := Obj [("message", VStr "User already exists")] |}, w').
Proof.
  assert (wf sample_world) as Hwf by (refine (bool_decide_unpack _ _); vm_compute; exact I).
  split; [exact Hwf |].
  destruct (POST_users_spec
              (request None [] [] [("email", JStr "new@example.com"); ("name", JStr "N")])
              sample_env sample_world Hwf) as (_ & Hnew & Hagain).
  destruct (proj2 (proj2 (Hnew ltac:(vm_compute; reflexivity)) ltac:(vm_compute; reflexivity)))
    as (id & w' & Hrun & Husers & _).
  { left. vm_compute. reflexivity. }
  exists id, w'. split; [exact Hrun |]. split; [exact Husers |].
  apply (Hagain _ _ Hrun). vm_compute. reflexivity.
Defined.

(** C6 (as stated) fails: no stored user has the e-mail "d@example.com", yet
    the payload is not inserted, because it brings the [_id] "u1" that a
    stored user already has; the insertion is rejected and no answer is
    sent. *)
Lemma POST_users_taken_id :
  wf sample_world_u1
  /\ Mongo.findOne [("email", VStr "d@example.com")] (users sample_world_u1) = None
  /\ exists w',
       POST_users (request None [] [] [("_id", JStr "u1"); ("email", JStr "d@example.com")])
         sample_env sample_world_u1
       = (inl (MongoServerError 11000), w')
       /\ users w' = users sample_world_u1.
Proof.
  split; [refine (bool_decide_unpack _ _); vm_compute; exact I |].
  split; [vm_compute; reflexivity |].
  eexists. split; [vm_compute; reflexivity | vm_compute; reflexivity].
Qed.

(** A payload with a new e-mail and a field name that holds a NUL byte: the
    driver throws while it serializes the document, no answer is sent and no
    user is stored. *)
Example POST_users_nul_key :
  POST_users (request None [] [] [("email", JStr "n@example.com"); (nul_key, JNum 1)])
    sample_env sample_world
  = (inl BSONError,
     World sample_users sample_parcels sample_payments sample_riders 11 1).
Proof. vm_compute. reflexivity. Qed.

(** The same payload sent to [POST /parcels] is answered 500 by the
    handler's [catch], and sent to [POST /riders], which has none, it is
    thrown on; neither stores anything. *)
Example POST_parcels_nul_key :
  POST_parcels (request None [] [] [("email", JStr "n@example.com"); (nul_key, JNum 1)])
    sample_env sample_world
  = (inr {| status := 500; sent := Obj [("message", VStr "Failed to create parcel")] |},
     World sample_users sample_parcels sample_payments sample_riders 11 0).
Proof. vm_compute. reflexivity. Qed.

Example POST_riders_nul_key :
  POST_riders (request None [] [] [("email", JStr "n@example.com"); (nul_key, JNum 1)])
    sample_env sample_world
  = (inl BSONError,
     World sample_users sample_parcels sample_payments sample_riders 11 0).
Proof. vm_compute. reflexivity. Qed.

(** ** The store across runs: identifiers stay unique, the supply stays
       ahead, and [payment_status] moves only by payment *)

Lemma by_id_Some_In v c p : by_id v c = Some p -> In p c /\ p !! "_id" = Some v.
Proof.
  unfold by_id. intros H. apply List.find_some in H as [Hin Hb].
  split; [exact Hin | now apply bool_decide_eq_true in Hb].
Qed.

Lemma by_id_None v c :
  by_id v c = None <-> Forall (fun d : gmap string value => d !! "_id" <> Some v) c.
Proof.
  unfold by_id. induction c as [| d c IH]; simpl.
  - split; [constructor | reflexivity].
  - case_bool_decide as Hd.
    + split; [discriminate | inversion 1; contradiction].
    + rewrite IH. split; [now constructor | now inversion 1].
Qed.

Lemma by_id_app v c d :
  by_id v (c ++ [d])
  = match by_id v c with
    | Some p => Some p
    | None => if bool_decide (d !! "_id" = Some v) then Some d else None
    end.
Proof.
  unfold by_id. induction c as [| x c IH]; simpl; [reflexivity |].
  now destruct (bool_decide (x !! "_id" = Some v)).
Qed.

Lemma coll_ok_mono n n' c : coll_ok n c -> (n <= n')%N -> coll_ok n' c.
Proof.
  intros [Hnd Hok] Hle. split; [exact Hnd |].
  eapply List.Forall_impl; [| exact Hok]. intros d. unfold id_ok.
  destruct (d !! "_id") as [[| | | | o |] |]; try (intros; assumption).
  rewrite !N.ltb_lt. lia.
Qed.

Lemma coll_ok_oid n c v p o :
  coll_ok n c -> by_id v c = Some p -> v = VOid o -> (o < n)%N.
Proof.
  intros [_ Hok] Hb ->. apply by_id_Some_In in Hb as [Hin Hid].
  rewrite List.Forall_forall in Hok. specialize (Hok p Hin). unfold id_ok in Hok.
  rewrite Hid in Hok. now apply N.ltb_lt.
Qed.

Lemma updateOne_ids q sets c :
  forallb (fun kv : string * value => negb (String.eqb kv.1 "_id")) sets = true ->
  map (fun d : gmap string value => d !! "_id") (Mongo.updateOne q sets c).2
  = map (fun d : gmap string value => d !! "_id") c.
Proof.
  intros Hs. induction c as [| d c IH]; simpl; [reflexivity |].
  destruct (Mongo.matches q d).
  - simpl. now rewrite (apply_set_lookup_ne _ _ _ Hs).
  - destruct (Mongo.updateOne q sets c) as [r c']. simpl in *. now rewrite IH.
Qed.

Lemma coll_ok_ids n c c' :
  map (fun d : gmap string value => d !! "_id") c'
  = map (fun d : gmap string value => d !! "_id") c ->
  coll_ok n c -> coll_ok n c'.
Proof.
  intros Hids [Hnd Hok]. split; [now rewrite Hids |].
  assert (Forall (fun i : option value =>
                    match i with
                    | Some (VOid o) => (o <? n)%N
                    | Some VNull | None => false
                    | Some _ => true
                    end = true)
                 (map (fun d : gmap string value => d !! "_id") c)) as H.
  { rewrite List.Forall_map. exact Hok. }
  rewrite <- Hids, List.Forall_map in H. exact H.
Qed.

Lemma by_id_updateOne_any v q sets c :
  forallb (fun kv : string * value => negb (String.eqb kv.1 "_id")) sets = true ->
  match by_id v c with
  | Some p =>
      by_id v (Mongo.updateOne q sets c).2 = Some p
      \/ by_id v (Mongo.updateOne q sets c).2 = Some (Mongo.apply_set sets p)
  | None => by_id v (Mongo.updateOne q sets c).2 = None
  end.
Proof.
  intros Hs. unfold by_id. induction c as [| d c IH]; simpl; [reflexivity |].
  destruct (Mongo.matches q d).
  - simpl. rewrite (apply_set_lookup_ne _ _ _ Hs).
    destruct (bool_decide (d !! "_id" = Some v)); [now right |].
    destruct (List.find _ c); auto.
  - destruct (Mongo.updateOne q sets c) as [r c']. simpl in *.
    destruct (bool_decide (d !! "_id" = Some v)); [now left | exact IH].
Qed.

Lemma deleteOne_split q c :
  (Mongo.deleteOne q c).2 = c
  \/ exists l1 d l2, c = l1 ++ d :: l2 /\ (Mongo.deleteOne q c).2 = l1 ++ l2
       /\ Mongo.matches q d = true.
Proof.
  destruct (Mongo.findOne q c) as [d |] eqn:Hf.
  - right. destruct (findOne_split _ _ _ Hf) as (l1 & l2 & -> & Hl1 & Hd).
    exists l1, d, l2. now rewrite (deleteOne_hit _ _ _ _ Hl1 Hd).
  - left. apply findOne_None in Hf. now rewrite (deleteOne_miss _ _ Hf).
Qed.

Lemma coll_ok_remove n l1 d l2 : coll_ok n (l1 ++ d :: l2) -> coll_ok n (l1 ++ l2).
Proof.
  intros [Hnd Hok]. split.
  - rewrite map_app in *. simpl in Hnd. apply NoDup_ListNoDup.
    apply NoDup_ListNoDup in Hnd. now apply List.NoDup_remove_1 in Hnd.
  - rewrite List.Forall_app in *. destruct Hok as [H1 H2]. split; [exact H1 |].
    now inversion H2.
Qed.

Lemma by_id_remove n v l1 (d : gmap string value) l2 :
  coll_ok n (l1 ++ d :: l2) ->
  match by_id v (l1 ++ d :: l2) with
  | Some p =>
      by_id v (l1 ++ l2) = Some p
      \/ (by_id v (l1 ++ l2) = None /\ d !! "_id" = Some v)
  | None => by_id v (l1 ++ l2) = None
  end.
Proof.
  intros [Hnd _]. unfold by_id. induction l1 as [| x l1 IH]; simpl in *.
  - case_bool_decide as Hd.
    + right. split; [| exact Hd]. apply by_id_None. rewrite List.Forall_forall.
      intros y Hy Hyv. apply NoDup_cons in Hnd as [Hnotin _]. apply Hnotin.
      rewrite Hd, <- Hyv. apply list_elem_of_In, in_map, Hy.
    + destruct (List.find _ l2); auto.
  - destruct (bool_decide (x !! "_id" = Some v)); [now left |].
    apply IH. now apply NoDup_cons in Hnd as [_ ?].
Qed.

Lemma parcel_moves_same pay v w w' :
  parcels w' = parcels w -> parcel_moves pay v w w'.
Proof.
  intros H. unfold parcel_moves. rewrite H.
  destruct (by_id v (parcels w)) as [p |] eqn:Hb; [| auto].
  right. exists p. auto.
Qed.

Lemma evolves_refl pay w : evolves pay w w.
Proof.
  intros Hwf. split; [exact Hwf |]. split; [lia |].
  intros v. now apply parcel_moves_same.
Qed.

Lemma evolves_trans pay w1 w2 w3 :
  evolves pay w1 w2 -> evolves pay w2 w3 -> evolves pay w1 w3.
Proof.
  intros H12 H23 Hwf1. destruct (H12 Hwf1) as (Hwf2 & Hle12 & Hm12).
  destruct (H23 Hwf2) as (Hwf3 & Hle23 & Hm23).
  split; [exact Hwf3 |]. split; [lia |].
  intros v. specialize (Hm12 v). specialize (Hm23 v). unfold parcel_moves in *.
  destruct (by_id v (parcels w1)) as [p1 |] eqn:Hb1.
  - destruct Hm12 as [[Hb2 [o Ho]] | (p2 & Hb2 & Hp2)].
    + rewrite Hb2 in Hm23. left. split; [| eauto]. apply Hm23. exists o. split; [exact Ho |].
      pose proof (coll_ok_oid _ _ _ _ _ (wf_get Parcels w1 Hwf1) Hb1 Ho). lia.
    + rewrite Hb2 in Hm23. destruct Hm23 as [? | (p3 & Hb3 & Hp3)]; [now left |].
      right. exists p3. split; [exact Hb3 |].
      destruct Hp3 as [Hp3 | Hp3]; [| now right].
      destruct Hp2 as [Hp2 | [Hpay Hp2]]; [left; congruence | right; split; congruence].
  - intros (o & Ho & Hlt). specialize (Hm12 (ex_intro _ o (conj Ho Hlt))).
    rewrite Hm12 in Hm23. apply Hm23. exists o. split; [exact Ho | lia].
Qed.

Lemma wf_set c l w : wf w -> coll_ok (next_oid w) l -> wf (set c l w).
Proof. intros (? & ? & ? & ?) ?. destruct c; unfold wf; simpl; auto. Qed.

Lemma wf_next w n :
  wf w -> (next_oid w <= n)%N -> wf (set_next_oid n w).
Proof.
  intros (? & ? & ? & ?) Hle. unfold wf. simpl.
  repeat split; eapply coll_ok_mono; eassumption.
Qed.

(** *** The monad's combinators *)

Lemma lifts_ret pay {A} (a : A) : lifts pay (ret a).
Proof. intros e w. apply evolves_refl. Qed.

Lemma lifts_send pay code p : lifts pay (send code p).
Proof. apply lifts_ret. Qed.

Lemma lifts_throw pay {A} x : lifts pay (throw x : M A).
Proof. intros e w. apply evolves_refl. Qed.

Lemma lifts_bind pay {A B} (m : M A) (k : A -> M B) :
  lifts pay m -> (forall a, lifts pay (k a)) -> lifts pay (bind m k).
Proof.
  intros Hm Hk e w. unfold bind. specialize (Hm e w).
  destruct (m e w) as [[x | a] w1]; simpl in *; [exact Hm |].
  eapply evolves_trans; [exact Hm | apply Hk].
Qed.

Lemma lifts_try_catch pay {A} (m : M A) (h : exn -> M A) :
  lifts pay m -> (forall x, lifts pay (h x)) -> lifts pay (try_catch m h).
Proof.
  intros Hm Hh e w. unfold try_catch. specialize (Hm e w).
  destruct (m e w) as [[x | a] w1]; simpl in *; [| exact Hm].
  eapply evolves_trans; [exact Hm | apply Hh].
Qed.

(** *** The driver's calls *)

Lemma lifts_findOne pay c q : lifts pay (findOne c q).
Proof. intros e w. apply evolves_refl. Qed.

Lemma lifts_find pay c q s : lifts pay (find c q s).
Proof. intros e w. apply evolves_refl. Qed.

Lemma lifts_new_Date pay : lifts pay new_Date.
Proof.
  intros e w Hwf. simpl. split; [exact Hwf |]. split; [lia |].
  intros v. now apply parcel_moves_same.
Qed.

Lemma lifts_new_ObjectId pay v : lifts pay (new_ObjectId v).
Proof.
  intros e w.
  assert (evolves pay w (set_next_oid (N.succ (next_oid w)) w)) as Hgen.
  { intros Hwf. split; [apply wf_next; [exact Hwf | lia] |]. split; [simpl; lia |].
    intros x. now apply parcel_moves_same. }
  destruct v as [[| b | n | s] |]; simpl; try exact Hgen; try apply evolves_refl.
  destruct (Bson.of_hex s); apply evolves_refl.
Qed.

Lemma lifts_insertOne_unbound pay name d : lifts pay (insertOne_unbound name d).
Proof. apply lifts_throw. Qed.

Lemma apply_set_paid (p : gmap string value) :
  Mongo.apply_set [("payment_status", VStr "paid")] p !! "payment_status"
  = Some (VStr "paid").
Proof. unfold Mongo.apply_set. simpl. apply lookup_insert_eq. Qed.

Lemma lifts_updateOne pay c q sets :
  update_allowed pay c sets = true -> lifts pay (updateOne c q sets).
Proof.
  intros [Hid Hc]%andb_true_iff e w Hwf. unfold updateOne.
  pose proof (updateOne_ids q sets (get c w) Hid) as Hids.
  pose proof (fun v => by_id_updateOne_any v q sets (get c w) Hid) as Hby.
  destruct (Mongo.updateOne q sets (get c w)) as [r l]. simpl in *.
  split; [| split].
  - apply wf_set; [exact Hwf |]. destruct c; simpl; (eapply coll_ok_ids; [exact Hids |]);
      apply (wf_get _ w Hwf).
  - destruct c; simpl; lia.
  - intros v. destruct c; try (now apply parcel_moves_same).
    unfold parcel_moves. simpl in *. specialize (Hby v).
    destruct (by_id v (parcels w)) as [p |]; [| auto].
    right. destruct Hby as [Hb | Hb]; [exists p; auto |].
    exists (Mongo.apply_set sets p). split; [exact Hb |].
    apply orb_true_iff in Hc as [Hc | [Hpay Hc]%andb_true_iff].
    + left. now apply apply_set_lookup_ne.
    + right. split; [exact Hpay |]. apply bool_decide_eq_true in Hc. subst sets.
      apply apply_set_paid.
Qed.

Lemma lifts_deleteOne pay c o : lifts pay (deleteOne c [("_id", VOid o)]).
Proof.
  intros e w Hwf. unfold deleteOne.
  pose proof (deleteOne_split [("_id", VOid o)] (get c w)) as Hd.
  pose proof (wf_get c w Hwf) as Hok.
  destruct (Mongo.deleteOne [("_id", VOid o)] (get c w)) as [n l]. simpl in *.
  destruct Hd as [-> | (l1 & d & l2 & Hc & -> & Hm)].
  - rewrite set_get. now apply evolves_refl.
  - rewrite Hc in Hok. split; [| split].
    + apply wf_set; [exact Hwf |]. eapply coll_ok_remove, Hok.
    + destruct c; simpl; lia.
    + intros v. destruct c; try (now apply parcel_moves_same).
      unfold parcel_moves. simpl in *. rewrite Hc.
      pose proof (by_id_remove _ v _ _ _ Hok) as Hr.
      destruct (by_id v (l1 ++ d :: l2)) as [p |]; [| auto].
      destruct Hr as [Hr | [Hr Hdv]]; [right; exists p; auto |].
      left. split; [exact Hr |]. exists o.
      rewrite andb_true_r in Hm. apply bool_decide_eq_true in Hm. congruence.
Qed.

Lemma insertOne_supply d c n :
  (n <= (Mongo.insertOne d c n).2)%N.
Proof.
  unfold Mongo.insertOne.
  destruct (d !! "_id") as [[] |]; cbv beta iota zeta;
    destruct (negb (Bson.serializable _)); simpl; try lia;
    destruct (Mongo.has_id _ c); simpl; lia.
Qed.

Lemma evolves_next pay w n : (next_oid w <= n)%N -> evolves pay w (set_next_oid n w).
Proof.
  intros Hle Hwf. split; [now apply wf_next |]. split; [exact Hle |].
  intros x. now apply parcel_moves_same.
Qed.

Lemma lifts_insertOne pay c d : no_oid_id d -> lifts pay (insertOne c d).
Proof.
  intros Hno e w Hwf. unfold insertOne.
  pose proof (insertOne_supply d (get c w) (next_oid w)) as Hsup.
  destruct (Mongo.insertOne d (get c w) (next_oid w)) as [[[] | [id l]] n] eqn:Hi;
    try (now apply evolves_next).
  destruct (insertOne_Some _ _ _ _ _ _ Hi) as (d' & -> & Hid & Hfree & _ & Hcase).
  assert ((next_oid w <= n)%N) as Hle by (destruct Hcase as [(_ & -> & _) | (_ & _ & -> & _)]; lia).
  assert (id_ok n d' = true) as Hidok.
  { unfold id_ok. rewrite Hid. destruct Hcase as [(-> & -> & _) | (Hd & Hnn & _ & _)].
    - apply N.ltb_lt. lia.
    - destruct id; try reflexivity; [congruence | now apply Hno in Hd]. }
  assert (coll_ok n (get c w ++ [d'])) as Hok.
  { destruct (coll_ok_mono _ n _ (wf_get c w Hwf) Hle) as [Hnd Hall]. split.
    - rewrite map_app. simpl. apply NoDup_app. split; [exact Hnd |]. split.
      + intros x Hx Hx'. apply list_elem_of_singleton in Hx'. subst x.
        apply has_id_by_id, by_id_None in Hfree. rewrite List.Forall_forall in Hfree.
        apply list_elem_of_In, in_map_iff in Hx as (y & Hy & Hin).
        apply (Hfree y Hin). congruence.
      + apply NoDup_singleton.
    - apply List.Forall_app. split; [exact Hall | now constructor]. }
  simpl. split; [| split].
  - assert (wf (set_next_oid n w)) as Hwf' by (now apply wf_next).
    pose proof (wf_set c (get c w ++ [d']) (set_next_oid n w) Hwf' Hok) as H.
    now destruct c.
  - destruct c; simpl; exact Hle.
  - intros v. destruct c; try (now apply parcel_moves_same).
    unfold parcel_moves. simpl in *. rewrite by_id_app.
    destruct (by_id v (parcels w)) as [p |] eqn:Hb.
    + right. exists p. auto.
    + intros (o & -> & Hlt). case_bool_decide as Hv; [| reflexivity].
      rewrite Hid in Hv. injection Hv as ->.
      destruct Hcase as [([= ->] & _) | (Hd & _)]; [lia | now apply Hno in Hd].
Qed.

(** *** The middleware and the handlers *)

Lemma lifts_verifyFBToken pay req next :
  (forall d, lifts pay (next d)) -> lifts pay (verifyFBToken req next).
Proof.
  intros Hn e w. unfold verifyFBToken.
  destruct (negb (Js.truthy_string (authorization req))); [apply evolves_refl |].
  destruct (negb (Js.truthy_string _)); [apply evolves_refl |].
  destruct (verifyIdToken e _); [apply Hn | apply evolves_refl].
Qed.

Lemma lifts_adminVerify pay d next : lifts pay next -> lifts pay (adminVerify d next).
Proof.
  intros Hn. unfold adminVerify. apply lifts_bind; [apply lifts_findOne |].
  intros [u |]; [| apply lifts_send].
  destruct (bool_decide _); [exact Hn | apply lifts_send].
Qed.

Lemma no_oid_id_body b : no_oid_id (doc_of_body b).
Proof.
  intros o. unfold doc_of_body. rewrite lookup_fmap.
  now destruct (b !! "_id") as [[| ? | ? | ?] |].
Qed.

Lemma no_oid_id_insert k v (d : gmap string value) :
  k <> "_id" -> no_oid_id d -> no_oid_id (<[k := v]> d).
Proof. intros Hk Hd o. rewrite lookup_insert_ne by exact Hk. apply Hd. Qed.

Lemma no_oid_id_empty : no_oid_id ∅.
Proof. intros o. now rewrite lookup_empty. Qed.

Ltac no_oid :=
  repeat (apply no_oid_id_insert; [discriminate |]);
  first [apply no_oid_id_body | apply no_oid_id_empty].

Ltac lifts_step :=
  cbv beta zeta;
  match goal with
  | |- lifts _ (bind _ _) => apply lifts_bind; [| intros ?]
  | |- lifts _ (try_catch _ _) => apply lifts_try_catch; [| intros ?]
  | |- lifts _ (send _ _) => apply lifts_send
  | |- lifts _ (ret _) => apply lifts_ret
  | |- lifts _ (throw _) => apply lifts_throw
  | |- lifts _ (findOne _ _) => apply lifts_findOne
  | |- lifts _ (find _ _ _) => apply lifts_find
  | |- lifts _ new_Date => apply lifts_new_Date
  | |- lifts _ (new_ObjectId _) => apply lifts_new_ObjectId
  | |- lifts _ (updateOne _ _ _) => apply lifts_updateOne; reflexivity
  | |- lifts _ (deleteOne _ _) => apply lifts_deleteOne
  | |- lifts _ (insertOne _ _) => apply lifts_insertOne; no_oid
  | |- lifts _ (insertOne_unbound _ _) => apply lifts_insertOne_unbound
  | |- lifts _ (verifyFBToken _ _) => apply lifts_verifyFBToken; intros ?
  | |- lifts _ (adminVerify _ _) => apply lifts_adminVerify
  | |- lifts _ (if ?b then _ else _) => destruct b
  | |- lifts _ (match ?x with _ => _ end) => destruct x
  end.

(** Every route other than [POST /payments] keeps the [payment_status] of
    every stored parcel. *)
Lemma app_lifts_false r req : r <> Post_payments -> lifts false (app r req).
Proof.
  intros Hr. destruct r; try contradiction; simpl;
    match goal with |- lifts _ (?h _) => unfold h end; repeat lifts_step.
Qed.

Lemma app_lifts r req : lifts true (app r req).
Proof.
  destruct r; simpl;
    match goal with |- lifts _ (?h _) => unfold h end; repeat lifts_step.
Qed.

Lemma steps_evolves w w' : steps w w' -> evolves true w w'.
Proof.
  induction 1 as [w | r req e w w' _ IH]; [apply evolves_refl |].
  eapply evolves_trans; [exact IH | apply app_lifts].
Qed.

Lemma reachable_wf w : reachable w -> wf w.
Proof.
  induction 1 as [| r req e w _ IH].
  - refine (bool_decide_unpack _ _). vm_compute. exact I.
  - now apply (app_lifts r req e w).
Qed.

(** ** A parcel is marked paid by a recorded payment, and once *)

Lemma by_id_updateOne_other v o sets c :
  forallb (fun kv : string * value => negb (String.eqb kv.1 "_id")) sets = true ->
  v <> VOid o ->
  by_id v (Mongo.updateOne [("_id", VOid o)] sets c).2 = by_id v c.
Proof.
  intros Hs Hv. unfold by_id. induction c as [| d c IH]; [reflexivity |].
  cbn [Mongo.updateOne]. rewrite matches_id. case_bool_decide as Hd.
  - cbn [snd List.find]. rewrite (apply_set_lookup_ne _ _ _ Hs), Hd.
    rewrite bool_decide_eq_false_2 by congruence. reflexivity.
  - destruct (Mongo.updateOne [("_id", VOid o)] sets c) as [r c']. simpl in *.
    now rewrite IH.
Qed.

Lemma is_paid_status (p p' : gmap string value) :
  p' !! "payment_status" = p !! "payment_status" -> is_paid p' = is_paid p.
Proof. unfold is_paid. now intros ->. Qed.

(** The one way [POST /payments] changes the parcels. *)
Lemma POST_payments_parcels (req : Req) (e : env) (w : world) :
  wf w ->
  parcels (POST_payments req e w).2 = parcels w
  \/ exists s o id (paymentDoc : gmap string value),
       body req !! "parcelId" = Some (JStr s) /\ Bson.of_hex s = Some o
       /\ (POST_payments req e w).1
          = inr {| status := 201;
                   sent := Obj [("message", VStr "Payment recorded and parcel marked as paid");
                                ("insertedId", id)] |}
       /\ parcels (POST_payments req e w).2
          = (Mongo.updateOne [("_id", VOid o)] [("payment_status", VStr "paid")]
               (parcels w)).2
       /\ payments (POST_payments req e w).2 = payments w ++ [paymentDoc]
       /\ paymentDoc !! "_id" = Some id
       /\ paymentDoc !! "parcelId" = Some (VStr s).
Proof.
  intros Hwf. destruct (POST_payments_cases req e w Hwf) as [Hrej Hacc].
  destruct (ObjectId_rejects (body req !! "parcelId")) eqn:Hr.
  { left. now rewrite (Hrej eq_refl). }
  destruct (new_ObjectId_accepts _ e w Hr) as (o & w1 & Hnew & _ & _ & _ & Hgen).
  assert ((new_ObjectId (body req !! "parcelId") e w).1 = inr o) as Ho by now rewrite Hnew.
  destruct (Hacc o Ho) as [Hzero Hpaid].
  destruct (Z.eq_dec (Mongo.modifiedCount
              (Mongo.updateOne [("_id", VOid o)] [("payment_status", VStr "paid")]
                 (parcels w)).1) 0) as [Hz | Hnz].
  { left. destruct (Hzero Hz) as (w' & -> & Hdb). simpl.
    unfold db in Hdb. congruence. }
  right. destruct (Hpaid Hnz) as (id & paymentDoc & w' & Hrun & Hpay & Hid & _ & _ & _
                                  & Hpid & _ & _ & _ & _ & Hparcels & _).
  assert (exists p, by_id (VOid o) (parcels w) = Some p) as [p Hp].
  { destruct (by_id (VOid o) (parcels w)) as [p |] eqn:Hb; [eauto |].
    rewrite (updateOne_by_id_None _ _ _ Hb) in Hnz. contradiction. }
  pose proof (coll_ok_oid _ _ _ _ o (wf_get Parcels w Hwf) Hp eq_refl) as Hlt.
  destruct (body req !! "parcelId") as [[| b | n | s] |] eqn:Hbody; simpl in Hr, Hnew;
    try discriminate;
    try (injection Hnew as <- _; lia).
  destruct (Bson.of_hex s) as [o' |] eqn:Hhex; [| discriminate].
  injection Hnew as <- _.
  exists s, o', id, paymentDoc. rewrite Hrun. simpl. auto 10.
Qed.

(** C2: in every reachable state, (1) a run that finds a stored parcel not
    paid and leaves it paid is a run of [POST /payments] on that parcel that
    answers 201 and appends its payment document; (2) a parcel once paid is,
    in every later state, still paid or deleted, so the transition cannot
    happen a second time; (3) [POST /payments] on a parcel that is missing and
    on one that is already paid modifies nothing and gives one and the same
    404 answer, leaving the world as it was. *)
Theorem paid_only_by_payment (w : world) :
  reachable w ->
  (forall r req e v (p p' : gmap string value),
      by_id v (parcels w) = Some p -> is_paid p = false ->
      by_id v (parcels (app r req e w).2) = Some p' -> is_paid p' = true ->
      r = Post_payments
      /\ exists s o id (paymentDoc : gmap string value),
           body req !! "parcelId" = Some (JStr s) /\ Bson.of_hex s = Some o /\ v = VOid o
           /\ (app r req e w).1
              = inr {| status := 201;
                       sent := Obj [("message",
                                     VStr "Payment recorded and parcel marked as paid");
                                    ("insertedId", id)] |}
           /\ payments (app r req e w).2 = payments w ++ [paymentDoc]
           /\ paymentDoc !! "_id" = Some id
           /\ paymentDoc !! "parcelId" = Some (VStr s))
  /\ (forall v w', paid v w -> steps w w' -> paid v w' \/ by_id v (parcels w') = None)
  /\ (forall req e s o,
        body req !! "parcelId" = Some (JStr s) -> Bson.of_hex s = Some o ->
        by_id (VOid o) (parcels w) = None \/ paid (VOid o) w ->
        POST_payments req e w
        = (inr {| status := 404;
                  sent := Obj [("message", VStr "Parcel not found or already paid")] |}, w)).
Proof.
  intros Hreach. pose proof (reachable_wf w Hreach) as Hwf. split; [| split].
  - intros r req e v p p' Hp Hunpaid Hp' Hpaid.
    destruct (decide (r = Post_payments)) as [-> | Hr].
    + split; [reflexivity |]. simpl in *.
      destruct (POST_payments_parcels req e w Hwf)
        as [Hsame | (s & o & id & paymentDoc & Hs & Ho & Hrun & Hps & Hpay & Hid & Hpid)].
      { rewrite Hsame in Hp'. congruence. }
      exists s, o, id, paymentDoc. repeat split; try assumption.
      destruct (decide (v = VOid o)) as [Hv | Hv]; [exact Hv |].
      rewrite Hps, (by_id_updateOne_other v o [("payment_status", VStr "paid")] _ eq_refl Hv)
        in Hp'.
      congruence.
    + exfalso. destruct (app_lifts_false r req Hr e w Hwf) as (_ & _ & Hmoves).
      specialize (Hmoves v). unfold parcel_moves in Hmoves. rewrite Hp in Hmoves.
      destruct Hmoves as [[Hnone _] | (p'' & Hp'' & [Hsame | [Hpay _]])];
        [congruence | | discriminate].
      rewrite Hp' in Hp''. injection Hp'' as <-.
      rewrite (is_paid_status _ _ Hsame) in Hpaid. congruence.
  - intros v w' (p & Hp & Hpaid) Hsteps.
    destruct (steps_evolves _ _ Hsteps Hwf) as (_ & _ & Hmoves).
    specialize (Hmoves v). unfold parcel_moves in Hmoves. rewrite Hp in Hmoves.
    destruct Hmoves as [[Hnone _] | (p' & Hp' & Hst)]; [now right |].
    left. exists p'. split; [exact Hp' |]. unfold is_paid in *.
    apply bool_decide_eq_true in Hpaid. apply bool_decide_eq_true.
    destruct Hst as [Hst | [_ Hst]]; congruence.
  - intros req e s o Hs Ho Hcase.
    unfold POST_payments, try_catch, bind. rewrite Hs, (new_ObjectId_hex _ _ _ _ Ho).
    unfold updateOne. simpl get.
    assert (Mongo.updateOne [("_id", VOid o)] [("payment_status", VStr "paid")] (parcels w)
            = ((Mongo.updateOne [("_id", VOid o)] [("payment_status", VStr "paid")]
                  (parcels w)).1, parcels w)
            /\ Mongo.modifiedCount
                 (Mongo.updateOne [("_id", VOid o)] [("payment_status", VStr "paid")]
                    (parcels w)).1 = 0) as [Hupd Hz].
    { destruct Hcase as [Hnone | (p & Hp & Hpaid)].
      - now rewrite (updateOne_by_id_None _ _ _ Hnone).
      - rewrite <- findOne_by_id in Hp.
        destruct (findOne_split _ _ _ Hp) as (l1 & l2 & Hc & Hl1 & Hd).
        rewrite Hc, (updateOne_hit _ _ _ _ _ Hl1 Hd).
        assert (Mongo.apply_set [("payment_status", VStr "paid")] p = p) as ->.
        { unfold Mongo.apply_set. simpl. apply insert_id.
          now apply bool_decide_eq_true in Hpaid. }
        now rewrite bool_decide_eq_true_2. }
    rewrite Hupd. simpl. rewrite Hz. simpl. now destruct w.
Qed.

Lemma paid_only_by_payment_witness :
  reachable one_parcel_world
  /\ exists s o id (paymentDoc : gmap string value),
       body (request None [] []
               [("parcelId", JStr "000000000000000000000000");
                ("email", JStr "a@example.com")]) !! "parcelId" = Some (JStr s)
       /\ Bson.of_hex s = Some o /\ VOid 0 = VOid o
       /\ (app Post_payments
             (request None [] []
                [("parcelId", JStr "000000000000000000000000");
                 ("email", JStr "a@example.com")])
             sample_env one_parcel_world).1
          = inr {| status := 201;
                   sent := Obj [("message", VStr "Payment recorded and parcel marked as paid");
                                ("insertedId", id)] |}
       /\ payments (app Post_payments
                      (request None [] []
                         [("parcelId", JStr "000000000000000000000000");
                          ("email", JStr "a@example.com")])
                      sample_env one_parcel_world).2
          = payments one_parcel_world ++ [paymentDoc]
       /\ paymentDoc !! "_id" = Some id
       /\ paymentDoc !! "parcelId" = Some (VStr s).
Proof.
  assert (reachable one_parcel_world) as Hreach
    by (unfold one_parcel_world; apply reachable_step, reachable_init).
  split; [exact Hreach |].
  apply (proj1 (paid_only_by_payment one_parcel_world Hreach) Post_payments _ sample_env
           (VOid 0)
           (document [("_id", VOid 0); ("payment_status", VStr "unpaid");
                      ("delivery_status", VStr "pending")])
           (document [("_id", VOid 0); ("payment_status", VStr "paid");
                      ("delivery_status", VStr "pending")]));
    vm_compute; reflexivity.
Defined.

Example second_payment_refused :
  let pay := request None [] []
               [("parcelId", JStr "000000000000000000000000");
                ("email", JStr "a@example.com")] in
  POST_payments pay sample_env (POST_payments pay sample_env one_parcel_world).2
  = (inr {| status := 404;
            sent := Obj [("message", VStr "Parcel not found or already paid")] |},
     (POST_payments pay sample_env one_parcel_world).2).
Proof. vm_compute. reflexivity. Qed.

Lemma GET_riders_available_by_district_witness :
  exists result,
    GET_riders_available (request None [] [("district", "Dhaka")] []) sample_env sample_world
    = (inr {| status := 200; sent := Docs result |}, sample_world)
    /\ result
       = List.filter (fun r : gmap string value =>
                        bool_decide (r !! "district" = Some (VStr "Dhaka")))
           (riders sample_world)
    /\ (forall r : gmap string value,
          In r result <->
          In r (riders sample_world) /\ r !! "district" = Some (VStr "Dhaka")).
Proof.
  apply (GET_riders_available_by_district
           (request None [] [("district", "Dhaka")] []) sample_env sample_world "Dhaka").
  - vm_compute. reflexivity.
  - discriminate.
Defined.

Example GET_riders_available_sample :
  GET_riders_available (request None [] [("district", "Dhaka")] []) sample_env sample_world
  = (inr {| status := 200;
            sent := Docs
              [ document [("_id", VOid 7); ("email", VStr "r@example.com");
                          ("district", VStr "Dhaka"); ("status", VStr "pending");
                          ("work_status", VStr "in_delivery")];
                document [("_id", VOid 9); ("email", VStr "t@example.com");
                          ("district", VStr "Dhaka"); ("status", VStr "rejected")] ] |},
     sample_world).
Proof. vm_compute. reflexivity. Qed.


(** * Further properties of the handlers *)

(** ** Rules for [keeps] *)

Section Keeps.

Context (R : world -> world -> Prop) `{!StoreOrder R}.

Lemma store_refl w : R w w.
Proof. now apply store_same. Qed.

Lemma keeps_ret {A} (a : A) : keeps R (ret a).
Proof. intros e w. apply store_refl. Qed.

Lemma keeps_send code p : keeps R (send code p).
Proof. apply keeps_ret. Qed.

Lemma keeps_throw {A} x : keeps R (throw x : M A).
Proof. intros e w. apply store_refl. Qed.

Lemma keeps_bind {A B} (m : M A) (k : A -> M B) :
  keeps R m -> (forall a, keeps R (k a)) -> keeps R (bind m k).
Proof.
  intros Hm Hk e w. unfold bind. specialize (Hm e w).
  destruct (m e w) as [[x | a] w1]; simpl in *; [exact Hm |].
  eapply store_trans; [exact Hm | apply Hk].
Qed.

Lemma keeps_try_catch {A} (m : M A) (h : exn -> M A) :
  keeps R m -> (forall x, keeps R (h x)) -> keeps R (try_catch m h).
Proof.
  intros Hm Hh e w. unfold try_catch. specialize (Hm e w).
  destruct (m e w) as [[x | a] w1]; simpl in *; [| exact Hm].
  eapply store_trans; [exact Hm | apply Hh].
Qed.

Lemma keeps_findOne c q : keeps R (findOne c q).
Proof. intros e w. apply store_refl. Qed.

Lemma keeps_find c q s : keeps R (find c q s).
Proof. intros e w. apply store_refl. Qed.

Lemma keeps_new_Date : keeps R new_Date.
Proof. intros e w. now apply store_same. Qed.

Lemma keeps_new_ObjectId v : keeps R (new_ObjectId v).
Proof.
  intros e w. apply store_same.
  destruct v as [[| b | n | s] |]; simpl; try reflexivity.
  now destruct (Bson.of_hex s).
Qed.

Lemma keeps_insertOne_unbound name d : keeps R (insertOne_unbound name d).
Proof. apply keeps_throw. Qed.

Lemma keeps_verifyFBToken req next :
  (forall d, keeps R (next d)) -> keeps R (verifyFBToken req next).
Proof.
  intros Hn e w. unfold verifyFBToken.
  destruct (negb (Js.truthy_string (authorization req))); [apply store_refl |].
  destruct (negb (Js.truthy_string _)); [apply store_refl |].
  destruct (verifyIdToken e _); [apply Hn | apply store_refl].
Qed.

Lemma keeps_adminVerify d next : keeps R next -> keeps R (adminVerify d next).
Proof.
  intros Hn. unfold adminVerify. apply keeps_bind; [apply keeps_findOne |].
  intros [u |]; [| apply keeps_send].
  destruct (bool_decide _); [exact Hn | apply keeps_send].
Qed.

End Keeps.

(** One step through a handler's code; [wr] settles the three writes. *)
Ltac keeps_step wr :=
  cbv beta zeta;
  match goal with
  | |- StoreOrder _ => typeclasses eauto
  | |- keeps _ (bind _ _) => apply keeps_bind; [| | intros ?]
  | |- keeps _ (try_catch _ _) => apply keeps_try_catch; [| | intros ?]
  | |- keeps _ (send _ _) => apply keeps_send
  | |- keeps _ (ret _) => apply keeps_ret
  | |- keeps _ (throw _) => apply keeps_throw
  | |- keeps _ (findOne _ _) => apply keeps_findOne
  | |- keeps _ (find _ _ _) => apply keeps_find
  | |- keeps _ new_Date => apply keeps_new_Date
  | |- keeps _ (new_ObjectId _) => apply keeps_new_ObjectId
  | |- keeps _ (insertOne_unbound _ _) => apply keeps_insertOne_unbound
  | |- keeps _ (verifyFBToken _ _) => apply keeps_verifyFBToken; [| intros ?]
  | |- keeps _ (adminVerify _ _) => apply keeps_adminVerify
  | |- keeps _ (updateOne _ _ _) => wr
  | |- keeps _ (deleteOne _ _) => wr
  | |- keeps _ (insertOne _ _) => wr
  | |- keeps _ (if ?b then _ else _) => destruct b
  | |- keeps _ (match ?x with _ => _ end) => destruct x
  end.

(** ** Each route writes to its own collections only *)

#[global] Instance outside_order cs : StoreOrder (outside cs).
Proof.
  split.
  - intros w w' Hdb c _. unfold db in Hdb. injection Hdb as ? ? ? ?. now destruct c.
  - intros w1 w2 w3 H12 H23 c Hc. now rewrite (H23 c Hc), (H12 c Hc).
Qed.

Lemma get_set_ne c c' l w : coll_eqb c' c = false -> get c' (set c l w) = get c' w.
Proof. now destruct c, c'. Qed.

Lemma mem_ne c c' cs : mem c cs = true -> mem c' cs = false -> coll_eqb c' c = false.
Proof.
  unfold mem. intros Hin Hout. destruct (coll_eqb c' c) eqn:Heq; [| reflexivity].
  assert (c' = c) as -> by now destruct c, c'. congruence.
Qed.

Lemma outside_updateOne cs c q sets : mem c cs = true -> keeps (outside cs) (updateOne c q sets).
Proof.
  intros Hc e w c' Hc'. unfold updateOne.
  destruct (Mongo.updateOne q sets (get c w)) as [r l]. simpl.
  apply get_set_ne. eapply mem_ne; eassumption.
Qed.

Lemma outside_deleteOne cs c q : mem c cs = true -> keeps (outside cs) (deleteOne c q).
Proof.
  intros Hc e w c' Hc'. unfold deleteOne.
  destruct (Mongo.deleteOne q (get c w)) as [r l]. simpl.
  apply get_set_ne. eapply mem_ne; eassumption.
Qed.

Lemma outside_insertOne cs c d : mem c cs = true -> keeps (outside cs) (insertOne c d).
Proof.
  intros Hc e w c' Hc'. unfold insertOne.
  destruct (Mongo.insertOne d (get c w) (next_oid w)) as [[[] | [id l]] n]; simpl;
    try (now destruct c').
  pose proof (get_set_ne c c' l w (mem_ne _ _ _ Hc Hc')) as H. now destruct c, c'.
Qed.

Ltac outside_write :=
  first [apply outside_updateOne | apply outside_deleteOne | apply outside_insertOne];
  reflexivity.

Lemma app_outside r req : keeps (outside (footprint r)) (app r req).
Proof.
  destruct r; simpl;
    match goal with |- keeps _ (?h _) => unfold h end; repeat keeps_step outside_write.
Qed.

(** X1: a run of a route's handler leaves every collection outside the
    route's footprint as it was, whatever the request and however the run
    ends; the eight routes with an empty footprint leave the whole database
    as it was. *)
Theorem route_footprint (r : route) (req : Req) (e : env) (w : world) :
  (forall c, mem c (footprint r) = false -> get c (app r req e w).2 = get c w)
  /\ (footprint r = [] -> db (app r req e w).2 = db w).
Proof.
  pose proof (app_outside r req e w) as H. split; [exact H |].
  intros Hr. rewrite Hr in H.
  pose proof (H Users eq_refl) as Hu. pose proof (H Parcels eq_refl) as Hp.
  pose proof (H Payments eq_refl) as Hy. pose proof (H Riders eq_refl) as Hd.
  unfold get in Hu, Hp, Hy, Hd. unfold db. congruence.
Qed.

Lemma route_footprint_witness :
  get Users
    (app Post_parcels_assign
       (request None [] []
          [("parcelId", JStr "000000000000000000000002"); ("riderEmail", JStr "r@example.com")])
       sample_env sample_world).2 = get Users sample_world
  /\ db (app Get_payments (request (Some "Bearer token-anonymous") [] [] [])
           sample_env sample_world).2 = db sample_world.
Proof.
  split.
  - apply (proj1 (route_footprint Post_parcels_assign _ sample_env sample_world) Users).
    reflexivity.
  - apply (proj2 (route_footprint Get_payments _ sample_env sample_world)). reflexivity.
Defined.

(** ** Payments are appended, never rewritten *)

#[global] Instance payments_grow_order : StoreOrder payments_grow.
Proof.
  split.
  - intros w w' Hdb. exists []. unfold db in Hdb. injection Hdb as _ _ -> _.
    now rewrite app_nil_r.
  - intros w1 w2 w3 [l1 H1] [l2 H2]. exists (l1 ++ l2). now rewrite H2, H1, app_assoc.
Qed.

Lemma grow_updateOne c q sets :
  coll_eqb c Payments = false -> keeps payments_grow (updateOne c q sets).
Proof.
  intros Hc e w. unfold updateOne. destruct (Mongo.updateOne q sets (get c w)) as [r l].
  exists []. rewrite app_nil_r. now destruct c.
Qed.

Lemma grow_deleteOne c q :
  coll_eqb c Payments = false -> keeps payments_grow (deleteOne c q).
Proof.
  intros Hc e w. unfold deleteOne. destruct (Mongo.deleteOne q (get c w)) as [r l].
  exists []. rewrite app_nil_r. now destruct c.
Qed.

Lemma grow_insertOne c d : keeps payments_grow (insertOne c d).
Proof.
  intros e w. unfold insertOne.
  destruct (Mongo.insertOne d (get c w) (next_oid w)) as [[[] | [id l]] n] eqn:Hi;
    try (exists []; now rewrite app_nil_r).
  destruct (insertOne_Some _ _ _ _ _ _ Hi) as (d' & -> & _).
  destruct c; simpl; try (exists []; now rewrite app_nil_r). now exists [d'].
Qed.

Ltac grow_write :=
  first [apply grow_updateOne; reflexivity | apply grow_deleteOne; reflexivity
        | apply grow_insertOne].

Lemma app_payments_grow r req : keeps payments_grow (app r req).
Proof.
  destruct r; simpl;
    match goal with |- keeps _ (?h _) => unfold h end; repeat keeps_step grow_write.
Qed.

(** X2: over any sequence of requests the payments already stored stay as
    they are and where they are; the collection only grows at its end. *)
Theorem payments_append_only (w w' : world) :
  steps w w' -> exists l, payments w' = payments w ++ l.
Proof.
  induction 1 as [w | r req e w w' _ IH].
  - exists []. now rewrite app_nil_r.
  - eapply (store_trans (R := payments_grow)); [exact IH | apply app_payments_grow].
Qed.

Lemma payments_append_only_witness :
  exists l,
    payments (app Post_payments
                (request None [] []
                   [("parcelId", JStr "000000000000000000000002");
                    ("email", JStr "a@example.com")])
                sample_env sample_world).2
    = payments sample_world ++ l.
Proof. apply payments_append_only. apply steps_step, steps_refl. Defined.

(** ** Accounts are never removed and change only in their role *)

#[global] Instance accounts_same_order : StoreOrder accounts_same.
Proof.
  split.
  - intros w w' Hdb. unfold accounts_same, db in *. now injection Hdb as -> _ _ _.
  - intros w1 w2 w3 H1 H2. unfold accounts_same in *. congruence.
Qed.

#[global] Instance accounts_grow_order : StoreOrder accounts_grow.
Proof.
  split.
  - intros w w' Hdb. exists []. unfold db in Hdb. injection Hdb as -> _ _ _.
    now rewrite app_nil_r.
  - intros w1 w2 w3 [l1 H1] [l2 H2]. exists (l1 ++ l2). now rewrite H2, H1, app_assoc.
Qed.

Lemma accounts_same_grow w w' : accounts_same w w' -> accounts_grow w w'.
Proof. intros H. exists []. now rewrite app_nil_r. Qed.

Lemma apply_set_account sets u :
  keeps_account sets = true -> account (Mongo.apply_set sets u) = account u.
Proof.
  unfold keeps_account, Mongo.apply_set, account. revert u.
  induction sets as [| [k v] sets IH]; intros u; simpl; [reflexivity |].
  intros [Hk Hs]%andb_true_iff. apply String.eqb_eq in Hk. simpl in Hk. subst k.
  rewrite (IH _ Hs). apply delete_insert_eq.
Qed.

Lemma updateOne_accounts q sets c :
  keeps_account sets = true ->
  map account (Mongo.updateOne q sets c).2 = map account c.
Proof.
  intros Hs. induction c as [| d c IH]; simpl; [reflexivity |].
  destruct (Mongo.matches q d).
  - simpl. now rewrite (apply_set_account _ _ Hs).
  - destruct (Mongo.updateOne q sets c) as [r c']. simpl in *. now rewrite IH.
Qed.

Lemma same_updateOne c q sets :
  (coll_eqb c Users = false \/ keeps_account sets = true) ->
  keeps accounts_same (updateOne c q sets).
Proof.
  intros Hc e w. unfold updateOne, accounts_same.
  pose proof (updateOne_accounts q sets (get c w)) as Ha.
  destruct (Mongo.updateOne q sets (get c w)) as [r l]. simpl in *.
  destruct c; simpl; try reflexivity.
  destruct Hc as [Hc | Hc]; [discriminate | now apply Ha].
Qed.

Lemma same_deleteOne c q :
  coll_eqb c Users = false -> keeps accounts_same (deleteOne c q).
Proof.
  intros Hc e w. unfold deleteOne, accounts_same.
  destruct (Mongo.deleteOne q (get c w)) as [r l]. now destruct c.
Qed.

Lemma same_insertOne c d :
  coll_eqb c Users = false -> keeps accounts_same (insertOne c d).
Proof.
  intros Hc e w. unfold insertOne, accounts_same.
  destruct (Mongo.insertOne d (get c w) (next_oid w)) as [[[] | [id l]] n];
    try reflexivity.
  now destruct c.
Qed.

Ltac same_write :=
  first [apply same_updateOne; first [left; reflexivity | right; reflexivity]
        | apply same_deleteOne; reflexivity
        | apply same_insertOne; reflexivity].

(** Every route but the sign-in keeps the accounts as they are. *)
Lemma app_accounts_same r req : r <> Post_users -> keeps accounts_same (app r req).
Proof.
  intros Hr. destruct r; try contradiction; simpl;
    match goal with |- keeps _ (?h _) => unfold h end; repeat keeps_step same_write.
Qed.

Lemma POST_users_accounts req e w :
  users (POST_users req e w).2 = users w
  \/ exists u : gmap string value,
       users (POST_users req e w).2 = users w ++ [u]
       /\ Mongo.findOne [("email", of_undef (body req !! "email"))] (users w) = None
       /\ u !! "email" = of_json <$> body req !! "email".
Proof.
  unfold POST_users, bind, findOne, new_Date, insertOne. simpl.
  destruct (Mongo.findOne _ (users w)) as [u |] eqn:Hf; [now left |].
  destruct (Mongo.insertOne _ (users w) (next_oid w)) as [[[] | [id l]] n] eqn:Hi;
    try (now left).
  destruct (insertOne_Some _ _ _ _ _ _ Hi) as (d' & -> & _ & _ & Hd' & _).
  right. exists d'. simpl. split; [reflexivity |]. split; [reflexivity |].
  rewrite (Hd' "email") by discriminate. rewrite lookup_insert_ne by discriminate.
  apply lookup_fmap.
Qed.

Lemma app_accounts_grow r req : keeps accounts_grow (app r req).
Proof.
  destruct (decide (r = Post_users)) as [-> | Hr].
  - intros e w. simpl. destruct (POST_users_accounts req e w) as [H | (u & H & _)].
    + exists []. now rewrite H, app_nil_r.
    + exists [account u]. now rewrite H, map_app.
  - intros e w. apply accounts_same_grow. now apply app_accounts_same.
Qed.

(** X3: over any sequence of requests no user is removed or moved, and none
    changes in any field but [role]: the user stored at a position is later
    still at that position, with every other field ([_id] and [email]
    among them) as it was. *)
Theorem accounts_kept (w w' : world) :
  steps w w' ->
  forall i (u : gmap string value),
    nth_error (users w) i = Some u ->
    exists u' : gmap string value,
      nth_error (users w') i = Some u'
      /\ forall k, k <> "role" -> u' !! k = u !! k.
Proof.
  intros Hsteps.
  assert (accounts_grow w w') as [l Hl].
  { induction Hsteps as [w | r req e w w' _ IH].
    - apply store_refl. apply _.
    - eapply (store_trans (R := accounts_grow)); [exact IH | apply app_accounts_grow]. }
  intros i u Hu.
  assert (nth_error (map account (users w')) i = Some (account u)) as Hi.
  { rewrite Hl, nth_error_app1.
    - now rewrite nth_error_map, Hu.
    - rewrite length_map. apply nth_error_Some. congruence. }
  rewrite nth_error_map in Hi. destruct (nth_error (users w') i) as [u' |]; [| discriminate].
  exists u'. split; [reflexivity |]. intros k Hk. injection Hi as Hi. unfold account in Hi.
  rewrite <- (lookup_delete_ne u' "role" k), <- (lookup_delete_ne u "role" k) by congruence.
  now rewrite Hi.
Qed.

Lemma accounts_kept_witness :
  exists u' : gmap string value,
    nth_error
      (users (app Patch_users_id_role
                (request None [("id", "000000000000000000000001")] [] [("role", JStr "admin")])
                sample_env sample_world).2) 1
    = Some u'
    /\ forall k, k <> "role" ->
         u' !! k = document [("_id", VOid 1); ("email", VStr "r@example.com");
                             ("role", VStr "user")] !! k.
Proof.
  apply (accounts_kept sample_world _ (steps_step _ _ _ _ _ (steps_refl _)) 1%nat).
  reflexivity.
Defined.

(** ** No two users share an e-mail *)

Lemma field_matches_key o q :
  Mongo.field_matches o q = bool_decide (default VNull o = q).
Proof.
  destruct q, o as [[] |]; simpl; try reflexivity;
    apply bool_decide_ext; split; congruence.
Qed.

Lemma email_key_account (l : list (gmap string value)) :
  map email_key l = map email_key (map account l).
Proof.
  rewrite map_map. apply map_ext. intros u. unfold email_key, account.
  now rewrite lookup_delete_ne by discriminate.
Qed.

Lemma app_emails_unique r req e w :
  emails_unique w -> emails_unique (app r req e w).2.
Proof.
  unfold emails_unique. intros Hw. destruct (decide (r = Post_users)) as [-> | Hr].
  - simpl. destruct (POST_users_accounts req e w) as [-> | (u & -> & Hf & Hu)]; [exact Hw |].
    rewrite map_app. simpl. apply NoDup_app. split; [exact Hw |]. split; [| apply NoDup_singleton].
    intros k Hk Hk'. apply list_elem_of_singleton in Hk'. subst k.
    apply list_elem_of_In, in_map_iff in Hk as (x & Hx & Hin).
    apply findOne_None in Hf. rewrite List.Forall_forall in Hf. specialize (Hf x Hin).
    rewrite matches_one, field_matches_key in Hf. apply bool_decide_eq_false in Hf.
    apply Hf. fold (email_key x). rewrite Hx. unfold email_key. rewrite Hu.
    now destruct (body req !! "email").
  - pose proof (app_accounts_same r req Hr e w) as Hs. unfold accounts_same in Hs.
    now rewrite email_key_account, Hs, <- email_key_account.
Qed.

Lemma POST_users_resume_new req e w :
  Mongo.has_id (VOid (next_oid w)) (users w) = false ->
  own_id (body req) = None -> Bson.serializable (doc_of_body (body req)) = true ->
  POST_users_resume req None e w
  = (inr {| status := 200; sent := Inserted (VOid (next_oid w)) |},
     World (users w
            ++ [<["_id" := VOid (next_oid w)]>
                  (<["created_at" := VDate (clock e (ticks w))]> (doc_of_body (body req)))])
       (parcels w) (payments w) (riders w) (N.succ (next_oid w)) (S (ticks w))).
Proof.
  intros Hfree Hown Hser. unfold POST_users_resume, bind, new_Date, insertOne. simpl.
  rewrite (insertOne_fresh _ _ _); [reflexivity | | | exact Hfree].
  - now rewrite serializable_insert.
  - rewrite lookup_insert_ne by discriminate. unfold doc_of_body. rewrite lookup_fmap.
    now apply own_id_None.
Qed.

(** X4: what keeps e-mails unique is the look-up that [POST /users] makes
    before it inserts, and only as long as sign-ins do not overlap.  The
    handler is its look-up followed by the rest.  Run one at a time from the
    empty database, the routes never leave two users with the same e-mail (a
    missing e-mail counting as [null]).  But when two sign-ins with the same
    e-mail, not yet stored, both get their look-up answered before either
    inserts, both insert, and the store holds two users with that e-mail. *)
Theorem emails_unique_unless_overlapping :
  (forall req, POST_users req
               = let* userExists := POST_users_lookup req in POST_users_resume req userExists)
  /\ (forall w, reachable w -> emails_unique w)
  /\ forall (req1 req2 : Req) (e : env) (w : world),
       wf w ->
       body req2 !! "email" = body req1 !! "email" ->
       Mongo.findOne [("email", of_undef (body req1 !! "email"))] (users w) = None ->
       own_id (body req1) = None -> own_id (body req2) = None ->
       Bson.serializable (doc_of_body (body req1)) = true ->
       Bson.serializable (doc_of_body (body req2)) = true ->
       let w' := (overlapping_sign_ins req1 req2 e w).2 in
       let user1 := <["created_at" := VDate (clock e (ticks w))]> (doc_of_body (body req1)) in
       let user2 :=
         <["created_at" := VDate (clock e (S (ticks w)))]> (doc_of_body (body req2)) in
       (overlapping_sign_ins req1 req2 e w).1
       = inr ({| status := 200; sent := Inserted (VOid (next_oid w)) |},
              {| status := 200; sent := Inserted (VOid (N.succ (next_oid w))) |})
       /\ users w' = users w ++ [<["_id" := VOid (next_oid w)]> user1;
                                 <["_id" := VOid (N.succ (next_oid w))]> user2]
       /\ ~ emails_unique w'.
Proof.
  split; [reflexivity |]. split.
  { induction 1 as [| r req e w _ IH]; [constructor | now apply app_emails_unique]. }
  intros req1 req2 e w Hwf Hsame Hnone Hown1 Hown2 Hser1 Hser2.
  pose proof (has_id_fresh _ _ (next_oid w) (wf_get Users w Hwf) (N.le_refl _)) as Hfree1.
  pose proof (has_id_fresh _ _ (N.succ (next_oid w)) (wf_get Users w Hwf)
                ltac:(lia)) as Hfree2.
  simpl get in Hfree1, Hfree2.
  unfold overlapping_sign_ins, bind, POST_users_lookup, findOne. simpl get.
  rewrite Hsame, Hnone. cbv beta iota.
  rewrite (POST_users_resume_new req1 e w Hfree1 Hown1 Hser1). cbv beta iota.
  rewrite POST_users_resume_new; [| | exact Hown2 | exact Hser2].
  2:{ simpl. unfold Mongo.has_id. rewrite existsb_app. fold (Mongo.has_id (VOid (N.succ (next_oid w))) (users w)).
      rewrite Hfree2. simpl. rewrite lookup_insert_eq.
      rewrite orb_false_r. apply bool_decide_eq_false. intros [= H]. lia. }
  simpl. split; [reflexivity |]. split; [now rewrite <- app_assoc |].
  unfold emails_unique. simpl. rewrite <- app_assoc, map_app. simpl.
  intros [_ [_ Hdup]]%NoDup_app. apply NoDup_cons in Hdup as [Hin _].
  apply Hin, list_elem_of_singleton. unfold email_key.
  rewrite !lookup_insert_ne by discriminate. unfold doc_of_body.
  now rewrite !lookup_fmap, Hsame.
Qed.

Lemma emails_unique_unless_overlapping_witness :
  emails_unique
    (app Post_users (request None [] [] [("email", JStr "a@example.com")]) sample_env
       (app Post_users (request None [] [] [("email", JStr "a@example.com")]) sample_env
          init).2).2
  /\ ~ emails_unique
        (overlapping_sign_ins (request None [] [] [("email", JStr "a@example.com")])
           (request None [] [] [("email", JStr "a@example.com")]) sample_env init).2.
Proof.
  destruct emails_unique_unless_overlapping as (_ & Hseq & Hover). split.
  - apply Hseq. do 2 apply reachable_step. apply reachable_init.
  - apply (Hover (request None [] [] [("email", JStr "a@example.com")])
             (request None [] [] [("email", JStr "a@example.com")]) sample_env init);
      try (vm_compute; reflexivity).
    refine (bool_decide_unpack _ _). vm_compute. exact I.
Defined.

(** ** Identifiers *)

(** X5: in every state reachable from the empty database, each collection
    holds no two documents with the same [_id], every document has an [_id]
    other than [null], and every stored [ObjectId] lies below the supply, so
    the next generated identifier is new. *)
Theorem stored_ids_unique (w : world) :
  reachable w ->
  forall c,
    NoDup (map (fun d : gmap string value => d !! "_id") (get c w))
    /\ (forall d : gmap string value,
          In d (get c w) -> exists v, d !! "_id" = Some v /\ v <> VNull)
    /\ (forall (d : gmap string value) o,
          In d (get c w) -> d !! "_id" = Some (VOid o) -> (o < next_oid w)%N)
    /\ by_id (VOid (next_oid w)) (get c w) = None.
Proof.
  intros Hr c. pose proof (wf_get c w (reachable_wf w Hr)) as Hok.
  destruct Hok as [Hnd Hall]. rewrite List.Forall_forall in Hall.
  assert (forall (d : gmap string value) o,
            In d (get c w) -> d !! "_id" = Some (VOid o) -> (o < next_oid w)%N) as Hlt.
  { intros d o Hin Hid. specialize (Hall d Hin). unfold id_ok in Hall.
    rewrite Hid in Hall. now apply N.ltb_lt. }
  split; [exact Hnd |]. split; [| split; [exact Hlt |]].
  - intros d Hin. specialize (Hall d Hin). unfold id_ok in Hall.
    destruct (d !! "_id") as [[] |]; try discriminate; eexists; split; (reflexivity || discriminate).
  - apply by_id_None, List.Forall_forall. intros d Hin Hid.
    specialize (Hlt d _ Hin Hid). lia.
Qed.

Lemma stored_ids_unique_witness :
  by_id (VOid (next_oid one_parcel_world)) (get Parcels one_parcel_world) = None.
Proof.
  apply stored_ids_unique. unfold one_parcel_world. apply reachable_step, reachable_init.
Defined.

(** ** The gates *)

(** X6: on the five routes registered with [verifyFBToken], a request with
    no [Authorization] header, or one whose header has no second
    space-separated piece or an empty one, is answered 401, and one whose
    token the identity provider rejects is answered 403; in each case the
    handler does not run and the world is as it was. *)
Theorem gated_routes_reject (r : route) (req : Req) (e : env) (w : world) :
  gated r = true ->
  (authorization req = None ->
   app r req e w
   = (inr {| status := 401; sent := Obj [("message", VStr "unauthorize access")] |}, w))
  /\ (forall h, authorization req = Some h ->
        Js.split " " h !! 1%nat = None \/ Js.split " " h !! 1%nat = Some "" ->
        app r req e w
        = (inr {| status := 401; sent := Obj [("message", VStr "unauthorize access")] |}, w))
  /\ (forall h token, authorization req = Some h ->
        Js.split " " h !! 1%nat = Some token -> token <> "" ->
        verifyIdToken e token = None ->
        app r req e w
        = (inr {| status := 403; sent := Obj [("message", VStr "forbidden access")] |}, w)).
Proof.
  intros Hg.
  assert (exists next, app r req = verifyFBToken req next) as [next ->]
    by (destruct r; try discriminate; simpl; eexists; reflexivity).
  unfold verifyFBToken. split; [| split].
  - now intros ->.
  - intros h -> Ht. destruct (Js.truthy_string (Some h)); [| reflexivity]. simpl.
    now destruct Ht as [-> | ->].
  - intros h token -> Ht Hne Hv.
    assert (h <> "") as Hh by (intros ->; discriminate).
    rewrite (truthy_string_Some h Hh). simpl. rewrite Ht.
    rewrite (truthy_string_Some token Hne). simpl. now rewrite Hv.
Qed.

Lemma gated_routes_reject_witness :
  app Get_payments (request (Some "Bearer") [] [("email", "a@example.com")] [])
    sample_env sample_world
  = (inr {| status := 401; sent := Obj [("message", VStr "unauthorize access")] |},
     sample_world)
  /\ app Get_riders_active (request (Some "Bearer expired") [] [] []) sample_env sample_world
     = (inr {| status := 403; sent := Obj [("message", VStr "forbidden access")] |},
        sample_world).
Proof.
  split.
  - apply (proj1 (proj2 (gated_routes_reject Get_payments
                           (request (Some "Bearer") [] [("email", "a@example.com")] [])
                           sample_env sample_world eq_refl))
             "Bearer" eq_refl).
    left. reflexivity.
  - apply (proj2 (proj2 (gated_routes_reject Get_riders_active
                           (request (Some "Bearer expired") [] [] [])
                           sample_env sample_world eq_refl))
             "Bearer expired" "expired" eq_refl eq_refl);
      [discriminate | reflexivity].
Defined.

(** X7: on the three routes registered with [adminVerify], a verified
    identity whose e-mail belongs to no stored user, or to a user whose role
    is not "admin", is answered 403 "Forbidden Access"; the handler does not
    run and the world is as it was. *)
Theorem admin_routes_reject (r : route) (req : Req) (e : env) (w : world)
    (decoded : DecodedIdToken) :
  admin_gated r = true -> verified e req decoded -> ~ is_admin w decoded ->
  app r req e w
  = (inr {| status := 403; sent := Obj [("message", VStr "Forbidden Access")] |}, w).
Proof.
  intros Hg Hv Hna.
  assert (exists next, app r req = verifyFBToken req (fun d => adminVerify d next))
    as [next ->] by (destruct r; try discriminate; simpl; eexists; reflexivity).
  rewrite (verifyFBToken_verified _ _ _ _ _ Hv).
  unfold adminVerify, bind, findOne. simpl.
  destruct (Mongo.findOne _ (users w)) as [u |] eqn:Hu; [| reflexivity].
  case_bool_decide as Hrole; [| reflexivity].
  exfalso. apply Hna. exists u. auto.
Qed.

Lemma admin_routes_reject_witness :
  verified sample_env
    (request (Some "Bearer token-a") [("id", "000000000000000000000007")] []
       [("status", JStr "active")])
    {| email := Some "a@example.com" |}
  /\ app Patch_riders_id_status
       (request (Some "Bearer token-a") [("id", "000000000000000000000007")] []
          [("status", JStr "active")])
       sample_env sample_world
     = (inr {| status := 403; sent := Obj [("message", VStr "Forbidden Access")] |},
        sample_world).
Proof.
  assert (verified sample_env
            (request (Some "Bearer token-a") [("id", "000000000000000000000007")] []
               [("status", JStr "active")])
            {| email := Some "a@example.com" |}) as Hv.
  { exists "Bearer token-a", "token-a". repeat split; try (vm_compute; reflexivity).
    discriminate. }
  split; [exact Hv |].
  apply (admin_routes_reject Patch_riders_id_status _ sample_env sample_world _ eq_refl Hv).
  intros (u & Hu & _). vm_compute in Hu. discriminate.
Defined.

(** ** The bearer token is the second piece of the header *)

Lemma split_aux_cons c acc a b :
  forallb (fun x => negb (Ascii.eqb x c)) (list_ascii_of_string a) = true ->
  Js.split_aux c acc (a +:+ String c b) = String.rev_app acc a :: Js.split_aux c EmptyString b.
Proof.
  revert acc. induction a as [| x a IH]; intros acc Ha.
  - change (EmptyString +:+ String c b) with (String c b). simpl.
    now rewrite Ascii.eqb_refl.
  - change (String x a +:+ String c b) with (String x (a +:+ String c b)).
    simpl in Ha. apply andb_true_iff in Ha as [Hx Ha]. simpl.
    apply negb_true_iff in Hx. rewrite Hx. now rewrite (IH _ Ha).
Qed.

Lemma no_space_forallb s :
  no_space s = true ->
  forallb (fun x => negb (Ascii.eqb x " ")) (list_ascii_of_string s) = true.
Proof. induction s as [| a s IH]; simpl; [reflexivity |]. now intros [-> H%IH]%andb_true_iff. Qed.

Lemma split_scheme scheme rest :
  no_space scheme = true ->
  Js.split " " (scheme +:+ " " +:+ rest) = scheme :: Js.split " " rest.
Proof.
  intros H. unfold Js.split.
  change (" " +:+ rest) with (String " " rest).
  now rewrite split_aux_cons by (auto using no_space_forallb).
Qed.

Lemma scheme_truthy scheme rest : Js.truthy_string (Some (scheme +:+ " " +:+ rest)) = true.
Proof. now destruct scheme. Qed.

(** X8: no handler looks at the scheme word of the [Authorization] header:
    two requests that differ only in the word before the first space of the
    header ("Bearer", "Basic", or none) get the same answer and leave the
    same world. *)
Theorem scheme_word_ignored (r : route) (req : Req) (s1 s2 rest : string)
    (e : env) (w : world) :
  no_space s1 = true -> no_space s2 = true ->
  app r (with_authorization (Some (s1 +:+ " " +:+ rest)) req) e w
  = app r (with_authorization (Some (s2 +:+ " " +:+ rest)) req) e w.
Proof.
  intros H1 H2.
  destruct r; simpl; try reflexivity;
    match goal with |- ?h _ _ _ = _ => unfold h end;
    unfold verifyFBToken;
    cbn [authorization with_authorization from_option id];
    rewrite !scheme_truthy, (split_scheme s1 rest H1), (split_scheme s2 rest H2);
    reflexivity.
Qed.

Lemma scheme_word_ignored_witness :
  app Get_payments
    (with_authorization (Some ("Basic" +:+ " " +:+ "token-a"))
       (request None [] [("email", "a@example.com")] []))
    sample_env sample_world
  = app Get_payments
      (with_authorization (Some ("Bearer" +:+ " " +:+ "token-a"))
         (request None [] [("email", "a@example.com")] []))
      sample_env sample_world.
Proof. apply scheme_word_ignored; reflexivity. Defined.

(** ** Signing in, then asking for the role *)

Lemma truthy_value_of_json (v : option json) :
  Js.truthy_value (of_json <$> v) = Js.truthy v.
Proof. now destruct v as [[] |]. Qed.

(** X9: when no user has the e-mail [s] and [POST /users] answers, the
    user it stored is the one [GET /users/s/role] then finds, and the role
    reported is the payload's [role] when that is truthy and "user"
    otherwise: the payload chooses its own role, "admin" included. *)
Theorem signed_in_user_role (req : Req) (e : env) (w : world) (s : string) (r : response) :
  body req !! "email" = Some (JStr s) -> s <> "" ->
  Mongo.findOne [("email", VStr s)] (users w) = None ->
  (POST_users req e w).1 = inr r ->
  forall req2 e2,
    params req2 !! "email" = Some s ->
    GET_users_email_role req2 e2 (POST_users req e w).2
    = (inr {| status := 200;
              sent := Obj [("role", if Js.truthy (body req !! "role")
                                    then of_undef (body req !! "role")
                                    else VStr "user")] |},
       (POST_users req e w).2).
Proof.
  intros Hemail Hs Hnone Hans req2 e2 Hreq2.
  unfold POST_users, bind, findOne, new_Date, insertOne in *. rewrite Hemail in *.
  simpl in *. rewrite Hnone in *.
  destruct (Mongo.insertOne _ (users w) (next_oid w)) as [[[] | [id l]] n] eqn:Hi;
    try discriminate.
  destruct (insertOne_Some _ _ _ _ _ _ Hi) as (d' & -> & _ & _ & Hd' & _).
  simpl. unfold GET_users_email_role. rewrite Hreq2, (truthy_string_Some s Hs). simpl.
  unfold try_catch, bind, findOne. simpl.
  rewrite (findOne_app_None _ _ _ Hnone). unfold Mongo.findOne. simpl.
  assert (d' !! "email" = Some (VStr s)) as Hde.
  { rewrite (Hd' "email") by discriminate. rewrite lookup_insert_ne by discriminate.
    unfold doc_of_body. now rewrite lookup_fmap, Hemail. }
  assert (d' !! "role" = of_json <$> body req !! "role") as Hdr.
  { rewrite (Hd' "role") by discriminate. rewrite lookup_insert_ne by discriminate.
    apply lookup_fmap. }
  rewrite Hde, bool_decide_eq_true_2 by reflexivity. simpl.
  rewrite Hdr, truthy_value_of_json. now destruct (body req !! "role") as [[] |].
Qed.

Lemma signed_in_user_role_witness :
  GET_users_email_role (request None [("email", "eve@example.com")] [] []) sample_env
    (POST_users (request None [] [] [("email", JStr "eve@example.com"); ("role", JStr "admin")])
       sample_env sample_world).2
  = (inr {| status := 200; sent := Obj [("role", VStr "admin")] |},
     (POST_users (request None [] [] [("email", JStr "eve@example.com"); ("role", JStr "admin")])
        sample_env sample_world).2).
Proof.
  apply (signed_in_user_role
           (request None [] [] [("email", JStr "eve@example.com"); ("role", JStr "admin")])
           sample_env sample_world "eve@example.com"
           {| status := 200; sent := Inserted (VOid 10) |});
    try (vm_compute; reflexivity).
  discriminate.
Defined.

(** ** Creating a parcel, then fetching and deleting it *)

(** X10: when [POST /parcels] answers 201 with a generated identifier, the
    stored parcel is the payload as sent plus that [_id] and nothing else
    (no creation time is added), and [GET /parcels/:id] with the identifier
    in hexadecimal answers 200 with exactly that document. *)
Theorem created_parcel_fetched (req : Req) (e : env) (w : world) (o : N) :
  (POST_parcels req e w).1 = inr {| status := 201; sent := Inserted (VOid o) |} ->
  let w' := (POST_parcels req e w).2 in
  let parcel := <["_id" := VOid o]> (doc_of_body (body req)) in
  parcels w' = parcels w ++ [parcel]
  /\ parcel !! "createdAt" = of_json <$> body req !! "createdAt"
  /\ forall req2 e2 s,
       params req2 !! "id" = Some s -> Bson.of_hex s = Some o ->
       GET_parcels_id req2 e2 w' = (inr {| status := 200; sent := Document parcel |}, w').
Proof.
  unfold POST_parcels, try_catch, bind, insertOne. simpl.
  destruct (Mongo.insertOne _ (parcels w) (next_oid w)) as [[[] | [id l]] n] eqn:Hi;
    simpl; try discriminate.
  intros [= ->].
  destruct (insertOne_Some _ _ _ _ _ _ Hi) as (d' & -> & Hid & Hfree & _ & Hcase).
  assert (d' = <["_id" := VOid o]> (doc_of_body (body req))) as ->.
  { destruct Hcase as [(_ & _ & ->) | (Hown & _ & _ & ->)].
    - destruct (insertOne_Some _ _ _ _ _ _ Hi) as (_ & _ & _ & _ & _ & [([= ->] & _) | (H & _)]);
        [reflexivity | now apply no_oid_id_body in H].
    - now apply no_oid_id_body in Hown. }
  split; [reflexivity |]. split.
  { rewrite lookup_insert_ne by discriminate. apply lookup_fmap. }
  intros req2 e2 s Hs Ho. unfold GET_parcels_id, try_catch, bind, param. rewrite Hs.
  simpl. rewrite Ho. simpl. unfold findOne. simpl. rewrite findOne_by_id, by_id_app.
  apply has_id_by_id in Hfree. rewrite Hfree, Hid.
  now rewrite bool_decide_eq_true_2.
Qed.

Lemma created_parcel_fetched_witness :
  GET_parcels_id (request None [("id", "00000000000000000000000a")] [] []) sample_env
    (POST_parcels (request None [] [] [("payment_status", JStr "unpaid")])
       sample_env sample_world).2
  = (inr {| status := 200;
            sent := Document
                      (<["_id" := VOid 10]>
                         (doc_of_body
                            (body (request None [] [] [("payment_status", JStr "unpaid")])))) |},
     (POST_parcels (request None [] [] [("payment_status", JStr "unpaid")])
        sample_env sample_world).2).
Proof.
  apply (proj2 (proj2 (created_parcel_fetched
                         (request None [] [] [("payment_status", JStr "unpaid")])
                         sample_env sample_world 10%N ltac:(vm_compute; reflexivity)))
           (request None [("id", "00000000000000000000000a")] [] []) sample_env
           "00000000000000000000000a");
    vm_compute; reflexivity.
Defined.

Lemma by_id_deleteOne_other v o c :
  v <> VOid o ->
  by_id v (Mongo.deleteOne [("_id", VOid o)] c).2 = by_id v c.
Proof.
  intros Hv. unfold by_id. induction c as [| d c IH]; [reflexivity |].
  cbn [Mongo.deleteOne]. rewrite matches_id. case_bool_decide as Hd.
  - cbn [snd List.find]. rewrite bool_decide_eq_false_2 by congruence. reflexivity.
  - destruct (Mongo.deleteOne [("_id", VOid o)] c) as [n c']. simpl in *.
    now rewrite IH.
Qed.

#[global] Instance own_id_parcels_kept_order : StoreOrder own_id_parcels_kept.
Proof.
  split.
  - intros w w' Hdb v p _ Hp. unfold db in Hdb. injection Hdb as _ -> _ _. exact Hp.
  - intros w1 w2 w3 H12 H23 v p Hv Hp. apply (H23 v p Hv), (H12 v p Hv), Hp.
Qed.

Lemma kept_updateOne_parcels o sets :
  forallb (fun kv : string * value => negb (String.eqb kv.1 "_id")) sets = true ->
  keeps own_id_parcels_kept (updateOne Parcels [("_id", VOid o)] sets).
Proof.
  intros Hs e w v p Hv Hp. unfold updateOne.
  pose proof (by_id_updateOne_other v o sets (parcels w) Hs (Hv o)) as H. simpl get.
  destruct (Mongo.updateOne _ sets (parcels w)) as [r l]. simpl in *. congruence.
Qed.

Lemma kept_deleteOne_parcels o :
  keeps own_id_parcels_kept (deleteOne Parcels [("_id", VOid o)]).
Proof.
  intros e w v p Hv Hp. unfold deleteOne.
  pose proof (by_id_deleteOne_other v o (parcels w) (Hv o)) as H. simpl get.
  destruct (Mongo.deleteOne _ (parcels w)) as [r l]. simpl in *. congruence.
Qed.

Lemma kept_updateOne_other c q sets :
  coll_eqb c Parcels = false -> keeps own_id_parcels_kept (updateOne c q sets).
Proof.
  intros Hc e w v p Hv Hp. unfold updateOne.
  destruct (Mongo.updateOne q sets (get c w)) as [r l]. now destruct c.
Qed.

Lemma kept_deleteOne_other c q :
  coll_eqb c Parcels = false -> keeps own_id_parcels_kept (deleteOne c q).
Proof.
  intros Hc e w v p Hv Hp. unfold deleteOne.
  destruct (Mongo.deleteOne q (get c w)) as [r l]. now destruct c.
Qed.

Lemma kept_insertOne c d : keeps own_id_parcels_kept (insertOne c d).
Proof.
  intros e w v p Hv Hp. unfold insertOne.
  destruct (Mongo.insertOne d (get c w) (next_oid w)) as [[[] | [id l]] n] eqn:Hi;
    try exact Hp.
  destruct (insertOne_Some _ _ _ _ _ _ Hi) as (d' & -> & _).
  destruct c; simpl; try exact Hp. now rewrite by_id_app, Hp.
Qed.

Ltac kept_write :=
  first [apply kept_updateOne_parcels; reflexivity
        | apply kept_deleteOne_parcels
        | apply kept_updateOne_other; reflexivity
        | apply kept_deleteOne_other; reflexivity
        | apply kept_insertOne].

Lemma app_own_id_parcels_kept r req : keeps own_id_parcels_kept (app r req).
Proof.
  destruct r; simpl;
    match goal with |- keeps _ (?h _) => unfold h end; repeat keeps_step kept_write.
Qed.

(** X11: a parcel stored under an [_id] that is not an [ObjectId] (the
    payload of [POST /parcels] brought its own) is out of reach of every
    route that names a parcel: over any sequence of requests it is never
    deleted, paid, assigned or otherwise changed. *)
Theorem own_id_parcel_frozen (w w' : world) (v : value) (p : gmap string value) :
  steps w w' -> (forall o, v <> VOid o) ->
  by_id v (parcels w) = Some p -> by_id v (parcels w') = Some p.
Proof.
  intros Hsteps. revert v p. change (own_id_parcels_kept w w').
  induction Hsteps as [w | r req e w w' _ IH].
  - apply store_refl. apply _.
  - eapply (store_trans (R := own_id_parcels_kept)); [exact IH | apply app_own_id_parcels_kept].
Qed.

Lemma own_id_parcel_frozen_witness :
  by_id (VStr "p1")
    (parcels (app Post_payments (request None [] [] [("parcelId", JStr "p1")]) sample_env
                (app Delete_parcels_id (request None [("id", "p1")] [] []) sample_env
                   own_id_parcel_world).2).2)
  = Some (document [("_id", VStr "p1"); ("payment_status", VStr "unpaid")]).
Proof.
  apply (own_id_parcel_frozen own_id_parcel_world).
  - do 2 apply steps_step. apply steps_refl.
  - discriminate.
  - vm_compute. reflexivity.
Defined.

Lemma deleteOne_by_id n o c (p : gmap string value) :
  coll_ok n c -> by_id (VOid o) c = Some p ->
  (Mongo.deleteOne [("_id", VOid o)] c).1 = 1
  /\ by_id (VOid o) (Mongo.deleteOne [("_id", VOid o)] c).2 = None.
Proof.
  intros Hok Hp. rewrite <- findOne_by_id in Hp.
  destruct (findOne_split _ _ _ Hp) as (l1 & l2 & -> & Hl1 & Hd).
  rewrite (deleteOne_hit _ _ _ _ Hl1 Hd). split; [reflexivity |]. simpl.
  pose proof (by_id_remove n (VOid o) l1 p l2 Hok) as H.
  rewrite <- findOne_by_id, (findOne_app _ _ _ _ Hl1), Hd in H.
  destruct H as [H | [H _]]; [| exact H].
  exfalso. destruct Hok as [Hnd _]. rewrite map_app in Hnd. simpl in Hnd.
  apply NoDup_ListNoDup, List.NoDup_remove_2 in Hnd. apply Hnd.
  apply by_id_Some_In in H as [Hin Hid].
  rewrite matches_id in Hd. apply bool_decide_eq_true in Hd.
  rewrite Hd, <- Hid, <- map_app. now apply in_map.
Qed.

(** X12: in a well-formed store, [DELETE /parcels/:id] with an identifier of
    24 hexadecimal digits always answers 200: with [deletedCount] 1 when a
    parcel is stored under it, which is then gone while every other parcel
    is as before, and with [deletedCount] 0 and the world untouched when none
    is (a missing parcel is not a 404 here).  After a deletion,
    [GET /parcels/:id] with the same identifier answers 404. *)
Theorem DELETE_parcels_id_spec (req : Req) (e : env) (w : world) (s : string) (o : N) :
  wf w -> params req !! "id" = Some s -> Bson.of_hex s = Some o ->
  let w' := (DELETE_parcels_id req e w).2 in
  match by_id (VOid o) (parcels w) with
  | Some _ =>
      (DELETE_parcels_id req e w).1 = inr {| status := 200; sent := Deleted 1 |}
      /\ by_id (VOid o) (parcels w') = None
      /\ (forall v, v <> VOid o -> by_id v (parcels w') = by_id v (parcels w))
      /\ forall req2 e2,
           params req2 !! "id" = Some s ->
           GET_parcels_id req2 e2 w'
           = (inr {| status := 404; sent := Obj [("message", VStr "Parcel not found")] |}, w')
  | None => DELETE_parcels_id req e w = (inr {| status := 200; sent := Deleted 0 |}, w)
  end.
Proof.
  intros Hwf Hs Ho. unfold DELETE_parcels_id, try_catch, bind, param. rewrite Hs. simpl.
  rewrite Ho. cbn [ret]. unfold deleteOne. simpl get.
  pose proof (fun v => by_id_deleteOne_other v o (parcels w)) as Hother.
  destruct (by_id (VOid o) (parcels w)) as [p |] eqn:Hp.
  - destruct (deleteOne_by_id _ o _ p (wf_get Parcels w Hwf) Hp) as [Hn Hgone].
    simpl get in Hn, Hgone.
    destruct (Mongo.deleteOne [("_id", VOid o)] (parcels w)) as [n l]. simpl in *. subst n.
    split; [reflexivity |]. split; [exact Hgone |]. split; [exact Hother |].
    intros req2 e2 Hreq2. unfold GET_parcels_id, try_catch, bind, param. rewrite Hreq2.
    simpl. rewrite Ho. simpl. unfold findOne. simpl. now rewrite findOne_by_id, Hgone.
  - rewrite <- findOne_by_id in Hp. apply findOne_None in Hp.
    rewrite (deleteOne_miss _ _ Hp). simpl. now destruct w.
Qed.

Lemma DELETE_parcels_id_spec_witness :
  (DELETE_parcels_id (request None [("id", "000000000000000000000003")] [] [])
     sample_env sample_world).1
  = inr {| status := 200; sent := Deleted 1 |}
  /\ by_id (VOid 3)
       (parcels (DELETE_parcels_id (request None [("id", "000000000000000000000003")] [] [])
                   sample_env sample_world).2) = None.
Proof.
  pose proof (DELETE_parcels_id_spec
                (request None [("id", "000000000000000000000003")] [] [])
                sample_env sample_world "000000000000000000000003" 3%N
                ltac:(refine (bool_decide_unpack _ _); vm_compute; exact I)
                ltac:(vm_compute; reflexivity) ltac:(vm_compute; reflexivity)) as H.
  assert (by_id (VOid 3) (parcels sample_world)
          = Some (document [("_id", VOid 3); ("payment_status", VStr "paid");
                            ("delivery_status", VStr "pending");
                            ("createdAt", VStr "2025-03-01")])) as Hp
    by (vm_compute; reflexivity).
  rewrite Hp in H. destruct H as (H1 & H2 & _). split; assumption.
Defined.

(** ** The admin's lists of riders *)

(** X13: for a verified identity that is a stored admin, [GET /riders/pending]
    answers 200 with exactly the stored riders whose [status] is "pending",
    newest first by [applied_at], and writes nothing. *)
Theorem GET_riders_pending_spec (req : Req) (e : env) (w : world)
    (decoded : DecodedIdToken) :
  verified e req decoded -> is_admin w decoded ->
  exists l,
    GET_riders_pending req e w = (inr {| status := 200; sent := Docs l |}, w)
    /\ Permutation l
         (List.filter (fun r : gmap string value =>
                         bool_decide (r !! "status" = Some (VStr "pending"))) (riders w))
    /\ newest_first "applied_at" l
    /\ (forall r : gmap string value,
          In r l <-> In r (riders w) /\ r !! "status" = Some (VStr "pending")).
Proof.
  intros Hv Ha. unfold GET_riders_pending.
  rewrite (verifyFBToken_verified _ _ _ _ _ Hv), (adminVerify_admin _ _ _ _ Ha).
  unfold try_catch, bind, find, send, ret. simpl.
  assert (Mongo.find [("status", VStr "pending")] (riders w)
          = List.filter (fun r : gmap string value =>
                           bool_decide (r !! "status" = Some (VStr "pending"))) (riders w))
    as ->.
  { unfold Mongo.find. apply List.filter_ext. intros r. now rewrite matches_one. }
  eexists. split; [reflexivity |]. split; [apply sort_desc_perm |].
  split; [apply sort_desc_sorted |].
  intros r. now rewrite sort_desc_In, List.filter_In, bool_decide_eq_true.
Qed.

Lemma GET_riders_pending_spec_witness :
  verified sample_env (request (Some "Bearer token-admin") [] [] [])
    {| email := Some "admin@example.com" |}
  /\ is_admin sample_world {| email := Some "admin@example.com" |}
  /\ exists l,
       GET_riders_pending (request (Some "Bearer token-admin") [] [] [])
         sample_env sample_world
       = (inr {| status := 200; sent := Docs l |}, sample_world)
       /\ newest_first "applied_at" l.
Proof.
  assert (verified sample_env (request (Some "Bearer token-admin") [] [] [])
            {| email := Some "admin@example.com" |}) as Hv.
  { exists "Bearer token-admin", "token-admin". repeat split; try (vm_compute; reflexivity).
    discriminate. }
  assert (is_admin sample_world {| email := Some "admin@example.com" |}) as Ha.
  { eexists. split; vm_compute; reflexivity. }
  split; [exact Hv |]. split; [exact Ha |].
  destruct (GET_riders_pending_spec _ sample_env sample_world _ Hv Ha) as (l & Hrun & _ & Hs & _).
  exists l. split; assumption.
Defined.

(** X14: for a verified identity that is a stored admin, [GET /riders/active]
    answers 200 with exactly the stored riders whose [status] is "active", in
    stored order, whatever their [work_status], and writes nothing. *)
Theorem GET_riders_active_spec (req : Req) (e : env) (w : world)
    (decoded : DecodedIdToken) :
  verified e req decoded -> is_admin w decoded ->
  exists l,
    GET_riders_active req e w = (inr {| status := 200; sent := Docs l |}, w)
    /\ l = List.filter (fun r : gmap string value =>
                          bool_decide (r !! "status" = Some (VStr "active"))) (riders w)
    /\ (forall r : gmap string value,
          In r l <-> In r (riders w) /\ r !! "status" = Some (VStr "active")).
Proof.
  intros Hv Ha. unfold GET_riders_active.
  rewrite (verifyFBToken_verified _ _ _ _ _ Hv), (adminVerify_admin _ _ _ _ Ha).
  unfold bind, find, send, ret. simpl.
  assert (Mongo.find [("status", VStr "active")] (riders w)
          = List.filter (fun r : gmap string value =>
                           bool_decide (r !! "status" = Some (VStr "active"))) (riders w))
    as ->.
  { unfold Mongo.find. apply List.filter_ext. intros r. now rewrite matches_one. }
  eexists. split; [reflexivity |]. split; [reflexivity |].
  intros r. now rewrite List.filter_In, bool_decide_eq_true.
Qed.

Lemma GET_riders_active_spec_witness :
  verified sample_env (request (Some "Bearer token-admin") [] [] [])
    {| email := Some "admin@example.com" |}
  /\ is_admin sample_world {| email := Some "admin@example.com" |}
  /\ exists l,
       GET_riders_active (request (Some "Bearer token-admin") [] [] [])
         sample_env sample_world
       = (inr {| status := 200; sent := Docs l |}, sample_world)
       /\ l = List.filter (fun r : gmap string value =>
                             bool_decide (r !! "status" = Some (VStr "active")))
                (riders sample_world).
Proof.
  assert (verified sample_env (request (Some "Bearer token-admin") [] [] [])
            {| email := Some "admin@example.com" |}) as Hv.
  { exists "Bearer token-admin", "token-admin". repeat split; try (vm_compute; reflexivity).
    discriminate. }
  assert (is_admin sample_world {| email := Some "admin@example.com" |}) as Ha.
  { eexists. split; vm_compute; reflexivity. }
  split; [exact Hv |]. split; [exact Ha |].
  destruct (GET_riders_active_spec _ sample_env sample_world _ Hv Ha) as (l & Hrun & Hl & _).
  exists l. split; assumption.
Defined.

(** ** The two ways to set a rider's status *)



Ltac users_same := first [congruence | intros ->; simpl; congruence].

(** X16: [PATCH /riders/:id/status] changes the users only by its cascade: if
    a run leaves the users different, then the identity was verified and is
    a stored admin, the [status] was "active", the request's identifier is 24
    hexadecimal digits, a rider with a truthy [email] is stored under that
    identifier, and what happened to the users is that the first of them with
    the rider's [email] got the role "rider".  In particular "rejected" never
    touches a user. *)
Theorem approval_changes_users_only_if (req : Req) (e : env) (w : world) (s : string) :
  params req !! "id" = Some s ->
  users (PATCH_riders_id_status req e w).2 <> users w ->
  body req !! "status" = Some (JStr "active")
  /\ (exists decoded, verified e req decoded /\ is_admin w decoded)
  /\ exists o (r : gmap string value) (rider_email : value),
       Bson.of_hex s = Some o
       /\ by_id (VOid o) (riders w) = Some r
       /\ r !! "email" = Some rider_email
       /\ Js.truthy_value (Some rider_email) = true
       /\ users (PATCH_riders_id_status req e w).2
          = (Mongo.updateOne [("email", rider_email)] [("role", VStr "rider")] (users w)).2.
Proof.
  intros Hs. remember (PATCH_riders_id_status req e w).2 as w' eqn:Hw'. revert Hw'.
  unfold PATCH_riders_id_status, verifyFBToken.
  destruct (authorization req) as [h |] eqn:Hh; simpl; [| users_same].
  destruct (String.eqb_spec h "") as [-> | Hhne]; simpl; [users_same |].
  destruct (Js.split " " h !! 1%nat) as [tok |] eqn:Htok; simpl; [| users_same].
  destruct (String.eqb_spec tok "") as [-> | Htne]; simpl; [users_same |].
  destruct (verifyIdToken e tok) as [decoded |] eqn:Hv; simpl; [| users_same].
  unfold adminVerify, bind at 1, findOne at 1. cbn [get].
  destruct (Mongo.findOne _ (users w)) as [u |] eqn:Hu; simpl; [| users_same].
  case_bool_decide as Hrole; simpl; [| users_same].
  assert (verified e req decoded /\ is_admin w decoded) as Hgate.
  { split; [exists h, tok; auto | exists u; auto]. }
  destruct (Js.includes ["active"; "rejected"] (body req !! "status")) eqn:Hinc; simpl;
    [| users_same].
  unfold try_catch, bind, param. rewrite Hs. simpl.
  destruct (Bson.of_hex s) as [o |] eqn:Ho; simpl; [| users_same].
  unfold updateOne at 1. cbn [get].
  pose proof (by_id_updateOne o [("status", of_undef (body req !! "status"))] (riders w)
                eq_refl) as Hby.
  destruct (Mongo.updateOne [("_id", VOid o)] _ (riders w)) as [res l]. simpl in Hby.
  cbn [bind]. case_bool_decide as Hact; simpl.
  - unfold findOne. simpl. rewrite findOne_by_id, Hby.
    destruct (by_id (VOid o) (riders w)) as [r |] eqn:Hr; simpl; [| users_same].
    unfold Mongo.apply_set. simpl. rewrite lookup_insert_ne by discriminate.
    destruct (Js.truthy_value (r !! "email")) eqn:Hem; simpl; [| users_same].
    destruct (r !! "email") as [rider_email |] eqn:Hre; [| discriminate].
    unfold updateOne. simpl.
    destruct (Mongo.updateOne [("email", rider_email)] [("role", VStr "rider")] (users w))
      as [res' l'] eqn:Hup. simpl.
    intros -> _. split; [exact Hact |]. split; [eauto |].
    exists o, r, rider_email. rewrite Hup. auto.
  - users_same.
Qed.

Lemma approval_changes_users_only_if_witness :
  body (request (Some "Bearer token-admin") [("id", "000000000000000000000007")] []
          [("status", JStr "active")]) !! "status" = Some (JStr "active")
  /\ (exists decoded,
        verified sample_env
          (request (Some "Bearer token-admin") [("id", "000000000000000000000007")] []
             [("status", JStr "active")]) decoded
        /\ is_admin sample_world decoded)
  /\ exists o (r : gmap string value) (rider_email : value),
       Bson.of_hex "000000000000000000000007" = Some o
       /\ by_id (VOid o) (riders sample_world) = Some r
       /\ r !! "email" = Some rider_email
       /\ Js.truthy_value (Some rider_email) = true
       /\ users (PATCH_riders_id_status
                   (request (Some "Bearer token-admin") [("id", "000000000000000000000007")] []
                      [("status", JStr "active")]) sample_env sample_world).2
          = (Mongo.updateOne [("email", rider_email)] [("role", VStr "rider")]
               (users sample_world)).2.
Proof.
  apply approval_changes_users_only_if.
  - vm_compute. reflexivity.
  - refine (proj1 (bool_decide_eq_false _) _). vm_compute. reflexivity.
Defined.

(** ** Parcels without a creation time are listed last *)

Lemma leb_null v : Bson.leb v VNull = true -> v = VNull.
Proof. destruct v; unfold Bson.leb; simpl; (reflexivity || discriminate). Qed.

Lemma sorted_before k l l1 (p : gmap string value) l2 q l3 :
  newest_first k l -> l = l1 ++ p :: l2 ++ q :: l3 ->
  Bson.leb (Mongo.sort_key k q) (Mongo.sort_key k p) = true.
Proof.
  intros Hs ->. unfold newest_first in Hs.
  induction l1 as [| x l1 IH]; simpl in Hs.
  - apply StronglySorted_inv in Hs as [_ Hall]. rewrite List.Forall_forall in Hall.
    apply Hall. apply in_or_app. right. now left.
  - apply StronglySorted_inv in Hs as [Hs _]. now apply IH.
Qed.

(** X17: [POST /parcels] adds no creation time, and [GET /parcels] sorts on
    [createdAt]: in every 200 answer of [GET /parcels] a parcel without
    [createdAt] (or with [null]) never comes before a parcel that has one. *)
Theorem parcels_without_createdAt_last (req : Req) (e : env) (w w' : world)
    (l l1 l2 l3 : list (gmap string value)) (p q : gmap string value) (v : value) :
  GET_parcels req e w = (inr {| status := 200; sent := Docs l |}, w') ->
  l = l1 ++ p :: l2 ++ q :: l3 ->
  Mongo.sort_key "createdAt" p = VNull ->
  q !! "createdAt" = Some v ->
  v = VNull.
Proof.
  intros Hrun Hl Hp Hq.
  assert (newest_first "createdAt" l) as Hs.
  { revert Hrun. unfold GET_parcels, verifyFBToken.
    destruct (negb (Js.truthy_string (authorization req))); [discriminate |].
    destruct (negb (Js.truthy_string _)); [discriminate |].
    destruct (verifyIdToken e _); [| discriminate].
    unfold try_catch, bind, find, send, ret. simpl. intros [= <- _].
    apply sort_desc_sorted. }
  pose proof (sorted_before _ _ _ _ _ _ _ Hs Hl) as Hle.
  rewrite Hp in Hle. apply leb_null in Hle. unfold Mongo.sort_key in Hle.
  rewrite Hq in Hle. exact Hle.
Qed.

Lemma parcels_without_createdAt_last_witness :
  GET_parcels (request (Some "Bearer token-a") [] [] []) sample_env undated_world
  = (inr {| status := 200;
            sent := Docs ([document [("_id", VOid 2); ("createdAt", VStr "2025-01-01")]]
                          ++ document [("_id", VOid 0)]
                             :: [] ++ document [("_id", VOid 1); ("createdAt", VNull)] :: []) |},
     undated_world)
  /\ Mongo.sort_key "createdAt" (document [("_id", VOid 0)]) = VNull
  /\ document [("_id", VOid 1); ("createdAt", VNull)] !! "createdAt" = Some VNull
  /\ VNull = VNull.
Proof.
  assert (GET_parcels (request (Some "Bearer token-a") [] [] []) sample_env undated_world
          = (inr {| status := 200;
                    sent := Docs ([document [("_id", VOid 2); ("createdAt", VStr "2025-01-01")]]
                                  ++ document [("_id", VOid 0)]
                                     :: [] ++ document [("_id", VOid 1); ("createdAt", VNull)]
                                        :: []) |},
             undated_world)) as Hrun by (vm_compute; reflexivity).
  assert (Mongo.sort_key "createdAt" (document [("_id", VOid 0)]) = VNull) as Hp
    by (vm_compute; reflexivity).
  assert (document [("_id", VOid 1); ("createdAt", VNull)] !! "createdAt" = Some VNull) as Hq
    by (vm_compute; reflexivity).
  split; [exact Hrun |]. split; [exact Hp |]. split; [exact Hq |].
  exact (parcels_without_createdAt_last _ _ _ _ _ _ _ _ _ _ _ Hrun eq_refl Hp Hq).
Defined.

(** ** Doing the same thing twice *)

Lemma apply_set_lookup sets (d : gmap string value) j :
  Mongo.apply_set sets d !! j
  = foldl (fun o (kv : string * value) => if decide (kv.1 = j) then Some kv.2 else o)
      (d !! j) sets.
Proof.
  unfold Mongo.apply_set. revert d. induction sets as [| [k v] sets IH]; intros d; simpl;
    [reflexivity |].
  rewrite IH. f_equal. rewrite lookup_insert. simpl. now destruct (decide (k = j)).
Qed.

Lemma last_binding_idem (sets : list (string * value)) j o :
  foldl (fun o (kv : string * value) => if decide (kv.1 = j) then Some kv.2 else o)
    (foldl (fun o (kv : string * value) => if decide (kv.1 = j) then Some kv.2 else o) o sets)
    sets
  = foldl (fun o (kv : string * value) => if decide (kv.1 = j) then Some kv.2 else o) o sets.
Proof.
  revert o. induction sets as [| kv sets IH] using rev_ind; intros o; [reflexivity |].
  rewrite !foldl_app. simpl. destruct (decide (kv.1 = j)); [reflexivity | apply IH].
Qed.

Lemma apply_set_idem sets (d : gmap string value) :
  Mongo.apply_set sets (Mongo.apply_set sets d) = Mongo.apply_set sets d.
Proof.
  apply map_eq. intros j. rewrite (apply_set_lookup sets (Mongo.apply_set sets d)).
  rewrite !apply_set_lookup. apply last_binding_idem.
Qed.

(** Repeating an update finds the same document and changes nothing. *)
Lemma updateOne_idem q sets c :
  (forall d, Mongo.matches q (Mongo.apply_set sets d) = Mongo.matches q d) ->
  Mongo.updateOne q sets (Mongo.updateOne q sets c).2
  = ({| Mongo.matchedCount := Mongo.matchedCount (Mongo.updateOne q sets c).1;
        Mongo.modifiedCount := 0 |},
     (Mongo.updateOne q sets c).2).
Proof.
  intros Hm. destruct (Mongo.findOne q c) as [d |] eqn:Hf.
  - destruct (findOne_split _ _ _ Hf) as (l1 & l2 & -> & Hl1 & Hd).
    rewrite (updateOne_hit _ _ _ _ _ Hl1 Hd). simpl.
    rewrite (updateOne_hit _ _ _ _ _ Hl1) by now rewrite Hm.
    now rewrite apply_set_idem, bool_decide_eq_true_2.
  - apply findOne_None in Hf. rewrite (updateOne_miss _ _ _ Hf). simpl.
    now rewrite (updateOne_miss _ _ _ Hf).
Qed.

(** X18: [PATCH /users/:id/role] repeated with the same identifier of 24
    hexadecimal digits and the same valid role modifies nothing the second
    time: the answer is 200 with [modifiedCount] 0 and the world is as the
    first call left it, whether or not a user is stored under the identifier
    ([matchedCount] is what tells the two apart). *)
Theorem PATCH_users_id_role_twice (req : Req) (e e2 : env) (w : world) (s : string) (o : N) :
  params req !! "id" = Some s -> Bson.of_hex s = Some o ->
  Js.includes ["admin"; "user"] (body req !! "role") = true ->
  let w' := (PATCH_users_id_role req e w).2 in
  PATCH_users_id_role req e2 w'
  = (inr {| status := 200;
            sent := Updated
                      {| Mongo.matchedCount :=
                           match by_id (VOid o) (users w) with Some _ => 1 | None => 0 end;
                         Mongo.modifiedCount := 0 |} |}, w').
Proof.
  intros Hs Ho Hr w'. subst w'. unfold PATCH_users_id_role, param. rewrite Hs, Hr. simpl.
  unfold try_catch, bind. simpl. rewrite Ho. simpl. unfold updateOne. simpl get.
  set (sets := [("role", of_undef (body req !! "role"))]).
  pose proof (updateOne_idem [("_id", VOid o)] sets (users w)
                (fun d => matches_one_apply_set "_id" (VOid o) sets d eq_refl)) as Hidem.
  assert (Mongo.matchedCount (Mongo.updateOne [("_id", VOid o)] sets (users w)).1
          = match by_id (VOid o) (users w) with Some _ => 1 | None => 0 end) as Hm.
  { destruct (by_id (VOid o) (users w)) as [u |] eqn:Hu.
    - rewrite <- findOne_by_id in Hu. now destruct (updateOne_matched _ sets _ _ Hu).
    - now rewrite (updateOne_by_id_None _ _ _ Hu). }
  destruct (Mongo.updateOne [("_id", VOid o)] sets (users w)) as [res l]. simpl in *.
  rewrite Hidem, Hm. reflexivity.
Qed.

Lemma PATCH_users_id_role_twice_witness :
  PATCH_users_id_role
    (request None [("id", "000000000000000000000001")] [] [("role", JStr "admin")])
    sample_env
    (PATCH_users_id_role
       (request None [("id", "000000000000000000000001")] [] [("role", JStr "admin")])
       sample_env sample_world).2
  = (inr {| status := 200;
            sent := Updated
                      {| Mongo.matchedCount :=
                           match by_id (VOid 1) (users sample_world) with Some _ => 1 | None => 0 end;
                         Mongo.modifiedCount := 0 |} |},
     (PATCH_users_id_role
        (request None [("id", "000000000000000000000001")] [] [("role", JStr "admin")])
        sample_env sample_world).2).
Proof.
  apply (PATCH_users_id_role_twice
           (request None [("id", "000000000000000000000001")] [] [("role", JStr "admin")])
           sample_env sample_env sample_world "000000000000000000000001" 1%N);
    vm_compute; reflexivity.
Defined.

(** X19: [POST /parcels/assign] repeated with the same body, a [parcelId] of
    24 hexadecimal digits and a truthy [assignedAt], changes nothing the
    second time: both modification counts are 0 and the world is as the first
    call left it. *)
Theorem POST_parcels_assign_twice (req : Req) (e e2 : env) (w : world) (s : string) (o : N) :
  body req !! "parcelId" = Some (JStr s) -> Bson.of_hex s = Some o ->
  Js.truthy (body req !! "riderEmail") = true ->
  Js.truthy (body req !! "assignedAt") = true ->
  let w' := (POST_parcels_assign req e w).2 in
  POST_parcels_assign req e2 w'
  = (inr {| status := 200;
            sent := Obj [("success", VBool true);
                         ("message", VStr "Rider assigned and statuses updated");
                         ("parcelModified", VNum 0); ("riderModified", VNum 0)] |}, w').
Proof.
  intros Hs Ho Hr Ha w'. subst w'.
  assert (Js.truthy (Some (JStr s)) = true) as Hp.
  { simpl. destruct (String.eqb_spec s ""); [subst; discriminate | reflexivity]. }
  unfold POST_parcels_assign. rewrite Hs, Hp, Hr, Ha. simpl.
  unfold try_catch, bind. simpl. rewrite Ho. simpl. unfold updateOne. simpl get.
  set (psets := [("delivery_status", VStr "in_transit");
                 ("assigned_rider", of_undef (body req !! "riderEmail"));
                 ("assigned_at", of_undef (body req !! "assignedAt"))]).
  set (rsets := [("work_status", VStr "in_delivery"); ("current_parcel", VOid o)]).
  pose proof (updateOne_idem [("_id", VOid o)] psets (parcels w)
                (fun d => matches_one_apply_set "_id" (VOid o) psets d eq_refl)) as Hpi.
  pose proof (updateOne_idem [("email", of_undef (body req !! "riderEmail"))] rsets (riders w)
                (fun d => matches_one_apply_set "email" _ rsets d eq_refl)) as Hri.
  destruct (Mongo.updateOne [("_id", VOid o)] psets (parcels w)) as [pres pl]. simpl in *.
  destruct (Mongo.updateOne _ rsets (riders w)) as [rres rl]. simpl in *.
  rewrite Hpi. simpl. rewrite Hri. reflexivity.
Qed.

Lemma POST_parcels_assign_twice_witness :
  POST_parcels_assign
    (request None [] []
       [("parcelId", JStr "000000000000000000000002"); ("riderEmail", JStr "r@example.com");
        ("assignedAt", JStr "2025-04-01")])
    sample_env
    (POST_parcels_assign
       (request None [] []
          [("parcelId", JStr "000000000000000000000002"); ("riderEmail", JStr "r@example.com");
           ("assignedAt", JStr "2025-04-01")])
       sample_env sample_world).2
  = (inr {| status := 200;
            sent := Obj [("success", VBool true);
                         ("message", VStr "Rider assigned and statuses updated");
                         ("parcelModified", VNum 0); ("riderModified", VNum 0)] |},
     (POST_parcels_assign
        (request None [] []
           [("parcelId", JStr "000000000000000000000002"); ("riderEmail", JStr "r@example.com");
            ("assignedAt", JStr "2025-04-01")])
        sample_env sample_world).2).
Proof.
  apply (POST_parcels_assign_twice
           (request None [] []
              [("parcelId", JStr "000000000000000000000002");
               ("riderEmail", JStr "r@example.com"); ("assignedAt", JStr "2025-04-01")])
           sample_env sample_env sample_world "000000000000000000000002" 2%N);
    vm_compute; reflexivity.
Defined.

(** ** Setting a role needs no credential *)

(** X20: [PATCH /users/:id/role] is registered without a gate, so any request
    can make an admin: after it sets the role "admin" on a stored user, an
    identity with that user's e-mail passes the admin gate. *)
Theorem role_admin_passes_gate (req : Req) (e : env) (w : world) (s : string) (o : N)
    (u : gmap string value) (em : string) :
  params req !! "id" = Some s -> Bson.of_hex s = Some o ->
  body req !! "role" = Some (JStr "admin") ->
  by_id (VOid o) (users w) = Some u ->
  Mongo.findOne [("email", VStr em)] (users w) = Some u ->
  is_admin (PATCH_users_id_role req e w).2 {| email := Some em |}.
Proof.
  intros Hs Ho Hr Hu He. unfold PATCH_users_id_role, param. rewrite Hs, Hr. simpl.
  unfold try_catch, bind. simpl. rewrite Ho. simpl. unfold updateOne. simpl get.
  rewrite <- findOne_by_id in Hu.
  destruct (findOne_split _ _ _ Hu) as (l1 & l2 & Hl & Hl1 & Hd).
  rewrite Hl, (updateOne_hit _ _ _ _ _ Hl1 Hd). simpl.
  exists (<["role" := VStr "admin"]> u). split; [| apply lookup_insert_eq].
  simpl. rewrite Hl in He.
  assert (Mongo.findOne [("email", VStr em)] l1 = None) as Hnone.
  { destruct (Mongo.findOne [("email", VStr em)] l1) as [x |] eqn:Hx; [| reflexivity].
    exfalso. destruct (findOne_split _ _ _ Hx) as (a & b & -> & Ha & Hxm).
    rewrite <- app_assoc in He. simpl in He. rewrite (findOne_app _ _ _ _ Ha), Hxm in He.
    injection He as ->. apply List.Forall_app in Hl1 as [_ Hl1].
    apply Forall_inv in Hl1. congruence. }
  assert (Mongo.matches [("email", VStr em)] u = true) as Hum.
  { rewrite (findOne_app_None _ _ _ Hnone) in He. unfold Mongo.findOne in He. simpl in He.
    unfold Mongo.matches. simpl.
    destruct (bool_decide (u !! "email" = Some (VStr em)) && true) eqn:Hm; [reflexivity |].
    apply List.find_some in He as [_ He]. unfold Mongo.matches in He. simpl in He.
    congruence. }
  rewrite (findOne_app_None _ _ _ Hnone). unfold Mongo.findOne. simpl.
  assert (Mongo.matches [("email", VStr em)] (<["role" := VStr "admin"]> u) = true) as Hm'.
  { etransitivity; [| exact Hum].
    apply (matches_one_apply_set "email" (VStr em) [("role", VStr "admin")]). reflexivity. }
  unfold Mongo.matches in Hm'. simpl in Hm'. now rewrite Hm'.
Qed.

Lemma role_admin_passes_gate_witness :
  is_admin
    (PATCH_users_id_role
       (request None [("id", "000000000000000000000001")] [] [("role", JStr "admin")])
       sample_env sample_world).2
    {| email := Some "r@example.com" |}.
Proof.
  apply (role_admin_passes_gate
           (request None [("id", "000000000000000000000001")] [] [("role", JStr "admin")])
           sample_env sample_world "000000000000000000000001" 1%N
           (document [("_id", VOid 1); ("email", VStr "r@example.com"); ("role", VStr "user")])
           "r@example.com");
    vm_compute; reflexivity.
Defined.

(** ** A recorded payment shows in its payer's list *)

(** X21: in a well-formed store, after [POST /payments] with a non-empty
    e-mail on a stored parcel that is not yet paid, [GET /payments] by a
    verified identity with that e-mail answers 200 with a list that holds the
    new payment document, carrying the request's [parcelId] and [email], and
    still holds every payment of that e-mail stored before. *)
Theorem recorded_payment_listed (req : Req) (e : env) (w : world) (s : string) (o : N)
    (p : gmap string value) (em : string)
    (req2 : Req) (e2 : env) (decoded : DecodedIdToken) :
  wf w ->
  body req !! "parcelId" = Some (JStr s) -> Bson.of_hex s = Some o ->
  by_id (VOid o) (parcels w) = Some p -> is_paid p = false ->
  body req !! "email" = Some (JStr em) -> em <> "" ->
  verified e2 req2 decoded -> email decoded = Some em -> query req2 !! "email" = Some em ->
  let w' := (POST_payments req e w).2 in
  exists l (paymentDoc : gmap string value),
    GET_payments req2 e2 w' = (inr {| status := 200; sent := Docs l |}, w')
    /\ In paymentDoc l
    /\ paymentDoc !! "parcelId" = Some (VStr s)
    /\ paymentDoc !! "email" = Some (VStr em)
    /\ by_id (default VNull (paymentDoc !! "_id")) (payments w) = None
    /\ forall q : gmap string value,
         In q (payments w) -> q !! "email" = Some (VStr em) -> In q l.
Proof.
  intros Hwf Hs Ho Hp Hunpaid Hem Hne Hv Hde Hq w'. subst w'.
  destruct (POST_payments_cases req e w Hwf) as [_ Hacc]. rewrite Hs in Hacc.
  specialize (Hacc o). rewrite (new_ObjectId_hex _ _ _ _ Ho) in Hacc.
  destruct (Hacc eq_refl) as [_ Hpaid]. clear Hacc.
  destruct Hpaid as (id & paymentDoc & w' & Hrun & Hpay & Hid & Hnew & _ & _ & Hpid & Hpem & _).
  { rewrite <- findOne_by_id in Hp.
    destruct (updateOne_matched _ [("payment_status", VStr "paid")] _ _ Hp) as [_ ->].
    case_bool_decide as Heq; [| discriminate]. exfalso.
    unfold is_paid in Hunpaid. apply bool_decide_eq_false in Hunpaid. apply Hunpaid.
    rewrite <- Heq. apply apply_set_paid. }
  rewrite Hrun. simpl. unfold GET_payments. rewrite (verifyFBToken_verified _ _ _ _ _ Hv).
  unfold try_catch, bind, find, send, ret. rewrite Hde, Hq.
  rewrite bool_decide_eq_true_2 by reflexivity. rewrite (truthy_string_Some em Hne). simpl.
  rewrite Hpay. eexists _, paymentDoc. split; [reflexivity |].
  assert (forall q : gmap string value,
            In q (payments w ++ [paymentDoc]) -> q !! "email" = Some (VStr em) ->
            In q (Mongo.sort_desc "paid_at"
                    (Mongo.find [("email", VStr em)] (payments w ++ [paymentDoc])))) as Hin.
  { intros q Hin Hqe. apply sort_desc_In. unfold Mongo.find. apply List.filter_In.
    split; [exact Hin |]. rewrite matches_one. simpl. now apply bool_decide_eq_true. }
  rewrite Hem in Hpem. simpl in Hpem. simpl in Hpid.
  split; [apply Hin; [apply in_or_app; right; now left | exact Hpem] |].
  split; [exact Hpid |]. split; [exact Hpem |]. split; [now rewrite Hid |].
  intros q Hq' Hqe. apply Hin; [apply in_or_app; now left | exact Hqe].
Qed.

Lemma recorded_payment_listed_witness :
  let w' := (POST_payments
               (request None [] []
                  [("parcelId", JStr "000000000000000000000002");
                   ("email", JStr "a@example.com")])
               sample_env sample_world).2 in
  exists l (paymentDoc : gmap string value),
    GET_payments (request (Some "Bearer token-a") [] [("email", "a@example.com")] [])
      sample_env w'
    = (inr {| status := 200; sent := Docs l |}, w')
    /\ In paymentDoc l
    /\ paymentDoc !! "parcelId" = Some (VStr "000000000000000000000002")
    /\ paymentDoc !! "email" = Some (VStr "a@example.com")
    /\ by_id (default VNull (paymentDoc !! "_id")) (payments sample_world) = None
    /\ forall q : gmap string value,
         In q (payments sample_world) -> q !! "email" = Some (VStr "a@example.com") -> In q l.
Proof.
  apply (recorded_payment_listed
           (request None [] []
              [("parcelId", JStr "000000000000000000000002"); ("email", JStr "a@example.com")])
           sample_env sample_world "000000000000000000000002" 2%N
           (document [("_id", VOid 2); ("payment_status", VStr "unpaid");
                      ("delivery_status", VStr "pending"); ("createdAt", VStr "2025-01-01")])
           "a@example.com"
           (request (Some "Bearer token-a") [] [("email", "a@example.com")] [])
           sample_env {| email := Some "a@example.com" |});
    try (vm_compute; reflexivity).
  - exact sample_world_wf.
  - discriminate.
  - exists "Bearer token-a", "token-a". repeat split; try (vm_compute; reflexivity).
    discriminate.
Defined.

(** ** Rejecting a rider application *)

(** X22: in a well-formed store, [DELETE /riders/:id] answers 500 and writes
    nothing when the identifier is not 24 hexadecimal digits, 404 and writes
    nothing when no rider is stored under it, and otherwise 200 with the
    rider under that identifier gone and every other rider as before. *)
Theorem DELETE_riders_id_spec (req : Req) (e : env) (w : world) (s : string) :
  wf w -> params req !! "id" = Some s ->
  let w' := (DELETE_riders_id req e w).2 in
  match Bson.of_hex s with
  | None =>
      DELETE_riders_id req e w
      = (inr {| status := 500;
                sent := Obj [("success", VBool false);
                             ("message", VStr "Server error while rejecting rider.")] |}, w)
  | Some o =>
      match by_id (VOid o) (riders w) with
      | Some _ =>
          (DELETE_riders_id req e w).1
          = inr {| status := 200;
                   sent := Obj [("success", VBool true);
                                ("message", VStr "Rider application rejected and deleted.")] |}
          /\ by_id (VOid o) (riders w') = None
          /\ forall v, v <> VOid o -> by_id v (riders w') = by_id v (riders w)
      | None =>
          DELETE_riders_id req e w
          = (inr {| status := 404;
                    sent := Obj [("success", VBool false);
                                 ("message", VStr "Rider not found.")] |}, w)
      end
  end.
Proof.
  intros Hwf Hs. unfold DELETE_riders_id, try_catch, bind, param. rewrite Hs. simpl.
  destruct (Bson.of_hex s) as [o |]; [| reflexivity]. cbn [ret]. unfold deleteOne. simpl get.
  pose proof (fun v => by_id_deleteOne_other v o (riders w)) as Hother.
  destruct (by_id (VOid o) (riders w)) as [p |] eqn:Hp.
  - destruct (deleteOne_by_id _ o _ p (wf_get Riders w Hwf) Hp) as [Hn Hgone].
    simpl get in Hn, Hgone.
    destruct (Mongo.deleteOne [("_id", VOid o)] (riders w)) as [n l]. simpl in *. subst n.
    split; [reflexivity |]. split; [exact Hgone | exact Hother].
  - rewrite <- findOne_by_id in Hp. apply findOne_None in Hp.
    rewrite (deleteOne_miss _ _ Hp). simpl. now destruct w.
Qed.

Lemma DELETE_riders_id_spec_witness :
  (DELETE_riders_id (request None [("id", "000000000000000000000007")] [] [])
     sample_env sample_world).1
  = inr {| status := 200;
           sent := Obj [("success", VBool true);
                        ("message", VStr "Rider application rejected and deleted.")] |}
  /\ by_id (VOid 7)
       (riders (DELETE_riders_id (request None [("id", "000000000000000000000007")] [] [])
                  sample_env sample_world).2) = None.
Proof.
  pose proof (DELETE_riders_id_spec
                (request None [("id", "000000000000000000000007")] [] [])
                sample_env sample_world "000000000000000000000007"
                ltac:(refine (bool_decide_unpack _ _); vm_compute; exact I)
                ltac:(vm_compute; reflexivity)) as H.
  assert (Bson.of_hex "000000000000000000000007" = Some 7%N) as Ho by (vm_compute; reflexivity).
  assert (by_id (VOid 7) (riders sample_world)
          = Some (document [("_id", VOid 7); ("email", VStr "r@example.com");
                            ("district", VStr "Dhaka"); ("status", VStr "pending");
                            ("work_status", VStr "in_delivery")])) as Hp
    by (vm_compute; reflexivity).
  rewrite Ho, Hp in H. destruct H as (H1 & H2 & _). split; assumption.
Defined.

(** X23: an application stored by [POST /riders] under a generated
    identifier is undone by [DELETE /riders/:id] with that identifier: the
    deletion answers 200 and the four collections are again as they were
    before the application. *)
Theorem rider_application_undone (req : Req) (e : env) (w : world) (o : N)
    (req2 : Req) (e2 : env) (s : string) :
  (POST_riders req e w).1 = inr {| status := 200; sent := Inserted (VOid o) |} ->
  params req2 !! "id" = Some s -> Bson.of_hex s = Some o ->
  let w' := (POST_riders req e w).2 in
  (DELETE_riders_id req2 e2 w').1
  = inr {| status := 200;
           sent := Obj [("success", VBool true);
                        ("message", VStr "Rider application rejected and deleted.")] |}
  /\ db (DELETE_riders_id req2 e2 w').2 = db w.
Proof.
  unfold POST_riders, bind, insertOne. simpl.
  destruct (Mongo.insertOne _ (riders w) (next_oid w)) as [[[] | [id l]] n] eqn:Hi;
    simpl; try discriminate.
  intros [= ->] Hs Ho.
  destruct (insertOne_Some _ _ _ _ _ _ Hi) as (d' & -> & Hid & Hfree & _).
  unfold DELETE_riders_id, try_catch, bind, param. rewrite Hs. simpl. rewrite Ho.
  cbn [ret]. unfold deleteOne. simpl get.
  assert (Mongo.deleteOne [("_id", VOid o)] (riders w ++ [d']) = (1, riders w ++ [])) as ->.
  { apply deleteOne_hit.
    - apply has_id_by_id, by_id_None in Hfree. eapply List.Forall_impl; [| exact Hfree].
      intros d Hd. rewrite matches_id. now apply bool_decide_eq_false.
    - rewrite matches_id. now apply bool_decide_eq_true. }
  simpl. rewrite app_nil_r. split; reflexivity.
Qed.

Lemma rider_application_undone_witness :
  db (DELETE_riders_id (request None [("id", "00000000000000000000000a")] [] []) sample_env
        (POST_riders (request None [] [] [("email", JStr "n@example.com")])
           sample_env sample_world).2).2
  = db sample_world.
Proof.
  apply (rider_application_undone
           (request None [] [] [("email", JStr "n@example.com")]) sample_env sample_world
           10%N (request None [("id", "00000000000000000000000a")] [] []) sample_env
           "00000000000000000000000a");
    vm_compute; reflexivity.
Defined.
